(** * xtop eBPF collectors: event pairing and bounded accumulation

    A shallow embedding of the probe handlers under
    [collector/ebpf/bpf/*.c].  Each handler is a function from the values it
    reads from its tracepoint context and from the kernel helpers
    ([bpf_ktime_get_ns], [bpf_get_current_pid_tgid], ...) and from the
    current contents of its BPF maps to its return code and the new contents
    of the maps.  Fixed-width C integers are [Z] with the wrap-around
    written out. *)

From Stdlib Require Import ZArith Lia List.
From Stdlib.Strings Require Import Byte String.
From stdpp Require Import base option list gmap.

Local Open Scope Z_scope.
Set Warnings "-abstract-large-number".

(** ** Kernel side: integers and BPF hash maps *)

Module Bpf.

Definition u16 (z : Z) : Z := z mod 2 ^ 16.
Definition u32 (z : Z) : Z := z mod 2 ^ 32.
Definition u64 (z : Z) : Z := z mod 2 ^ 64.

Definition U32_MAX : Z := 0xFFFFFFFF.
Definition U64_MAX : Z := 0xFFFFFFFFFFFFFFFF.

(** [__sync_fetch_and_add] on a 32-bit and on a 64-bit field. *)
Definition fetch_add32 (field v : Z) : Z := u32 (field + v).
Definition fetch_add64 (field v : Z) : Z := u64 (field + v).

(** [bpf_get_current_pid_tgid() >> 32] assigned to a [__u32]. *)
Definition tgid_of (pid_tgid : Z) : Z := u32 (Z.shiftr pid_tgid 32).

(** [__builtin_bswap16]. *)
Definition bswap16 (x : Z) : Z :=
  Z.lor (Z.shiftl (Z.land x 0xFF) 8) (Z.land (Z.shiftr x 8) 0xFF).

Definition EEXIST : Z := 17.
Definition ENOENT : Z := 2.
Definition E2BIG : Z := 7.

Inductive update_flags : Set := BPF_ANY | BPF_NOEXIST | BPF_EXIST.

Section HashMap.
Context {K V : Type} `{Countable K}.

(** A [BPF_MAP_TYPE_HASH] object: the [max_entries] of its declaration and
    its current elements. *)
Record bpf_map : Type := BpfMap { max_entries : nat; entries : gmap K V }.

Definition bpf_map_decl (n : nat) : bpf_map :=
  {| max_entries := n; entries := ∅ |}.

(** [bpf_map_lookup_elem]: a pointer to the element, or NULL. *)
Definition bpf_map_lookup_elem (m : bpf_map) (k : K) : option V :=
  entries m !! k.

(** A store through the pointer that [bpf_map_lookup_elem] returned:
    the element is rewritten in place. *)
Definition store_elem (m : bpf_map) (k : K) (v : V) : bpf_map :=
  {| max_entries := max_entries m; entries := <[k := v]> (entries m) |}.

(** Modelled from the spec: [bpf_map_update_elem] is a kernel helper, not
    part of the sources; this follows section 4.1 (insert if absent and
    not at capacity, do nothing if absent and at capacity) and section 4.4
    (a begin overwrites the entry of its key), with the error codes of
    the kernel's hash map. *)
Definition bpf_map_update_elem (m : bpf_map) (k : K) (v : V)
    (flags : update_flags) : Z * bpf_map :=
  match entries m !! k with
  | Some _ =>
      match flags with
      | BPF_NOEXIST => (- EEXIST, m)
      | _ => (0, store_elem m k v)
      end
  | None =>
      match flags with
      | BPF_EXIST => (- ENOENT, m)
      | _ =>
          if decide (size (entries m) < max_entries m)%nat
          then (0, store_elem m k v)
          else (- E2BIG, m)
      end
  end.

(** Modelled from the spec: [bpf_map_delete_elem] is a kernel helper;
    section 4.4, the entry of the key is removed. *)
Definition bpf_map_delete_elem (m : bpf_map) (k : K) : Z * bpf_map :=
  match entries m !! k with
  | Some _ => (0, {| max_entries := max_entries m; entries := delete k (entries m) |})
  | None => (- ENOENT, m)
  end.

(** The table is at capacity. *)
Definition full (m : bpf_map) : Prop :=
  size (entries m) = max_entries m.

(** An update for key [k] finds room: the key is present, or the table
    is not at capacity. *)
Definition has_room (m : bpf_map) (k : K) : Prop :=
  is_Some (entries m !! k) \/ (size (entries m) < max_entries m)%nat.
End HashMap.

Arguments bpf_map K V {_ _}.

(** The expression [delta > 0xFFFFFFFF ? 0xFFFFFFFF : (__u32)delta] that
    every handler with a 32-bit [max] field evaluates into its local
    [delta32]. *)
Definition delta32 (delta : Z) : Z :=
  if delta >? 0xFFFFFFFF then 0xFFFFFFFF else u32 delta.

End Bpf.

Import Bpf.

(** ** runqlat.c: run queue latency per PID *)

Module Runqlat.

Record rqlat_val : Set := { total_ns : Z; count : Z; max_ns : Z }.

Record state : Type := {
  rq_start : bpf_map Z Z;
  rqlat_accum : bpf_map Z rqlat_val
}.

Definition init : state :=
  {| rq_start := bpf_map_decl 10240; rqlat_accum := bpf_map_decl 10240 |}.

Definition STALE_NS : Z := 10000000000.

(** [ctx_pid] is [ctx->pid], [now] the value of [bpf_ktime_get_ns()]. *)
Definition handle_sched_wakeup (ctx_pid now : Z) (st : state) : Z * state :=
  let pid := u32 ctx_pid in
  if pid =? 0 then (0, st) else
  let ts := now in
  let rq := snd (bpf_map_update_elem (rq_start st) pid ts BPF_ANY) in
  (0, {| rq_start := rq; rqlat_accum := rqlat_accum st |}).

(** [next_tgid] is [BPF_CORE_READ(next, tgid)]. *)
Definition handle_sched_switch_rqlat (next_tgid now : Z) (st : state) : Z * state :=
  let pid := u32 next_tgid in
  if pid =? 0 then (0, st) else
  match bpf_map_lookup_elem (rq_start st) pid with
  | None => (0, st)
  | Some tsp =>
      let delta := u64 (now - tsp) in
      let rq := snd (bpf_map_delete_elem (rq_start st) pid) in
      if delta >? STALE_NS
      then (0, {| rq_start := rq; rqlat_accum := rqlat_accum st |})
      else
        match bpf_map_lookup_elem (rqlat_accum st) pid with
        | Some val =>
            let total := fetch_add64 (total_ns val) delta in
            let cnt := fetch_add32 (count val) 1 in
            let d32 := delta32 delta in
            let mx := if d32 >? max_ns val then d32 else max_ns val in
            let val' := {| total_ns := total; count := cnt; max_ns := mx |} in
            (0, {| rq_start := rq;
                   rqlat_accum := store_elem (rqlat_accum st) pid val' |})
        | None =>
            let d32 := delta32 delta in
            let new_val := {| total_ns := delta; count := 1; max_ns := d32 |} in
            let acc := snd (bpf_map_update_elem (rqlat_accum st) pid new_val BPF_NOEXIST) in
            (0, {| rq_start := rq; rqlat_accum := acc |})
        end
  end.

End Runqlat.

(** ** lockwait.c: futex wait contention per PID *)

Module Lockwait.

Definition FUTEX_WAIT : Z := 0.
Definition FUTEX_WAIT_BITSET : Z := 9.
Definition FUTEX_LOCK_PI : Z := 6.

Record lock_val : Set := { total_wait_ns : Z; count : Z }.

Record state : Type := {
  futex_start : bpf_map Z Z;
  futex_accum : bpf_map Z lock_val
}.

Definition init : state :=
  {| futex_start := bpf_map_decl 10240; futex_accum := bpf_map_decl 10240 |}.

Definition STALE_NS : Z := 30000000000.

(** [ctx_op] is [ctx->op], [pid_tgid] the value of
    [bpf_get_current_pid_tgid()]. *)
Definition handle_futex_enter (ctx_op pid_tgid now : Z) (st : state) : Z * state :=
  let op := Z.land ctx_op 0x7F in
  if negb (op =? FUTEX_WAIT) && negb (op =? FUTEX_WAIT_BITSET)
     && negb (op =? FUTEX_LOCK_PI)
  then (0, st) else
  let pid := tgid_of pid_tgid in
  if pid =? 0 then (0, st) else
  let ts := now in
  let fs := snd (bpf_map_update_elem (futex_start st) pid ts BPF_ANY) in
  (0, {| futex_start := fs; futex_accum := futex_accum st |}).

Definition handle_futex_exit (pid_tgid now : Z) (st : state) : Z * state :=
  let pid := tgid_of pid_tgid in
  if pid =? 0 then (0, st) else
  match bpf_map_lookup_elem (futex_start st) pid with
  | None => (0, st)
  | Some tsp =>
      let delta := u64 (now - tsp) in
      let fs := snd (bpf_map_delete_elem (futex_start st) pid) in
      if (delta =? 0) || (delta >? STALE_NS)
      then (0, {| futex_start := fs; futex_accum := futex_accum st |})
      else
        match bpf_map_lookup_elem (futex_accum st) pid with
        | Some val =>
            let total := fetch_add64 (total_wait_ns val) delta in
            let cnt := fetch_add32 (count val) 1 in
            let val' := {| total_wait_ns := total; count := cnt |} in
            (0, {| futex_start := fs;
                   futex_accum := store_elem (futex_accum st) pid val' |})
        | None =>
            let new_val := {| total_wait_ns := delta; count := 1 |} in
            let acc := snd (bpf_map_update_elem (futex_accum st) pid new_val BPF_NOEXIST) in
            (0, {| futex_start := fs; futex_accum := acc |})
        end
  end.

End Lockwait.

(** ** iolatency.c: block IO latency per PID *)

Module Iolatency.

Definition HIST_SLOTS : Z := 16.

(** [struct rq_key] is a [__u32] followed by a [__u64]: the compiler leaves
    four bytes between them.  [key_pad] is what those four bytes hold; the hash
    map compares them with the rest of the key. *)
Record rq_key : Set := { key_dev : Z; key_pad : Z; key_sector : Z }.

#[global] Instance rq_key_eq_dec : EqDecision rq_key.
Proof. solve_decision. Defined.

#[global] Instance rq_key_countable : Countable rq_key.
Proof.
  refine (inj_countable' (fun k => (key_dev k, key_pad k, key_sector k))
            (fun p => {| key_dev := fst (fst p); key_pad := snd (fst p);
                         key_sector := snd p |}) _).
  intros []; reflexivity.
Defined.

Record rq_start : Set := { pid : Z; start_ns : Z }.

Record iolat_val : Set := {
  total_ns : Z;
  max_ns : Z;
  count : Z;
  slots : list Z;
  dev : Z
}.

Record state : Type := {
  inflight : bpf_map rq_key rq_start;
  iolat_hist : bpf_map Z iolat_val
}.

Definition init : state :=
  {| inflight := bpf_map_decl 10240; iolat_hist := bpf_map_decl 10240 |}.

(** The body of the unrolled loop of [log2_slot], [n] iterations left. *)
Fixpoint log2_loop (n : nat) (v slot : Z) : Z :=
  match n with
  | O => slot
  | S n' =>
      if v >? 1
      then log2_loop n' (Z.shiftr v 1) (u32 (slot + 1))
      else log2_loop n' v slot
  end.

Definition log2_slot (us : Z) : Z :=
  let slot := log2_loop (Z.to_nat (HIST_SLOTS - 1)) us 0 in
  if slot >=? HIST_SLOTS then HIST_SLOTS - 1 else slot.

(** [slots[i]++] by [__sync_fetch_and_add]. *)
Definition slots_incr (sl : list Z) (i : Z) : list Z :=
  let n := Z.to_nat i in
  <[n := fetch_add32 (nth n sl 0) 1]> sl.

(** [ctx_dev] and [ctx_sector] are [ctx->dev] and [ctx->sector].  The
    initializer [{ .dev = dev, .sector = sector }] writes the two members of
    the key and not the four bytes between them: [stack_pad] is what the
    handler's stack holds there when it runs. *)
Definition handle_block_rq_issue (ctx_dev ctx_sector stack_pad pid_tgid now : Z)
    (st : state) : Z * state :=
  let p := tgid_of pid_tgid in
  let key := {| key_dev := ctx_dev; key_pad := stack_pad;
                key_sector := ctx_sector |} in
  let val := {| pid := p; start_ns := now |} in
  let inf := snd (bpf_map_update_elem (inflight st) key val BPF_ANY) in
  (0, {| inflight := inf; iolat_hist := iolat_hist st |}).

Definition handle_block_rq_complete (ctx_dev ctx_sector stack_pad now : Z)
    (st : state) : Z * state :=
  let key := {| key_dev := ctx_dev; key_pad := stack_pad;
                key_sector := ctx_sector |} in
  match bpf_map_lookup_elem (inflight st) key with
  | None => (0, st)
  | Some start =>
      let delta := u64 (now - start_ns start) in
      let p := pid start in
      let inf := snd (bpf_map_delete_elem (inflight st) key) in
      if (delta =? 0) || (p =? 0)
      then (0, {| inflight := inf; iolat_hist := iolat_hist st |})
      else
        let us := delta / 1000 in
        let slot := log2_slot us in
        let i := Z.land slot (HIST_SLOTS - 1) in
        match bpf_map_lookup_elem (iolat_hist st) p with
        | Some val =>
            let val' :=
              {| total_ns := fetch_add64 (total_ns val) delta;
                 max_ns := if delta >? max_ns val then delta else max_ns val;
                 count := fetch_add32 (count val) 1;
                 slots := slots_incr (slots val) i;
                 dev := dev val |} in
            (0, {| inflight := inf;
                   iolat_hist := store_elem (iolat_hist st) p val' |})
        | None =>
            let new_val :=
              {| total_ns := delta;
                 max_ns := delta;
                 count := 1;
                 slots := <[Z.to_nat i := 1]> (replicate (Z.to_nat HIST_SLOTS) 0);
                 dev := ctx_dev |} in
            let acc := snd (bpf_map_update_elem (iolat_hist st) p new_val BPF_NOEXIST) in
            (0, {| inflight := inf; iolat_hist := acc |})
        end
  end.

End Iolatency.

(** ** tcpconnlat.c: TCP connection establishment latency *)

Module Tcpconnlat.

Definition TCP_SYN_SENT : Z := 2.
Definition TCP_ESTABLISHED : Z := 1.

Record conn_start : Set := { ts : Z; pid : Z }.

Record connlat_val : Set := {
  total_ns : Z;
  count : Z;
  max_ns : Z;
  last_pid : Z;
  daddr : Z
}.

Record state : Type := {
  conn_inflight : bpf_map Z conn_start;
  connlat_accum : bpf_map Z connlat_val
}.

Definition init : state :=
  {| conn_inflight := bpf_map_decl 10240; connlat_accum := bpf_map_decl 10240 |}.

(** The fields of [struct inet_sock_set_state_args] that the handler reads;
    [ctx_daddr] is the word that [bpf_probe_read_kernel] copies out of
    [ctx->daddr]. *)
Record inet_sock_set_state_args : Set := {
  skaddr : Z;
  oldstate : Z;
  newstate : Z;
  ctx_daddr : Z
}.

(** [sk] is the socket pointer, the pairing key. *)
Definition handle_tcp_v4_connect (sk pid_tgid now : Z) (st : state) : Z * state :=
  let t := now in
  let p := tgid_of pid_tgid in
  if p =? 0 then (0, st) else
  let start := {| ts := t; pid := p |} in
  let sk_key := u64 sk in
  let inf := snd (bpf_map_update_elem (conn_inflight st) sk_key start BPF_ANY) in
  (0, {| conn_inflight := inf; connlat_accum := connlat_accum st |}).

Definition handle_set_state (ctx : inet_sock_set_state_args) (now : Z)
    (st : state) : Z * state :=
  if negb (oldstate ctx =? TCP_SYN_SENT) || negb (newstate ctx =? TCP_ESTABLISHED)
  then (0, st) else
  let sk_key := u64 (skaddr ctx) in
  match bpf_map_lookup_elem (conn_inflight st) sk_key with
  | None => (0, st)
  | Some start =>
      let delta := u64 (now - ts start) in
      let p := pid start in
      let da := ctx_daddr ctx in
      let inf := snd (bpf_map_delete_elem (conn_inflight st) sk_key) in
      match bpf_map_lookup_elem (connlat_accum st) p with
      | Some val =>
          let d32 := delta32 delta in
          let val' :=
            {| total_ns := fetch_add64 (total_ns val) delta;
               count := fetch_add32 (count val) 1;
               max_ns := if d32 >? max_ns val then d32 else max_ns val;
               last_pid := p;
               daddr := da |} in
          (0, {| conn_inflight := inf;
                 connlat_accum := store_elem (connlat_accum st) p val' |})
      | None =>
          let d32 := delta32 delta in
          let new_val :=
            {| total_ns := delta; count := 1; max_ns := d32;
               last_pid := p; daddr := da |} in
          let acc := snd (bpf_map_update_elem (connlat_accum st) p new_val BPF_NOEXIST) in
          (0, {| conn_inflight := inf; connlat_accum := acc |})
      end
  end.

End Tcpconnlat.

(** ** pgfault.c: page fault latency per PID *)

Module Pgfault.

Definition VM_FAULT_MAJOR : Z := 0x0004.

Record pgfault_val : Set := { total_ns : Z; count : Z; major_count : Z }.

Record state : Type := {
  pgfault_start : bpf_map Z Z;
  pgfault_accum : bpf_map Z pgfault_val
}.

Definition init : state :=
  {| pgfault_start := bpf_map_decl 10240; pgfault_accum := bpf_map_decl 10240 |}.

Definition STALE_NS : Z := 5000000000.

Definition handle_fault_enter (pid_tgid now : Z) (st : state) : Z * state :=
  let pid := tgid_of pid_tgid in
  if pid =? 0 then (0, st) else
  let ts := now in
  let ps := snd (bpf_map_update_elem (pgfault_start st) pid ts BPF_ANY) in
  (0, {| pgfault_start := ps; pgfault_accum := pgfault_accum st |}).

(** [ret] is the return value of [handle_mm_fault]. *)
Definition handle_fault_exit (ret pid_tgid now : Z) (st : state) : Z * state :=
  let pid := tgid_of pid_tgid in
  if pid =? 0 then (0, st) else
  match bpf_map_lookup_elem (pgfault_start st) pid with
  | None => (0, st)
  | Some tsp =>
      let delta := u64 (now - tsp) in
      let ps := snd (bpf_map_delete_elem (pgfault_start st) pid) in
      if delta >? STALE_NS
      then (0, {| pgfault_start := ps; pgfault_accum := pgfault_accum st |})
      else
        let is_major := if Z.land ret VM_FAULT_MAJOR =? 0 then 0 else 1 in
        match bpf_map_lookup_elem (pgfault_accum st) pid with
        | Some val =>
            let val' :=
              {| total_ns := fetch_add64 (total_ns val) delta;
                 count := fetch_add32 (count val) 1;
                 major_count :=
                   if is_major =? 0 then major_count val
                   else fetch_add32 (major_count val) 1 |} in
            (0, {| pgfault_start := ps;
                   pgfault_accum := store_elem (pgfault_accum st) pid val' |})
        | None =>
            let new_val :=
              {| total_ns := delta; count := 1;
                 major_count := if is_major =? 0 then 0 else 1 |} in
            let acc := snd (bpf_map_update_elem (pgfault_accum st) pid new_val BPF_NOEXIST) in
            (0, {| pgfault_start := ps; pgfault_accum := acc |})
        end
  end.

End Pgfault.

(** ** syscalldissect.c: per-PID syscall time profiling *)

Module Syscalldissect.

Record sc_key : Set := { key_pid : Z; syscall_nr : Z }.

#[global] Instance sc_key_eq_dec : EqDecision sc_key.
Proof. solve_decision. Defined.

#[global] Instance sc_key_countable : Countable sc_key.
Proof.
  refine (inj_countable' (fun k => (key_pid k, syscall_nr k))
            (fun p => {| key_pid := fst p; syscall_nr := snd p |}) _).
  intros []; reflexivity.
Defined.

Record sc_val : Set := { total_ns : Z; count : Z; max_ns : Z }.

Record state : Type := {
  sc_start : bpf_map Z Z;
  sc_accum : bpf_map sc_key sc_val
}.

Definition init : state :=
  {| sc_start := bpf_map_decl 10240; sc_accum := bpf_map_decl 32768 |}.

Definition STALE_NS : Z := 30000000000.

Definition handle_sys_enter (pid_tgid now : Z) (st : state) : Z * state :=
  let pid := tgid_of pid_tgid in
  if pid =? 0 then (0, st) else
  let ts := now in
  let ss := snd (bpf_map_update_elem (sc_start st) pid ts BPF_ANY) in
  (0, {| sc_start := ss; sc_accum := sc_accum st |}).

(** [ctx_id] is [ctx->id], the syscall number. *)
Definition handle_sys_exit (ctx_id pid_tgid now : Z) (st : state) : Z * state :=
  let pid := tgid_of pid_tgid in
  if pid =? 0 then (0, st) else
  match bpf_map_lookup_elem (sc_start st) pid with
  | None => (0, st)
  | Some tsp =>
      let delta := u64 (now - tsp) in
      let ss := snd (bpf_map_delete_elem (sc_start st) pid) in
      if delta >? STALE_NS
      then (0, {| sc_start := ss; sc_accum := sc_accum st |})
      else
        let nr := u32 ctx_id in
        let key := {| key_pid := pid; syscall_nr := nr |} in
        match bpf_map_lookup_elem (sc_accum st) key with
        | Some val =>
            let d32 := delta32 delta in
            let val' :=
              {| total_ns := fetch_add64 (total_ns val) delta;
                 count := fetch_add32 (count val) 1;
                 max_ns := if d32 >? max_ns val then d32 else max_ns val |} in
            (0, {| sc_start := ss;
                   sc_accum := store_elem (sc_accum st) key val' |})
        | None =>
            let d32 := delta32 delta in
            let new_val := {| total_ns := delta; count := 1; max_ns := d32 |} in
            let acc := snd (bpf_map_update_elem (sc_accum st) key new_val BPF_NOEXIST) in
            (0, {| sc_start := ss; sc_accum := acc |})
        end
  end.

End Syscalldissect.

(** ** directreclaim.c: direct reclaim stall duration per PID *)

Module Directreclaim.

Record reclaim_val : Set := { stall_ns : Z; count : Z }.

Record state : Type := {
  reclaim_start : bpf_map Z Z;
  reclaim_accum : bpf_map Z reclaim_val
}.

Definition init : state :=
  {| reclaim_start := bpf_map_decl 10240; reclaim_accum := bpf_map_decl 10240 |}.

Definition STALE_NS : Z := 30000000000.

Definition handle_reclaim_begin (pid_tgid now : Z) (st : state) : Z * state :=
  let pid := tgid_of pid_tgid in
  if pid =? 0 then (0, st) else
  let ts := now in
  let rs := snd (bpf_map_update_elem (reclaim_start st) pid ts BPF_ANY) in
  (0, {| reclaim_start := rs; reclaim_accum := reclaim_accum st |}).

Definition handle_reclaim_end (pid_tgid now : Z) (st : state) : Z * state :=
  let pid := tgid_of pid_tgid in
  if pid =? 0 then (0, st) else
  match bpf_map_lookup_elem (reclaim_start st) pid with
  | None => (0, st)
  | Some tsp =>
      let delta := u64 (now - tsp) in
      let rs := snd (bpf_map_delete_elem (reclaim_start st) pid) in
      if delta >? STALE_NS
      then (0, {| reclaim_start := rs; reclaim_accum := reclaim_accum st |})
      else
        match bpf_map_lookup_elem (reclaim_accum st) pid with
        | Some val =>
            let val' :=
              {| stall_ns := fetch_add64 (stall_ns val) delta;
                 count := fetch_add32 (count val) 1 |} in
            (0, {| reclaim_start := rs;
                   reclaim_accum := store_elem (reclaim_accum st) pid val' |})
        | None =>
            let new_val := {| stall_ns := delta; count := 1 |} in
            let acc := snd (bpf_map_update_elem (reclaim_accum st) pid new_val BPF_NOEXIST) in
            (0, {| reclaim_start := rs; reclaim_accum := acc |})
        end
  end.

End Directreclaim.

(** ** offcpu.c: involuntary off-CPU time per PID *)

Module Offcpu.

Definition TASK_INTERRUPTIBLE : Z := 1.

Record offcpu_val : Set := { total_ns : Z; count : Z }.

Record state : Type := {
  offcpu_start : bpf_map Z Z;
  offcpu_accum : bpf_map Z offcpu_val
}.

Definition init : state :=
  {| offcpu_start := bpf_map_decl 10240; offcpu_accum := bpf_map_decl 10240 |}.

Definition STALE_NS : Z := 30000000000.

(** The first half of [handle_sched_switch]: the switch-out time of [prev]. *)
Definition switch_out (prev_tgid prev_state_raw now : Z) (st : state) : state :=
  let prev_pid := u32 prev_tgid in
  if prev_pid >? 1 then
    let prev_state := Z.land prev_state_raw 0xff in
    if negb (prev_state =? TASK_INTERRUPTIBLE) then
      {| offcpu_start := snd (bpf_map_update_elem (offcpu_start st) prev_pid now BPF_ANY);
         offcpu_accum := offcpu_accum st |}
    else st
  else st.

(** The second half: the off-CPU duration of [next]. *)
Definition switch_in (next_tgid now : Z) (st : state) : state :=
  let next_pid := u32 next_tgid in
  if next_pid >? 1 then
    match bpf_map_lookup_elem (offcpu_start st) next_pid with
    | None => st
    | Some tsp =>
        if tsp >? 0 then
          let delta := u64 (now - tsp) in
          let acc :=
            if delta <? STALE_NS then
              match bpf_map_lookup_elem (offcpu_accum st) next_pid with
              | Some val =>
                  let val' :=
                    {| total_ns := fetch_add64 (total_ns val) delta;
                       count := fetch_add32 (count val) 1 |} in
                  store_elem (offcpu_accum st) next_pid val'
              | None =>
                  let new_val := {| total_ns := delta; count := 1 |} in
                  snd (bpf_map_update_elem (offcpu_accum st) next_pid new_val BPF_NOEXIST)
              end
            else offcpu_accum st in
          {| offcpu_start := snd (bpf_map_delete_elem (offcpu_start st) next_pid);
             offcpu_accum := acc |}
        else st
    end
  else st.

(** [prev_tgid], [prev_state_raw] and [next_tgid] are the [BPF_CORE_READ]s of
    [prev->tgid], [prev->__state] and [next->tgid]. *)
Definition handle_sched_switch (prev_tgid prev_state_raw next_tgid now : Z)
    (st : state) : Z * state :=
  (0, switch_in next_tgid now (switch_out prev_tgid prev_state_raw now st)).

End Offcpu.

(** ** sockio.c: per-PID per-connection TCP IO attribution *)

Module Sockio.

Record sockio_key : Set := { key_pid : Z; key_daddr : Z; key_dport : Z; key_pad : Z }.

#[global] Instance sockio_key_eq_dec : EqDecision sockio_key.
Proof. solve_decision. Defined.

#[global] Instance sockio_key_countable : Countable sockio_key.
Proof.
  refine (inj_countable'
            (fun k => (key_pid k, key_daddr k, key_dport k, key_pad k))
            (fun p => {| key_pid := fst (fst (fst p)); key_daddr := snd (fst (fst p));
                         key_dport := snd (fst p); key_pad := snd p |}) _).
  intros []; reflexivity.
Defined.

Record sockio_val : Set := {
  tx_bytes : Z;
  rx_bytes : Z;
  recv_wait_ns : Z;
  recv_count : Z;
  max_recv_ns : Z
}.

Record recv_start : Set := { ts : Z; daddr : Z; dport : Z; pad : Z }.

Record state : Type := {
  sockio_accum : bpf_map sockio_key sockio_val;
  recv_inflight : bpf_map Z recv_start
}.

Definition init : state :=
  {| sockio_accum := bpf_map_decl 16384; recv_inflight := bpf_map_decl 10240 |}.

Definition STALE_NS : Z := 30000000000.

(** [skc_daddr] and [skc_dport] are the [BPF_CORE_READ]s of the socket's
    destination address and port. *)
Definition add_tx (skc_daddr skc_dport size pid_tgid : Z) (st : state) : state :=
  let pid := tgid_of pid_tgid in
  if pid =? 0 then st else
  let da := u32 skc_daddr in
  let dp := bswap16 (u16 skc_dport) in
  let key := {| key_pid := pid; key_daddr := da; key_dport := dp; key_pad := 0 |} in
  match bpf_map_lookup_elem (sockio_accum st) key with
  | Some val =>
      let val' :=
        {| tx_bytes := fetch_add64 (tx_bytes val) size; rx_bytes := rx_bytes val;
           recv_wait_ns := recv_wait_ns val; recv_count := recv_count val;
           max_recv_ns := max_recv_ns val |} in
      {| sockio_accum := store_elem (sockio_accum st) key val';
         recv_inflight := recv_inflight st |}
  | None =>
      let new_val :=
        {| tx_bytes := size; rx_bytes := 0; recv_wait_ns := 0;
           recv_count := 0; max_recv_ns := 0 |} in
      {| sockio_accum := snd (bpf_map_update_elem (sockio_accum st) key new_val BPF_NOEXIST);
         recv_inflight := recv_inflight st |}
  end.

Definition add_rx (skc_daddr skc_dport size pid_tgid : Z) (st : state) : state :=
  let pid := tgid_of pid_tgid in
  if pid =? 0 then st else
  let da := u32 skc_daddr in
  let dp := bswap16 (u16 skc_dport) in
  let key := {| key_pid := pid; key_daddr := da; key_dport := dp; key_pad := 0 |} in
  match bpf_map_lookup_elem (sockio_accum st) key with
  | Some val =>
      let val' :=
        {| tx_bytes := tx_bytes val; rx_bytes := fetch_add64 (rx_bytes val) size;
           recv_wait_ns := recv_wait_ns val; recv_count := recv_count val;
           max_recv_ns := max_recv_ns val |} in
      {| sockio_accum := store_elem (sockio_accum st) key val';
         recv_inflight := recv_inflight st |}
  | None =>
      let new_val :=
        {| tx_bytes := 0; rx_bytes := size; recv_wait_ns := 0;
           recv_count := 0; max_recv_ns := 0 |} in
      {| sockio_accum := snd (bpf_map_update_elem (sockio_accum st) key new_val BPF_NOEXIST);
         recv_inflight := recv_inflight st |}
  end.

Definition handle_tcp_sendmsg (skc_daddr skc_dport size pid_tgid : Z)
    (st : state) : Z * state :=
  (0, add_tx skc_daddr skc_dport (u64 size) pid_tgid st).

Definition handle_tcp_cleanup_rbuf (skc_daddr skc_dport copied pid_tgid : Z)
    (st : state) : Z * state :=
  if copied <=? 0 then (0, st)
  else (0, add_rx skc_daddr skc_dport (u64 copied) pid_tgid st).

Definition handle_tcp_recvmsg_enter (skc_daddr skc_dport pid_tgid now : Z)
    (st : state) : Z * state :=
  let pid := tgid_of pid_tgid in
  if pid =? 0 then (0, st) else
  let da := u32 skc_daddr in
  let dp := bswap16 (u16 skc_dport) in
  let rs := {| ts := now; daddr := da; dport := dp; pad := 0 |} in
  (0, {| sockio_accum := sockio_accum st;
         recv_inflight := snd (bpf_map_update_elem (recv_inflight st) pid rs BPF_ANY) |}).

Definition handle_tcp_recvmsg_exit (pid_tgid now : Z) (st : state) : Z * state :=
  let pid := tgid_of pid_tgid in
  if pid =? 0 then (0, st) else
  match bpf_map_lookup_elem (recv_inflight st) pid with
  | None => (0, st)
  | Some rs =>
      let delta := u64 (now - ts rs) in
      let da := daddr rs in
      let dp := dport rs in
      let inf := snd (bpf_map_delete_elem (recv_inflight st) pid) in
      if delta >? STALE_NS
      then (0, {| sockio_accum := sockio_accum st; recv_inflight := inf |})
      else
        let key := {| key_pid := pid; key_daddr := da; key_dport := dp; key_pad := 0 |} in
        match bpf_map_lookup_elem (sockio_accum st) key with
        | Some val =>
            let d32 := delta32 delta in
            let val' :=
              {| tx_bytes := tx_bytes val; rx_bytes := rx_bytes val;
                 recv_wait_ns := fetch_add64 (recv_wait_ns val) delta;
                 recv_count := fetch_add32 (recv_count val) 1;
                 max_recv_ns := if d32 >? max_recv_ns val then d32 else max_recv_ns val |} in
            (0, {| sockio_accum := store_elem (sockio_accum st) key val';
                   recv_inflight := inf |})
        | None =>
            let d32 := delta32 delta in
            let new_val :=
              {| tx_bytes := 0; rx_bytes := 0; recv_wait_ns := delta;
                 recv_count := 1; max_recv_ns := d32 |} in
            (0, {| sockio_accum := snd (bpf_map_update_elem (sockio_accum st) key new_val BPF_NOEXIST);
                   recv_inflight := inf |})
        end
  end.

End Sockio.

(** ** execsnoop.c: process executions *)

Module Execsnoop.

Record exec_val : Set := {
  count : Z;
  ts : Z;
  ppid : Z;
  uid : Z;
  comm : list byte;
  filename : list byte
}.

Record state : Type := { exec_accum : bpf_map Z exec_val }.

Definition init : state := {| exec_accum := bpf_map_decl 10240 |}.

(** What the handler reads from the kernel: [bpf_get_current_pid_tgid()],
    [bpf_get_current_uid_gid()], [real_parent->tgid], [bpf_ktime_get_ns()],
    the 16 bytes that [bpf_get_current_comm] writes and the file name of the
    tracepoint, the bytes at [ctx + off] up to their NUL. *)
Record exec_event : Set := {
  pid_tgid : Z;
  uid_gid : Z;
  parent_tgid : Z;
  now : Z;
  cur_comm : list byte;
  cur_filename : list byte
}.

(** [bpf_probe_read_kernel_str(buf, buf_sz, src)]: the string, cut to
    [buf_sz - 1] bytes, and a NUL are written at the start of the buffer; the
    bytes of the buffer behind the NUL are left as they are. *)
Definition probe_read_str (buf_sz : nat) (src buf : list byte) : list byte :=
  let str := firstn (buf_sz - 1) src in
  str ++ x00 :: skipn (length str + 1) buf.

Definition read_filename (ctx_filename buf : list byte) : list byte :=
  probe_read_str 128 ctx_filename buf.

(** What user space reads back from a [char] array: the bytes before the
    first NUL. *)
Fixpoint c_string (buf : list byte) : list byte :=
  match buf with
  | [] => []
  | b :: rest => if Byte.eqb b x00 then [] else b :: c_string rest
  end.

Definition handle_sched_process_exec (ev : exec_event) (st : state) : Z * state :=
  let pid := tgid_of (pid_tgid ev) in
  if pid =? 0 then (0, st) else
  let u := u32 (Z.land (uid_gid ev) 0xFFFFFFFF) in
  let pp := u32 (parent_tgid ev) in
  match bpf_map_lookup_elem (exec_accum st) pid with
  | Some val =>
      let val' :=
        {| count := fetch_add64 (count val) 1;
           ts := now ev; ppid := pp; uid := u;
           comm := cur_comm ev;
           filename := read_filename (cur_filename ev) (filename val) |} in
      (0, {| exec_accum := store_elem (exec_accum st) pid val' |})
  | None =>
      let new_val :=
        {| count := 1; ts := now ev; ppid := pp; uid := u;
           comm := cur_comm ev;
           filename := read_filename (cur_filename ev) (repeat x00 128) |} in
      (0, {| exec_accum := snd (bpf_map_update_elem (exec_accum st) pid new_val BPF_NOEXIST) |})
  end.

End Execsnoop.

(** ** sockstate.c: TCP state transitions *)

Module Sockstate.

Record state_key : Set := { oldstate : Z; newstate : Z }.

#[global] Instance state_key_eq_dec : EqDecision state_key.
Proof. solve_decision. Defined.

#[global] Instance state_key_countable : Countable state_key.
Proof.
  refine (inj_countable' (fun k => (oldstate k, newstate k))
            (fun p => {| oldstate := fst p; newstate := snd p |}) _).
  intros []; reflexivity.
Defined.

Record state_val : Set := { count : Z }.

Record state : Type := { state_accum : bpf_map state_key state_val }.

Definition init : state := {| state_accum := bpf_map_decl 256 |}.

(** The key of a transition: [ctx->oldstate] and [ctx->newstate] cast to
    [__u16]. *)
Definition key_of (ctx_oldstate ctx_newstate : Z) : state_key :=
  {| oldstate := u16 ctx_oldstate; newstate := u16 ctx_newstate |}.

Definition handle_sock_set_state (ctx_oldstate ctx_newstate : Z)
    (st : state) : Z * state :=
  let key := key_of ctx_oldstate ctx_newstate in
  match bpf_map_lookup_elem (state_accum st) key with
  | Some val =>
      let val' := {| count := fetch_add64 (count val) 1 |} in
      (0, {| state_accum := store_elem (state_accum st) key val' |})
  | None =>
      let new_val := {| count := 1 |} in
      (0, {| state_accum := snd (bpf_map_update_elem (state_accum st) key new_val BPF_NOEXIST) |})
  end.

End Sockstate.

(** ** modload.c: kernel module loading events *)

Module Modload.

Record mod_val : Set := { count : Z; ts : Z; name : list byte }.

Record state : Type := { mod_accum : bpf_map Z mod_val }.

Definition init : state := {| mod_accum := bpf_map_decl 256 |}.

(** The integer that a little-endian target reads from a run of bytes. *)
Fixpoint le_bytes (bs : list byte) : Z :=
  match bs with
  | [] => 0
  | b :: rest => Z.of_N (Byte.to_N b) + 256 * le_bytes rest
  end.

(** [__u64 key = 0; __builtin_memcpy(&key, name, 8)]: the first 8 bytes of
    the name buffer. *)
Definition key_of (name_buf : list byte) : Z := le_bytes (firstn 8 name_buf).

(** [char name[56] = {}; BPF_CORE_READ_STR_INTO(&name, mod, name)]: the
    module's name [mod_name] (its bytes up to the terminating NUL), cut at 55
    bytes and followed by zero bytes up to the 56 of the buffer. *)
Definition read_name (mod_name : list byte) : list byte :=
  let s := firstn 55 mod_name in
  s ++ repeat x00 (56 - length s).

Definition handle_do_init_module (mod_name : list byte) (now : Z)
    (st : state) : Z * state :=
  let name_buf := read_name mod_name in
  let key := key_of name_buf in
  match bpf_map_lookup_elem (mod_accum st) key with
  | Some val =>
      let val' :=
        {| count := fetch_add64 (count val) 1; ts := now; name := name val |} in
      (0, {| mod_accum := store_elem (mod_accum st) key val' |})
  | None =>
      let new_val := {| count := 1; ts := now; name := firstn 56 name_buf |} in
      (0, {| mod_accum := snd (bpf_map_update_elem (mod_accum st) key new_val BPF_NOEXIST) |})
  end.

End Modload.

(** ** ptracedetect.c: ptrace syscalls *)

Module Ptracedetect.

Definition PTRACE_POKETEXT : Z := 4.
Definition PTRACE_POKEDATA : Z := 5.
Definition PTRACE_SETREGS : Z := 13.
Definition PTRACE_ATTACH : Z := 16.
Definition PTRACE_SEIZE : Z := 0x4206.

Record ptrace_key : Set := { tracer_pid : Z; target_pid : Z }.

#[global] Instance ptrace_key_eq_dec : EqDecision ptrace_key.
Proof. solve_decision. Defined.

#[global] Instance ptrace_key_countable : Countable ptrace_key.
Proof.
  refine (inj_countable' (fun k => (tracer_pid k, target_pid k))
            (fun p => {| tracer_pid := fst p; target_pid := snd p |}) _).
  intros []; reflexivity.
Defined.

Record ptrace_val : Set := {
  count : Z;
  ts : Z;
  request : Z;
  tracer_comm : list byte
}.

Record state : Type := { ptrace_accum : bpf_map ptrace_key ptrace_val }.

Definition init : state := {| ptrace_accum := bpf_map_decl 256 |}.

(** The composite key of an event: the tracer from
    [bpf_get_current_pid_tgid()], the target from [ctx->pid]. *)
Definition key_of (pid_tgid ctx_pid : Z) : ptrace_key :=
  {| tracer_pid := tgid_of pid_tgid; target_pid := u32 ctx_pid |}.

(** [ctx_request] and [ctx_pid] are [ctx->request] and [ctx->pid]; [comm]
    is what [bpf_get_current_comm] writes. *)
Definition handle_sys_enter_ptrace (ctx_request ctx_pid pid_tgid now : Z)
    (comm : list byte) (st : state) : Z * state :=
  let req := u64 ctx_request in
  if negb (req =? PTRACE_ATTACH) && negb (req =? PTRACE_SEIZE)
     && negb (req =? PTRACE_POKETEXT) && negb (req =? PTRACE_POKEDATA)
     && negb (req =? PTRACE_SETREGS)
  then (0, st) else
  if tgid_of pid_tgid =? 0 then (0, st) else
  let key := key_of pid_tgid ctx_pid in
  match bpf_map_lookup_elem (ptrace_accum st) key with
  | Some val =>
      let val' :=
        {| count := fetch_add64 (count val) 1; ts := now; request := req;
           tracer_comm := comm |} in
      (0, {| ptrace_accum := store_elem (ptrace_accum st) key val' |})
  | None =>
      let new_val :=
        {| count := 1; ts := now; request := req; tracer_comm := comm |} in
      (0, {| ptrace_accum := snd (bpf_map_update_elem (ptrace_accum st) key new_val BPF_NOEXIST) |})
  end.

End Ptracedetect.

(** ** cgthrottle.c: cgroup CPU throttle events *)

Module Cgthrottle.

Record throttle_val : Set := { count : Z }.

Record state : Type := { throttle_accum : bpf_map Z throttle_val }.

Definition init : state := {| throttle_accum := bpf_map_decl 1024 |}.

(** [cgid] is the value of [bpf_get_current_cgroup_id()]. *)
Definition handle_throttle_cfs_rq (cgid : Z) (st : state) : Z * state :=
  match bpf_map_lookup_elem (throttle_accum st) cgid with
  | Some val =>
      let val' := {| count := fetch_add64 (count val) 1 |} in
      (0, {| throttle_accum := store_elem (throttle_accum st) cgid val' |})
  | None =>
      let new_val := {| count := 1 |} in
      (0, {| throttle_accum := snd (bpf_map_update_elem (throttle_accum st) cgid new_val BPF_NOEXIST) |})
  end.

End Cgthrottle.

(** ** kfreeskb.c: packet drops by reason code *)

Module Kfreeskb.

Record drop_val : Set := { count : Z }.

Record state : Type := { drop_accum : bpf_map Z drop_val }.

Definition init : state := {| drop_accum := bpf_map_decl 256 |}.

(** [ctx_reason] is [ctx->reason]. *)
Definition handle_kfree_skb (ctx_reason : Z) (st : state) : Z * state :=
  let reason := ctx_reason in
  if reason =? 0 then (0, st) else
  match bpf_map_lookup_elem (drop_accum st) reason with
  | Some val =>
      let val' := {| count := fetch_add64 (count val) 1 |} in
      (0, {| drop_accum := store_elem (drop_accum st) reason val' |})
  | None =>
      let new_val := {| count := 1 |} in
      (0, {| drop_accum := snd (bpf_map_update_elem (drop_accum st) reason new_val BPF_NOEXIST) |})
  end.

End Kfreeskb.

(** ** tcpreset.c: TCP RST events per PID *)

Module Tcpreset.

Record reset_val : Set := { count : Z; last_daddr : Z; last_dport : Z }.

Record state : Type := { reset_accum : bpf_map Z reset_val }.

Definition init : state := {| reset_accum := bpf_map_decl 10240 |}.

Definition handle_tcp_send_reset (skc_daddr skc_dport pid_tgid : Z)
    (st : state) : Z * state :=
  let pid := tgid_of pid_tgid in
  let daddr := u32 skc_daddr in
  let dport := u16 skc_dport in
  match bpf_map_lookup_elem (reset_accum st) pid with
  | Some val =>
      let val' :=
        {| count := fetch_add64 (count val) 1;
           last_daddr := daddr; last_dport := dport |} in
      (0, {| reset_accum := store_elem (reset_accum st) pid val' |})
  | None =>
      let new_val := {| count := 1; last_daddr := daddr; last_dport := dport |} in
      (0, {| reset_accum := snd (bpf_map_update_elem (reset_accum st) pid new_val BPF_NOEXIST) |})
  end.

End Tcpreset.

(** ** tcpretrans.c: TCP retransmissions per PID *)

Module Tcpretrans.

Record retrans_val : Set := {
  count : Z;
  last_sport : Z;
  last_dport : Z;
  last_daddr : Z
}.

Record state : Type := { retrans_accum : bpf_map Z retrans_val }.

Definition init : state := {| retrans_accum := bpf_map_decl 10240 |}.

(** [ctx_sport] and [ctx_dport] are [ctx->sport] and [ctx->dport];
    [ctx_daddr] is the word that [bpf_probe_read_kernel] copies out of
    [ctx->daddr]. *)
Definition handle_tcp_retransmit (ctx_sport ctx_dport ctx_daddr pid_tgid : Z)
    (st : state) : Z * state :=
  let pid := tgid_of pid_tgid in
  let sport := ctx_sport in
  let dport := ctx_dport in
  let daddr := ctx_daddr in
  match bpf_map_lookup_elem (retrans_accum st) pid with
  | Some val =>
      let val' :=
        {| count := fetch_add32 (count val) 1; last_sport := sport;
           last_dport := dport; last_daddr := daddr |} in
      (0, {| retrans_accum := store_elem (retrans_accum st) pid val' |})
  | None =>
      let new_val :=
        {| count := 1; last_sport := sport; last_dport := dport;
           last_daddr := daddr |} in
      (0, {| retrans_accum := snd (bpf_map_update_elem (retrans_accum st) pid new_val BPF_NOEXIST) |})
  end.

End Tcpretrans.

(** ** tcprtt.c: TCP RTT per remote endpoint *)

Module Tcprtt.

Record rtt_key : Set := { key_daddr : Z; key_dport : Z; key_pad : Z }.

#[global] Instance rtt_key_eq_dec : EqDecision rtt_key.
Proof. solve_decision. Defined.

#[global] Instance rtt_key_countable : Countable rtt_key.
Proof.
  refine (inj_countable' (fun k => (key_daddr k, key_dport k, key_pad k))
            (fun p => {| key_daddr := fst (fst p); key_dport := snd (fst p);
                         key_pad := snd p |}) _).
  intros []; reflexivity.
Defined.

Record rtt_val : Set := {
  sum_us : Z;
  count : Z;
  min_us : Z;
  max_us : Z;
  last_pid : Z
}.

Record state : Type := { rtt_accum : bpf_map rtt_key rtt_val }.

Definition init : state := {| rtt_accum := bpf_map_decl 10240 |}.

(** [srtt_us] is [BPF_CORE_READ(tp, srtt_us)], a [__u32]. *)
Definition handle_tcp_rcv_established (srtt_us skc_daddr skc_dport pid_tgid : Z)
    (st : state) : Z * state :=
  let srtt := Z.shiftr (u32 srtt_us) 3 in
  if srtt =? 0 then (0, st) else
  let daddr := u32 skc_daddr in
  let dport := bswap16 (u16 skc_dport) in
  let pid := tgid_of pid_tgid in
  let key := {| key_daddr := daddr; key_dport := dport; key_pad := 0 |} in
  match bpf_map_lookup_elem (rtt_accum st) key with
  | Some val =>
      let val' :=
        {| sum_us := fetch_add64 (sum_us val) srtt;
           count := fetch_add32 (count val) 1;
           min_us := if (srtt <? min_us val) || (min_us val =? 0)
                     then srtt else min_us val;
           max_us := if srtt >? max_us val then srtt else max_us val;
           last_pid := pid |} in
      (0, {| rtt_accum := store_elem (rtt_accum st) key val' |})
  | None =>
      let new_val :=
        {| sum_us := srtt; count := 1; min_us := srtt; max_us := srtt;
           last_pid := pid |} in
      (0, {| rtt_accum := snd (bpf_map_update_elem (rtt_accum st) key new_val BPF_NOEXIST) |})
  end.

End Tcprtt.

(** ** wbstall.c: writeback wait events per PID *)

Module Wbstall.

Record wb_val : Set := { count : Z; total_pages : Z }.

Record state : Type := { wb_accum : bpf_map Z wb_val }.

Definition init : state := {| wb_accum := bpf_map_decl 10240 |}.

(** [ctx_nr_pages] is [ctx->nr_pages]. *)
Definition handle_writeback_wait (ctx_nr_pages pid_tgid : Z)
    (st : state) : Z * state :=
  let pid := tgid_of pid_tgid in
  if pid =? 0 then (0, st) else
  let nr_pages := u64 ctx_nr_pages in
  match bpf_map_lookup_elem (wb_accum st) pid with
  | Some val =>
      let val' :=
        {| count := fetch_add64 (count val) 1;
           total_pages := fetch_add64 (total_pages val) nr_pages |} in
      (0, {| wb_accum := store_elem (wb_accum st) pid val' |})
  | None =>
      let new_val := {| count := 1; total_pages := nr_pages |} in
      (0, {| wb_accum := snd (bpf_map_update_elem (wb_accum st) pid new_val BPF_NOEXIST) |})
  end.

End Wbstall.

(** ** swapevict.c: swap reads and writes per PID *)

Module Swapevict.

Record swap_val : Set := { read_pages : Z; write_pages : Z }.

Record state : Type := { swap_accum : bpf_map Z swap_val }.

Definition init : state := {| swap_accum := bpf_map_decl 10240 |}.

Definition handle_swap_readpage (pid_tgid : Z) (st : state) : Z * state :=
  let pid := tgid_of pid_tgid in
  if pid =? 0 then (0, st) else
  match bpf_map_lookup_elem (swap_accum st) pid with
  | Some val =>
      let val' :=
        {| read_pages := fetch_add64 (read_pages val) 1;
           write_pages := write_pages val |} in
      (0, {| swap_accum := store_elem (swap_accum st) pid val' |})
  | None =>
      let new_val := {| read_pages := 1; write_pages := 0 |} in
      (0, {| swap_accum := snd (bpf_map_update_elem (swap_accum st) pid new_val BPF_NOEXIST) |})
  end.

Definition handle_swap_writepage (pid_tgid : Z) (st : state) : Z * state :=
  let pid := tgid_of pid_tgid in
  if pid =? 0 then (0, st) else
  match bpf_map_lookup_elem (swap_accum st) pid with
  | Some val =>
      let val' :=
        {| read_pages := read_pages val;
           write_pages := fetch_add64 (write_pages val) 1 |} in
      (0, {| swap_accum := store_elem (swap_accum st) pid val' |})
  | None =>
      let new_val := {| read_pages := 0; write_pages := 1 |} in
      (0, {| swap_accum := snd (bpf_map_update_elem (swap_accum st) pid new_val BPF_NOEXIST) |})
  end.

End Swapevict.

(** ** Counts along a handler invocation *)

(** One invocation leaves a [w]-bit count as it was or adds 1 to it with
    [__sync_fetch_and_add]. *)
Definition count_step (w c c' : Z) : Prop :=
  c' = c \/ c' = (c + 1) mod 2 ^ w.

(** Every record of [m] is still in [m'], its count one [count_step] on. *)
Definition counts_kept {K V : Type} `{Countable K} (w : Z) (cnt : V -> Z)
    (m m' : bpf_map K V) : Prop :=
  forall k v, entries m !! k = Some v ->
    exists v', entries m' !! k = Some v' /\ count_step w (cnt v) (cnt v').

(** A check of [f] on the [n] integers from [i] on. *)
Fixpoint all_from (n : nat) (i : Z) (f : Z -> bool) : bool :=
  match n with
  | O => true
  | S n' => f i && all_from n' (i + 1) f
  end.

(** ** netthroughput.c: per-PID TCP send and receive bytes *)

Module Netthroughput.

Record net_val : Set := { tx_bytes : Z; rx_bytes : Z }.

Record state : Type := { net_accum : bpf_map Z net_val }.

Definition init : state := {| net_accum := bpf_map_decl 10240 |}.

Definition add_bytes (pid tx rx : Z) (st : state) : state :=
  match bpf_map_lookup_elem (net_accum st) pid with
  | Some val =>
      let val' :=
        {| tx_bytes := fetch_add64 (tx_bytes val) tx;
           rx_bytes := fetch_add64 (rx_bytes val) rx |} in
      {| net_accum := store_elem (net_accum st) pid val' |}
  | None =>
      let new_val := {| tx_bytes := tx; rx_bytes := rx |} in
      {| net_accum := snd (bpf_map_update_elem (net_accum st) pid new_val BPF_NOEXIST) |}
  end.

(** [size] is the third argument of [tcp_sendmsg]. *)
Definition handle_tcp_sendmsg (size pid_tgid : Z) (st : state) : Z * state :=
  let pid := tgid_of pid_tgid in
  if pid =? 0 then (0, st) else
  (0, add_bytes pid (u64 size) 0 st).

(** [copied] is the second argument of [tcp_cleanup_rbuf], an [int]. *)
Definition handle_tcp_cleanup_rbuf (copied pid_tgid : Z) (st : state) : Z * state :=
  let pid := tgid_of pid_tgid in
  if (pid =? 0) || (copied <=? 0) then (0, st) else
  (0, add_bytes pid 0 (u64 copied) st).

End Netthroughput.

(** ** oomkill.c: OOM kill victims *)

Module Oomkill.

Record oom_val : Set := { ts : Z; total_vm : Z; anon_rss : Z }.

Record state : Type := { oom_accum : bpf_map Z oom_val }.

Definition init : state := {| oom_accum := bpf_map_decl 1024 |}.

(** [ctx_pid] is [ctx->pid]. *)
Definition handle_mark_victim (ctx_pid now : Z) (st : state) : Z * state :=
  let pid := u32 ctx_pid in
  let val := {| ts := now; total_vm := 0; anon_rss := 0 |} in
  (0, {| oom_accum := snd (bpf_map_update_elem (oom_accum st) pid val BPF_ANY) |}).

End Oomkill.

(** ** Table and record invariants *)

(** From [m] to [m'] the capacity is the same and the table, if it held no
    more keys than its capacity, still does. *)
Definition capacity_kept {K V : Type} `{Countable K} (m m' : bpf_map K V) : Prop :=
  max_entries m' = max_entries m /\
  ((size (entries m) <= max_entries m)%nat ->
   (size (entries m') <= max_entries m')%nat).

(** The sum of the 16 bucket counts of a histogram. *)
Definition slots_total (sl : list Z) : Z := fold_right Z.add 0 sl.

(** A histogram record has 16 buckets, and their counts add up to its
    count, both taken as 32-bit values. *)
Definition hist_ok (val : Iolatency.iolat_val) : Prop :=
  length (Iolatency.slots val) = 16%nat /\
  u32 (slots_total (Iolatency.slots val)) = u32 (Iolatency.count val).

(** No table entry under key [k]. *)
Definition no_key {K V : Type} `{Countable K} (k : K) (m : bpf_map K V) : Prop :=
  entries m !! k = None.

(** Every record of [m] is still in [m'], with the same value of [f]. *)
Definition fields_kept {K V A : Type} `{Countable K} (f : V -> A)
    (m m' : bpf_map K V) : Prop :=
  forall k v, entries m !! k = Some v ->
    exists v', entries m' !! k = Some v' /\ f v' = f v.

(** The records of the keys other than [k] are the same in [m] and [m']. *)
Definition same_elsewhere {K V : Type} `{Countable K} (k : K)
    (m m' : bpf_map K V) : Prop :=
  forall k', k' <> k -> entries m' !! k' = entries m !! k'.

(** ** The keys as the hash map sees them

    A hash map hashes and compares the bytes of a key, [key_size] of them.
    The target is little-endian: a member of a key struct lies at its offset
    with its least significant byte first, and the members follow each other
    without a gap, except in [struct rq_key], where four bytes lie between
    the [__u32] and the [__u64]. *)

Module Layout.

Definition byte_of (z : Z) : byte :=
  default x00 (Byte.of_N (Z.to_N (z mod 256))).

(** The [n] bytes of a member that holds [z]. *)
Fixpoint le_word (n : nat) (z : Z) : list byte :=
  match n with
  | O => []
  | S n' => byte_of z :: le_word n' (z / 256)
  end.

Definition ptrace_key (k : Ptracedetect.ptrace_key) : list byte :=
  le_word 4 (Ptracedetect.tracer_pid k) ++ le_word 4 (Ptracedetect.target_pid k).

Definition state_key (k : Sockstate.state_key) : list byte :=
  le_word 2 (Sockstate.oldstate k) ++ le_word 2 (Sockstate.newstate k).

Definition sc_key (k : Syscalldissect.sc_key) : list byte :=
  le_word 4 (Syscalldissect.key_pid k) ++ le_word 4 (Syscalldissect.syscall_nr k).

Definition sockio_key (k : Sockio.sockio_key) : list byte :=
  le_word 4 (Sockio.key_pid k) ++ le_word 4 (Sockio.key_daddr k) ++
  le_word 2 (Sockio.key_dport k) ++ le_word 2 (Sockio.key_pad k).

Definition rtt_key (k : Tcprtt.rtt_key) : list byte :=
  le_word 4 (Tcprtt.key_daddr k) ++ le_word 2 (Tcprtt.key_dport k) ++
  le_word 2 (Tcprtt.key_pad k).

Definition rq_key (k : Iolatency.rq_key) : list byte :=
  le_word 4 (Iolatency.key_dev k) ++ le_word 4 (Iolatency.key_pad k) ++
  le_word 8 (Iolatency.key_sector k).

End Layout.

(** * Properties *)

(** ** Integers *)

Lemma u64_small z : 0 <= z < 2 ^ 64 -> u64 z = z.
Proof. intros Hz. unfold u64. apply Z.mod_small. exact Hz. Qed.

Lemma u32_small z : 0 <= z < 2 ^ 32 -> u32 z = z.
Proof. intros Hz. unfold u32. apply Z.mod_small. exact Hz. Qed.

Lemma u32_range z : 0 <= u32 z <= U32_MAX.
Proof. unfold u32, U32_MAX. pose proof (Z.mod_pos_bound z (2 ^ 32)). lia. Qed.

Lemma delta32_range d : 0 <= delta32 d <= U32_MAX.
Proof.
  unfold delta32. destruct (d >? 0xFFFFFFFF).
  - unfold U32_MAX. lia.
  - apply u32_range.
Qed.

Lemma delta32_saturates d : U32_MAX <= d -> delta32 d = U32_MAX.
Proof.
  unfold delta32, U32_MAX. intros Hd.
  destruct (d >? 0xFFFFFFFF) eqn:E; [reflexivity |].
  assert (d = 0xFFFFFFFF) as -> by lia. reflexivity.
Qed.

Lemma delta32_small d : 0 <= d <= U32_MAX -> delta32 d = d.
Proof.
  unfold delta32, U32_MAX. intros Hd.
  destruct (d >? 0xFFFFFFFF) eqn:E; [lia |].
  apply u32_small. lia.
Qed.

(** ** BPF hash maps *)

Section MapFacts.
Context {K V : Type} `{Countable K}.
Implicit Types (m : bpf_map K V) (k : K) (v : V).

Lemma lookup_store_eq m k v : entries (store_elem m k v) !! k = Some v.
Proof. apply lookup_insert_eq. Qed.

Lemma lookup_store_ne m k k' v :
  k <> k' -> entries (store_elem m k v) !! k' = entries m !! k'.
Proof. intros Hne. simpl. by rewrite lookup_insert_ne. Qed.

Lemma update_any_room m k v :
  has_room m k -> bpf_map_update_elem m k v BPF_ANY = (0, store_elem m k v).
Proof.
  intros [[w Hw] | Hlt]; unfold bpf_map_update_elem.
  - by rewrite Hw.
  - destruct (entries m !! k); [done |]. by rewrite decide_True.
Qed.

Lemma update_any_full m k v :
  entries m !! k = None -> (max_entries m <= size (entries m))%nat ->
  bpf_map_update_elem m k v BPF_ANY = (- E2BIG, m).
Proof.
  unfold bpf_map_update_elem. intros -> Hfull.
  rewrite decide_False; [done | lia].
Qed.

Lemma update_noexist_present m k v w :
  entries m !! k = Some w ->
  bpf_map_update_elem m k v BPF_NOEXIST = (- EEXIST, m).
Proof. unfold bpf_map_update_elem. by intros ->. Qed.

Lemma update_noexist_room m k v :
  entries m !! k = None -> (size (entries m) < max_entries m)%nat ->
  bpf_map_update_elem m k v BPF_NOEXIST = (0, store_elem m k v).
Proof.
  unfold bpf_map_update_elem. intros -> Hlt. by rewrite decide_True.
Qed.

Lemma update_noexist_full m k v :
  entries m !! k = None -> (max_entries m <= size (entries m))%nat ->
  bpf_map_update_elem m k v BPF_NOEXIST = (- E2BIG, m).
Proof.
  unfold bpf_map_update_elem. intros -> Hfull.
  rewrite decide_False; [done | lia].
Qed.

Lemma lookup_update_ne m k k' v fl :
  k <> k' ->
  entries (snd (bpf_map_update_elem m k v fl)) !! k' = entries m !! k'.
Proof.
  intros Hne. unfold bpf_map_update_elem.
  destruct (entries m !! k), fl; simpl; try done;
    try (by rewrite lookup_insert_ne);
    case_decide; simpl; try done; by rewrite lookup_insert_ne.
Qed.

Lemma store_store m k v1 v2 :
  store_elem (store_elem m k v1) k v2 = store_elem m k v2.
Proof. unfold store_elem. simpl. by rewrite insert_insert_eq. Qed.

(** Last write wins: a [BPF_ANY] update hides an earlier one of its key. *)
Lemma update_any_twice m k v1 v2 :
  snd (bpf_map_update_elem (snd (bpf_map_update_elem m k v1 BPF_ANY)) k v2 BPF_ANY)
  = snd (bpf_map_update_elem m k v2 BPF_ANY).
Proof.
  unfold bpf_map_update_elem at 2 3.
  destruct (entries m !! k) as [w |] eqn:Hk; simpl.
  - rewrite update_any_room; [apply store_store |].
    left. rewrite lookup_store_eq. by eexists.
  - case_decide as Hsz; simpl.
    + rewrite update_any_room; [apply store_store |].
      left. rewrite lookup_store_eq. by eexists.
    + rewrite update_any_full; [done | done | lia].
Qed.

Lemma lookup_update_any m k v :
  entries (snd (bpf_map_update_elem m k v BPF_ANY)) !! k = Some v \/
  entries (snd (bpf_map_update_elem m k v BPF_ANY)) !! k = None.
Proof.
  unfold bpf_map_update_elem.
  destruct (entries m !! k) eqn:Hk; cbn [snd].
  - left. apply lookup_store_eq.
  - case_decide; cbn [snd]; [left; apply lookup_store_eq | by right].
Qed.

Lemma delete_present m k w :
  entries m !! k = Some w ->
  bpf_map_delete_elem m k
  = (0, {| max_entries := max_entries m; entries := delete k (entries m) |}).
Proof. unfold bpf_map_delete_elem. by intros ->. Qed.

Lemma lookup_delete_elem_eq m k :
  entries (snd (bpf_map_delete_elem m k)) !! k = None.
Proof.
  unfold bpf_map_delete_elem. destruct (entries m !! k) eqn:Hk; simpl.
  - apply lookup_delete_eq.
  - done.
Qed.

Lemma lookup_delete_elem_ne m k k' :
  k <> k' ->
  entries (snd (bpf_map_delete_elem m k)) !! k' = entries m !! k'.
Proof.
  intros Hne. unfold bpf_map_delete_elem.
  destruct (entries m !! k); simpl; [by rewrite lookup_delete_ne | done].
Qed.
End MapFacts.

(** ** The histogram bucketer *)

Lemma log2_loop_closed n : forall v slot,
  0 <= slot -> slot + Z.of_nat n < 2 ^ 32 ->
  Iolatency.log2_loop n v slot = slot + Z.min (Z.of_nat n) (Z.log2 v).
Proof.
  induction n as [| n IH]; intros v slot Hs Hb; simpl Iolatency.log2_loop.
  - pose proof (Z.log2_nonneg v). lia.
  - destruct (v >? 1) eqn:Ev.
    + rewrite u32_small by lia. rewrite IH by lia.
      rewrite Z.log2_shiftr by lia.
      assert (1 <= Z.log2 v) by (change 1 with (Z.log2 2); apply Z.log2_le_mono; lia).
      lia.
    + rewrite IH by lia.
      assert (Z.log2 v = 0) as ->.
      { destruct (Z.eq_dec v 1) as [-> | Hne]; [reflexivity |].
        apply Z.log2_nonpos. lia. }
      lia.
Qed.

Lemma log2_slot_closed us : Iolatency.log2_slot us = Z.min 15 (Z.log2 us).
Proof.
  unfold Iolatency.log2_slot, Iolatency.HIST_SLOTS.
  rewrite log2_loop_closed by (simpl; lia).
  change (Z.of_nat (Z.to_nat (16 - 1))) with 15.
  destruct (0 + Z.min 15 (Z.log2 us) >=? 16) eqn:E; lia.
Qed.

(** C4. The histogram bucketer [log2_slot] sends 0 and 1 to bucket 0, 2 to
    bucket 1 and 4 to bucket 2, is non-decreasing in its argument, and its
    result is one of the 16 indices 0..15. *)
Theorem log2_slot_buckets :
  Iolatency.log2_slot 0 = 0 /\ Iolatency.log2_slot 1 = 0 /\
  Iolatency.log2_slot 2 = 1 /\ Iolatency.log2_slot 4 = 2 /\
  (forall x y, x <= y -> Iolatency.log2_slot x <= Iolatency.log2_slot y) /\
  (forall x, 0 <= Iolatency.log2_slot x <= 15).
Proof.
  repeat split; try reflexivity.
  - intros x y Hxy. rewrite !log2_slot_closed.
    pose proof (Z.log2_le_mono x y Hxy). lia.
  - rewrite log2_slot_closed. pose proof (Z.log2_nonneg x). lia.
  - rewrite log2_slot_closed. lia.
Qed.

Lemma log2_slot_buckets_witness :
  2 <= 40000 /\ Iolatency.log2_slot 2 <= Iolatency.log2_slot 40000.
Proof.
  split; [lia |].
  apply (proj1 (proj2 (proj2 (proj2 (proj2 log2_slot_buckets)))) 2 40000). lia.
Defined.

(** ** An end event with no begin in flight *)

(** C5. An end event for a key with no entry in the Pairing Table returns 0
    and leaves the Pairing Table and the Accumulation Table as they were, in
    every begin/end handler; in [offcpu.c], whose single handler is both the
    begin of [prev] and the end of [next], the handler does no more than the
    begin of [prev]. *)
Theorem end_without_begin_is_noop :
  (forall st next_tgid now,
      entries (Runqlat.rq_start st) !! u32 next_tgid = None ->
      Runqlat.handle_sched_switch_rqlat next_tgid now st = (0, st)) /\
  (forall st ctx_id pid_tgid now,
      entries (Syscalldissect.sc_start st) !! tgid_of pid_tgid = None ->
      Syscalldissect.handle_sys_exit ctx_id pid_tgid now st = (0, st)) /\
  (forall st pid_tgid now,
      entries (Lockwait.futex_start st) !! tgid_of pid_tgid = None ->
      Lockwait.handle_futex_exit pid_tgid now st = (0, st)) /\
  (forall st ret pid_tgid now,
      entries (Pgfault.pgfault_start st) !! tgid_of pid_tgid = None ->
      Pgfault.handle_fault_exit ret pid_tgid now st = (0, st)) /\
  (forall st pid_tgid now,
      entries (Directreclaim.reclaim_start st) !! tgid_of pid_tgid = None ->
      Directreclaim.handle_reclaim_end pid_tgid now st = (0, st)) /\
  (forall st pid_tgid now,
      entries (Sockio.recv_inflight st) !! tgid_of pid_tgid = None ->
      Sockio.handle_tcp_recvmsg_exit pid_tgid now st = (0, st)) /\
  (forall st dev sector pad now,
      entries (Iolatency.inflight st)
        !! {| Iolatency.key_dev := dev; Iolatency.key_pad := pad; Iolatency.key_sector := sector |} = None ->
      Iolatency.handle_block_rq_complete dev sector pad now st = (0, st)) /\
  (forall st ctx now,
      entries (Tcpconnlat.conn_inflight st) !! u64 (Tcpconnlat.skaddr ctx) = None ->
      Tcpconnlat.handle_set_state ctx now st = (0, st)) /\
  (forall st prev_tgid prev_state next_tgid now,
      u32 prev_tgid <> u32 next_tgid ->
      entries (Offcpu.offcpu_start st) !! u32 next_tgid = None ->
      Offcpu.handle_sched_switch prev_tgid prev_state next_tgid now st
      = (0, Offcpu.switch_out prev_tgid prev_state now st)).
Proof.
  repeat split; intros.
  - unfold Runqlat.handle_sched_switch_rqlat, bpf_map_lookup_elem.
    rewrite H. by destruct (_ =? 0).
  - unfold Syscalldissect.handle_sys_exit, bpf_map_lookup_elem.
    rewrite H. by destruct (_ =? 0).
  - unfold Lockwait.handle_futex_exit, bpf_map_lookup_elem.
    rewrite H. by destruct (_ =? 0).
  - unfold Pgfault.handle_fault_exit, bpf_map_lookup_elem.
    rewrite H. by destruct (_ =? 0).
  - unfold Directreclaim.handle_reclaim_end, bpf_map_lookup_elem.
    rewrite H. by destruct (_ =? 0).
  - unfold Sockio.handle_tcp_recvmsg_exit, bpf_map_lookup_elem.
    rewrite H. by destruct (_ =? 0).
  - unfold Iolatency.handle_block_rq_complete, bpf_map_lookup_elem.
    by rewrite H.
  - unfold Tcpconnlat.handle_set_state, bpf_map_lookup_elem.
    rewrite H. by destruct (_ || _).
  - unfold Offcpu.handle_sched_switch. f_equal.
    unfold Offcpu.switch_in, bpf_map_lookup_elem.
    assert (entries (Offcpu.offcpu_start (Offcpu.switch_out prev_tgid prev_state now st))
              !! u32 next_tgid = None) as ->.
    { unfold Offcpu.switch_out. repeat case_match; try done.
      cbn [Offcpu.offcpu_start]. by rewrite lookup_update_ne. }
    by destruct (_ >? 1).
Qed.

Lemma end_without_begin_is_noop_witness :
  entries (Runqlat.rq_start Runqlat.init) !! u32 7 = None /\
  Runqlat.handle_sched_switch_rqlat 7 100 Runqlat.init = (0, Runqlat.init).
Proof.
  split; [reflexivity |].
  apply (proj1 end_without_begin_is_noop). reflexivity.
Defined.

(** ** Discarded samples *)

(** C10. In [handle_block_rq_complete] and in [handle_futex_exit] a paired
    completion whose duration is exactly zero consumes the pairing entry
    and leaves the Accumulation Table as it was. *)
Theorem zero_duration_is_discarded :
  (forall st dev sector pad now start,
      let key := {| Iolatency.key_dev := dev; Iolatency.key_pad := pad; Iolatency.key_sector := sector |} in
      entries (Iolatency.inflight st) !! key = Some start ->
      u64 (now - Iolatency.start_ns start) = 0 ->
      let r := Iolatency.handle_block_rq_complete dev sector pad now st in
      fst r = 0 /\
      entries (Iolatency.inflight (snd r)) = delete key (entries (Iolatency.inflight st)) /\
      Iolatency.iolat_hist (snd r) = Iolatency.iolat_hist st) /\
  (forall st pid_tgid now tsp,
      tgid_of pid_tgid <> 0 ->
      entries (Lockwait.futex_start st) !! tgid_of pid_tgid = Some tsp ->
      u64 (now - tsp) = 0 ->
      let r := Lockwait.handle_futex_exit pid_tgid now st in
      fst r = 0 /\
      entries (Lockwait.futex_start (snd r))
        = delete (tgid_of pid_tgid) (entries (Lockwait.futex_start st)) /\
      Lockwait.futex_accum (snd r) = Lockwait.futex_accum st).
Proof.
  split.
  - intros st dev sector pad now start key Hin Hz r. subst r.
    unfold Iolatency.handle_block_rq_complete, bpf_map_lookup_elem.
    fold key. rewrite Hin, Hz. simpl.
    rewrite (delete_present _ _ _ Hin). done.
  - intros st pid_tgid now tsp Hpid Hin Hz r. subst r.
    unfold Lockwait.handle_futex_exit, bpf_map_lookup_elem.
    rewrite Hin, Hz.
    destruct (Z.eqb_spec (tgid_of pid_tgid) 0); [done |].
    rewrite Z.eqb_refl. cbn [orb].
    by rewrite (delete_present _ _ _ Hin).
Qed.

Lemma zero_duration_is_discarded_witness :
  entries (Lockwait.futex_start
             (snd (Lockwait.handle_futex_enter 0 (Z.shiftl 7 32) 500 Lockwait.init)))
    !! 7 = Some 500 /\
  Lockwait.futex_accum
    (snd (Lockwait.handle_futex_exit (Z.shiftl 7 32) 500
            (snd (Lockwait.handle_futex_enter 0 (Z.shiftl 7 32) 500 Lockwait.init))))
  = Lockwait.futex_accum
      (snd (Lockwait.handle_futex_enter 0 (Z.shiftl 7 32) 500 Lockwait.init)).
Proof.
  split; [reflexivity |].
  refine (proj2 (proj2 (_ : _ /\ _ /\ _))).
  apply (proj2 zero_duration_is_discarded
           (snd (Lockwait.handle_futex_enter 0 (Z.shiftl 7 32) 500 Lockwait.init))
           (Z.shiftl 7 32) 500 500).
  - vm_compute. discriminate.
  - reflexivity.
  - reflexivity.
Defined.

(** C2, handler by handler.  When the paired duration exceeds the ceiling
    of the probe (10 s in [runqlat.c], 5 s in [pgfault.c], 30 s in
    [syscalldissect.c], [lockwait.c], [directreclaim.c] and [sockio.c]; in
    [offcpu.c] when it reaches 30 s) the Accumulation Table is left as it
    was; and under the 30 s ceiling of [syscalldissect.c] a begin at 0
    followed by an end at 31_000_000_000 ns leaves the table unchanged.
    [tcpconnlat.c] and [iolatency.c] define no ceiling: when the table has
    room for the key, [handle_set_state] merges the paired duration of a
    connection that becomes established, whatever its size, and
    [handle_block_rq_complete] merges every paired duration other than zero
    of a request issued by a non-zero PID, whatever its size. *)
Theorem stale_sample_is_discarded :
  (forall st next_tgid now tsp,
      entries (Runqlat.rq_start st) !! u32 next_tgid = Some tsp ->
      Runqlat.STALE_NS < u64 (now - tsp) ->
      Runqlat.rqlat_accum (snd (Runqlat.handle_sched_switch_rqlat next_tgid now st))
      = Runqlat.rqlat_accum st) /\
  (forall st ret pid_tgid now tsp,
      entries (Pgfault.pgfault_start st) !! tgid_of pid_tgid = Some tsp ->
      Pgfault.STALE_NS < u64 (now - tsp) ->
      Pgfault.pgfault_accum (snd (Pgfault.handle_fault_exit ret pid_tgid now st))
      = Pgfault.pgfault_accum st) /\
  (forall st ctx_id pid_tgid now tsp,
      entries (Syscalldissect.sc_start st) !! tgid_of pid_tgid = Some tsp ->
      Syscalldissect.STALE_NS < u64 (now - tsp) ->
      Syscalldissect.sc_accum (snd (Syscalldissect.handle_sys_exit ctx_id pid_tgid now st))
      = Syscalldissect.sc_accum st) /\
  (forall st pid_tgid now tsp,
      entries (Lockwait.futex_start st) !! tgid_of pid_tgid = Some tsp ->
      Lockwait.STALE_NS < u64 (now - tsp) ->
      Lockwait.futex_accum (snd (Lockwait.handle_futex_exit pid_tgid now st))
      = Lockwait.futex_accum st) /\
  (forall st pid_tgid now tsp,
      entries (Directreclaim.reclaim_start st) !! tgid_of pid_tgid = Some tsp ->
      Directreclaim.STALE_NS < u64 (now - tsp) ->
      Directreclaim.reclaim_accum (snd (Directreclaim.handle_reclaim_end pid_tgid now st))
      = Directreclaim.reclaim_accum st) /\
  (forall st pid_tgid now rs,
      entries (Sockio.recv_inflight st) !! tgid_of pid_tgid = Some rs ->
      Sockio.STALE_NS < u64 (now - Sockio.ts rs) ->
      Sockio.sockio_accum (snd (Sockio.handle_tcp_recvmsg_exit pid_tgid now st))
      = Sockio.sockio_accum st) /\
  (forall st prev_tgid prev_state next_tgid now tsp,
      u32 prev_tgid <> u32 next_tgid ->
      entries (Offcpu.offcpu_start st) !! u32 next_tgid = Some tsp ->
      Offcpu.STALE_NS <= u64 (now - tsp) ->
      Offcpu.offcpu_accum
        (snd (Offcpu.handle_sched_switch prev_tgid prev_state next_tgid now st))
      = Offcpu.offcpu_accum st) /\
  (forall st ctx_id pid_tgid,
      Syscalldissect.sc_accum
        (snd (Syscalldissect.handle_sys_exit ctx_id pid_tgid 31000000000
                (snd (Syscalldissect.handle_sys_enter pid_tgid 0 st))))
      = Syscalldissect.sc_accum st) /\
  (forall st ctx now start,
      Tcpconnlat.oldstate ctx = Tcpconnlat.TCP_SYN_SENT ->
      Tcpconnlat.newstate ctx = Tcpconnlat.TCP_ESTABLISHED ->
      entries (Tcpconnlat.conn_inflight st) !! u64 (Tcpconnlat.skaddr ctx) = Some start ->
      has_room (Tcpconnlat.connlat_accum st) (Tcpconnlat.pid start) ->
      exists val',
        entries (Tcpconnlat.connlat_accum (snd (Tcpconnlat.handle_set_state ctx now st)))
          !! Tcpconnlat.pid start = Some val' /\
        match entries (Tcpconnlat.connlat_accum st) !! Tcpconnlat.pid start with
        | Some val =>
            Tcpconnlat.total_ns val'
            = u64 (Tcpconnlat.total_ns val + u64 (now - Tcpconnlat.ts start)) /\
            Tcpconnlat.count val' = u32 (Tcpconnlat.count val + 1)
        | None =>
            Tcpconnlat.total_ns val' = u64 (now - Tcpconnlat.ts start) /\
            Tcpconnlat.count val' = 1
        end) /\
  (forall st dev sector pad now start,
      entries (Iolatency.inflight st)
        !! {| Iolatency.key_dev := dev; Iolatency.key_pad := pad;
              Iolatency.key_sector := sector |} = Some start ->
      u64 (now - Iolatency.start_ns start) <> 0 ->
      Iolatency.pid start <> 0 ->
      has_room (Iolatency.iolat_hist st) (Iolatency.pid start) ->
      exists val',
        entries (Iolatency.iolat_hist
                   (snd (Iolatency.handle_block_rq_complete dev sector pad now st)))
          !! Iolatency.pid start = Some val' /\
        match entries (Iolatency.iolat_hist st) !! Iolatency.pid start with
        | Some val =>
            Iolatency.total_ns val'
            = u64 (Iolatency.total_ns val + u64 (now - Iolatency.start_ns start)) /\
            Iolatency.count val' = u32 (Iolatency.count val + 1)
        | None =>
            Iolatency.total_ns val' = u64 (now - Iolatency.start_ns start) /\
            Iolatency.count val' = 1
        end).
Proof.
  repeat apply conj.
  - intros st p now tsp Hin Hd.
    unfold Runqlat.handle_sched_switch_rqlat, bpf_map_lookup_elem.
    rewrite Hin. destruct (_ =? 0); [reflexivity |].
    destruct (Z.gtb_spec (u64 (now - tsp)) Runqlat.STALE_NS); [reflexivity | lia].
  - intros st ret p now tsp Hin Hd.
    unfold Pgfault.handle_fault_exit, bpf_map_lookup_elem.
    rewrite Hin. destruct (_ =? 0); [reflexivity |].
    destruct (Z.gtb_spec (u64 (now - tsp)) Pgfault.STALE_NS); [reflexivity | lia].
  - intros st id p now tsp Hin Hd.
    unfold Syscalldissect.handle_sys_exit, bpf_map_lookup_elem.
    rewrite Hin. destruct (_ =? 0); [reflexivity |].
    destruct (Z.gtb_spec (u64 (now - tsp)) Syscalldissect.STALE_NS); [reflexivity | lia].
  - intros st p now tsp Hin Hd.
    unfold Lockwait.handle_futex_exit, bpf_map_lookup_elem.
    rewrite Hin. destruct (_ =? 0); [reflexivity |].
    destruct (Z.gtb_spec (u64 (now - tsp)) Lockwait.STALE_NS); [| lia].
    by rewrite orb_true_r.
  - intros st p now tsp Hin Hd.
    unfold Directreclaim.handle_reclaim_end, bpf_map_lookup_elem.
    rewrite Hin. destruct (_ =? 0); [reflexivity |].
    destruct (Z.gtb_spec (u64 (now - tsp)) Directreclaim.STALE_NS); [reflexivity | lia].
  - intros st p now rs Hin Hd.
    unfold Sockio.handle_tcp_recvmsg_exit, bpf_map_lookup_elem.
    rewrite Hin. destruct (_ =? 0); [reflexivity |].
    destruct (Z.gtb_spec (u64 (now - Sockio.ts rs)) Sockio.STALE_NS); [reflexivity | lia].
  - intros st prev ps p now tsp Hne Hin Hd.
    unfold Offcpu.handle_sched_switch, Offcpu.switch_in, bpf_map_lookup_elem.
    assert (entries (Offcpu.offcpu_start (Offcpu.switch_out prev ps now st))
              !! u32 p = Some tsp
            /\ Offcpu.offcpu_accum (Offcpu.switch_out prev ps now st)
                = Offcpu.offcpu_accum st) as [-> Hacc].
    { unfold Offcpu.switch_out. repeat case_match; try (split; [assumption | reflexivity]).
      cbn [Offcpu.offcpu_start Offcpu.offcpu_accum].
      by rewrite lookup_update_ne. }
    cbn [snd]. destruct (_ >? 1); [| exact Hacc].
    destruct (_ >? 0); [| exact Hacc].
    destruct (Z.ltb_spec (u64 (now - tsp)) Offcpu.STALE_NS); [lia | exact Hacc].
  - intros st id p.
    assert ((u64 (31000000000 - 0) >? Syscalldissect.STALE_NS) = true) as Hstale
      by (vm_compute; reflexivity).
    unfold Syscalldissect.handle_sys_enter, Syscalldissect.handle_sys_exit,
      bpf_map_lookup_elem.
    destruct (tgid_of p =? 0); cbn [fst snd]; [reflexivity |].
    cbn [Syscalldissect.sc_start Syscalldissect.sc_accum].
    destruct (lookup_update_any (Syscalldissect.sc_start st) (tgid_of p) 0)
      as [-> | ->]; [rewrite Hstale |]; reflexivity.
  - intros st ctx now start Hold Hnew Hin Hroom.
    unfold Tcpconnlat.handle_set_state, bpf_map_lookup_elem.
    rewrite Hold, Hnew, Hin. cbn [negb orb Z.eqb Pos.eqb].
    destruct (entries (Tcpconnlat.connlat_accum st) !! Tcpconnlat.pid start)
      as [val |] eqn:Hk.
    + cbn [snd Tcpconnlat.connlat_accum]. eexists.
      split; [apply lookup_store_eq |]. split; reflexivity.
    + destruct Hroom as [[w Hw] | Hlt]; [congruence |].
      rewrite update_noexist_room by assumption.
      cbn [snd Tcpconnlat.connlat_accum]. eexists.
      split; [apply lookup_store_eq |]. split; reflexivity.
  - intros st dev sector pad now start Hin Hd Hp Hroom.
    unfold Iolatency.handle_block_rq_complete, bpf_map_lookup_elem.
    rewrite Hin.
    destruct (Z.eqb_spec (u64 (now - Iolatency.start_ns start)) 0); [contradiction |].
    destruct (Z.eqb_spec (Iolatency.pid start) 0); [contradiction |]. cbn [orb].
    destruct (entries (Iolatency.iolat_hist st) !! Iolatency.pid start)
      as [val |] eqn:Hk.
    + cbn [snd Iolatency.iolat_hist]. eexists.
      split; [apply lookup_store_eq |]. split; reflexivity.
    + destruct Hroom as [[w Hw] | Hlt]; [congruence |].
      rewrite update_noexist_room by assumption.
      cbn [snd Iolatency.iolat_hist]. eexists.
      split; [apply lookup_store_eq |]. split; reflexivity.
Qed.

Lemma stale_sample_is_discarded_witness :
  entries (Syscalldissect.sc_start
             (snd (Syscalldissect.handle_sys_enter (Z.shiftl 7 32) 0 Syscalldissect.init)))
    !! tgid_of (Z.shiftl 7 32) = Some 0 /\
  Syscalldissect.STALE_NS < u64 (31000000000 - 0) /\
  Syscalldissect.sc_accum
    (snd (Syscalldissect.handle_sys_exit 1 (Z.shiftl 7 32) 31000000000
            (snd (Syscalldissect.handle_sys_enter (Z.shiftl 7 32) 0 Syscalldissect.init))))
  = Syscalldissect.sc_accum
      (snd (Syscalldissect.handle_sys_enter (Z.shiftl 7 32) 0 Syscalldissect.init)) /\
  exists val',
    entries (Iolatency.iolat_hist
               (snd (Iolatency.handle_block_rq_complete 8 4096 0 31000000000
                       (snd (Iolatency.handle_block_rq_issue 8 4096 0 (Z.shiftl 7 32) 0
                               Iolatency.init)))))
      !! 7 = Some val' /\
    match entries (Iolatency.iolat_hist
                     (snd (Iolatency.handle_block_rq_issue 8 4096 0 (Z.shiftl 7 32) 0
                             Iolatency.init))) !! 7 with
    | Some val =>
        Iolatency.total_ns val' = u64 (Iolatency.total_ns val + u64 (31000000000 - 0)) /\
        Iolatency.count val' = u32 (Iolatency.count val + 1)
    | None =>
        Iolatency.total_ns val' = u64 (31000000000 - 0) /\ Iolatency.count val' = 1
    end.
Proof.
  destruct stale_sample_is_discarded
    as (_ & _ & Hsyscall & _ & _ & _ & _ & _ & _ & Hblock).
  split; [reflexivity |]. split; [reflexivity |]. split.
  - apply Hsyscall with (tsp := 0); reflexivity.
  - apply (Hblock
             (snd (Iolatency.handle_block_rq_issue 8 4096 0 (Z.shiftl 7 32) 0
                     Iolatency.init))
             8 4096 0 31000000000
             {| Iolatency.pid := 7; Iolatency.start_ns := 0 |}).
    + reflexivity.
    + vm_compute. discriminate.
    + discriminate.
    + right. vm_compute. lia.
Defined.

(** C2 as stated fails: [handle_set_state] of [tcpconnlat.c] has no ceiling.
    A connect at 0 by PID 7 completed at 31_000_000_000 ns, beyond every
    ceiling of the other probes, is merged into the Accumulation Table. *)
Lemma tcpconnlat_merges_stale_sample :
  entries
    (Tcpconnlat.connlat_accum
       (snd (Tcpconnlat.handle_set_state
               {| Tcpconnlat.skaddr := 4096; Tcpconnlat.oldstate := 2;
                  Tcpconnlat.newstate := 1; Tcpconnlat.ctx_daddr := 16777343 |}
               31000000000
               (snd (Tcpconnlat.handle_tcp_v4_connect 4096 (Z.shiftl 7 32) 0
                       Tcpconnlat.init))))) !! 7
  = Some {| Tcpconnlat.total_ns := 31000000000; Tcpconnlat.count := 1;
            Tcpconnlat.max_ns := 0xFFFFFFFF; Tcpconnlat.last_pid := 7;
            Tcpconnlat.daddr := 16777343 |} /\
  entries (Tcpconnlat.connlat_accum Tcpconnlat.init) !! 7 = None.
Proof. split; vm_compute; reflexivity. Qed.

(** ** Upserts into a table at capacity *)

(** C3. In a table at capacity the helper refuses the insert of a key that
    is not in the table and leaves the table as it was, and a store into
    the record of a key that is in the table changes this record alone.
    So with the Accumulation Table of [runqlat.c] at capacity, a sample for
    a key that is not in the table is dropped, the handler still returns 0
    and the table is left as it was; a sample for a key that is in the
    table is merged into its record in place, the other records and the
    size of the table unchanged. *)
Theorem upsert_at_capacity :
  (forall (K V : Type) `{Countable K} (m : bpf_map K V) k v,
      full m -> entries m !! k = None ->
      bpf_map_update_elem m k v BPF_NOEXIST = (- E2BIG, m)) /\
  (forall (K V : Type) `{Countable K} (m : bpf_map K V) k v v',
      full m -> entries m !! k = Some v ->
      full (store_elem m k v') /\
      entries (store_elem m k v') !! k = Some v' /\
      forall k', k' <> k -> entries (store_elem m k v') !! k' = entries m !! k') /\
  (forall st next_tgid now tsp,
      u32 next_tgid <> 0 ->
      full (Runqlat.rqlat_accum st) ->
      entries (Runqlat.rq_start st) !! u32 next_tgid = Some tsp ->
      u64 (now - tsp) <= Runqlat.STALE_NS ->
      entries (Runqlat.rqlat_accum st) !! u32 next_tgid = None ->
      fst (Runqlat.handle_sched_switch_rqlat next_tgid now st) = 0 /\
      Runqlat.rqlat_accum (snd (Runqlat.handle_sched_switch_rqlat next_tgid now st))
      = Runqlat.rqlat_accum st) /\
  (forall st next_tgid now tsp val,
      u32 next_tgid <> 0 ->
      full (Runqlat.rqlat_accum st) ->
      entries (Runqlat.rq_start st) !! u32 next_tgid = Some tsp ->
      u64 (now - tsp) <= Runqlat.STALE_NS ->
      entries (Runqlat.rqlat_accum st) !! u32 next_tgid = Some val ->
      fst (Runqlat.handle_sched_switch_rqlat next_tgid now st) = 0 /\
      full (Runqlat.rqlat_accum (snd (Runqlat.handle_sched_switch_rqlat next_tgid now st))) /\
      exists val',
        entries (Runqlat.rqlat_accum (snd (Runqlat.handle_sched_switch_rqlat next_tgid now st)))
        = <[u32 next_tgid := val']> (entries (Runqlat.rqlat_accum st)) /\
        Runqlat.total_ns val' = u64 (Runqlat.total_ns val + u64 (now - tsp)) /\
        Runqlat.count val' = u32 (Runqlat.count val + 1)).
Proof.
  repeat apply conj.
  - intros K V ? ? m k v Hfull Hk. apply update_noexist_full; [done |].
    unfold full in Hfull. lia.
  - intros K V ? ? m k v v' Hfull Hk. repeat apply conj.
    + unfold full, store_elem in *. cbn [entries max_entries].
      rewrite map_size_insert_Some; [done | by eexists].
    + apply lookup_store_eq.
    + intros k' Hne. by apply lookup_store_ne.
  - intros st p now tsp Hp Hfull Hin Hd Hk.
    unfold Runqlat.handle_sched_switch_rqlat, bpf_map_lookup_elem.
    rewrite Hin, Hk.
    destruct (Z.eqb_spec (u32 p) 0); [contradiction |].
    destruct (Z.gtb_spec (u64 (now - tsp)) Runqlat.STALE_NS); [lia |].
    rewrite update_noexist_full; [by split | done |].
    unfold full in Hfull. lia.
  - intros st p now tsp val Hp Hfull Hin Hd Hk.
    unfold Runqlat.handle_sched_switch_rqlat, bpf_map_lookup_elem.
    rewrite Hin, Hk.
    destruct (Z.eqb_spec (u32 p) 0); [contradiction |].
    destruct (Z.gtb_spec (u64 (now - tsp)) Runqlat.STALE_NS); [lia |].
    cbn [fst snd Runqlat.rqlat_accum]. split; [reflexivity |]. split.
    + unfold full, store_elem in *. cbn [entries max_entries].
      rewrite map_size_insert_Some; [done | by eexists].
    + eexists. split; [reflexivity |]. split; reflexivity.
Qed.

Lemma upsert_at_capacity_witness :
  full {| max_entries := 1;
          entries := {[ 5 := {| Runqlat.total_ns := 10; Runqlat.count := 1;
                                Runqlat.max_ns := 10 |} ]} |} /\
  Runqlat.rqlat_accum
    (snd (Runqlat.handle_sched_switch_rqlat 7 600
            {| Runqlat.rq_start := {| max_entries := 10240; entries := {[ 7 := 100 ]} |};
               Runqlat.rqlat_accum :=
                 {| max_entries := 1;
                    entries := {[ 5 := {| Runqlat.total_ns := 10; Runqlat.count := 1;
                                          Runqlat.max_ns := 10 |} ]} |} |}))
  = {| max_entries := 1;
       entries := {[ 5 := {| Runqlat.total_ns := 10; Runqlat.count := 1;
                             Runqlat.max_ns := 10 |} ]} |}.
Proof.
  split; [reflexivity |].
  refine (proj2 (proj1 (proj2 (proj2 upsert_at_capacity)) _ 7 600 100 _ _ _ _ _)).
  - vm_compute. discriminate.
  - reflexivity.
  - reflexivity.
  - vm_compute. discriminate.
  - reflexivity.
Defined.

(** ** A begin followed by its end *)

(** The sample that [handle_sched_switch_rqlat] merges after a wakeup. *)
Lemma runqlat_begin_end :
  forall st ctx_pid t1 t2,
      u32 ctx_pid <> 0 ->
      t1 <= t2 -> t2 - t1 <= Runqlat.STALE_NS ->
      has_room (Runqlat.rq_start st) (u32 ctx_pid) ->
      has_room (Runqlat.rqlat_accum st) (u32 ctx_pid) ->
      exists val',
        entries (Runqlat.rqlat_accum
                   (snd (Runqlat.handle_sched_switch_rqlat ctx_pid t2
                           (snd (Runqlat.handle_sched_wakeup ctx_pid t1 st)))))
          !! u32 ctx_pid = Some val' /\
        match entries (Runqlat.rqlat_accum st) !! u32 ctx_pid with
        | Some val =>
            Runqlat.total_ns val' = u64 (Runqlat.total_ns val + (t2 - t1)) /\
            Runqlat.count val' = u32 (Runqlat.count val + 1)
        | None =>
            Runqlat.total_ns val' = t2 - t1 /\ Runqlat.count val' = 1
        end.
Proof.
  intros st p t1 t2 Hp Hle Hd Hstart Hacc.
  unfold Runqlat.handle_sched_wakeup.
  destruct (Z.eqb_spec (u32 p) 0); [contradiction |].
  rewrite update_any_room by assumption. cbn [snd].
  unfold Runqlat.handle_sched_switch_rqlat, bpf_map_lookup_elem.
  destruct (Z.eqb_spec (u32 p) 0); [contradiction |].
  cbn [Runqlat.rq_start Runqlat.rqlat_accum]. rewrite lookup_store_eq.
  rewrite (u64_small (t2 - t1)) by (unfold Runqlat.STALE_NS in Hd; lia).
  destruct (Z.gtb_spec (t2 - t1) Runqlat.STALE_NS); [lia |].
  destruct (entries (Runqlat.rqlat_accum st) !! u32 p) eqn:Hk.
  - cbn [snd Runqlat.rqlat_accum]. eexists.
    split; [apply lookup_store_eq |]. split; reflexivity.
  - destruct Hacc as [[w Hw] | Hlt]; [congruence |].
    rewrite update_noexist_room by assumption.
    cbn [snd Runqlat.rqlat_accum]. eexists.
    split; [apply lookup_store_eq |]. split; reflexivity.
Qed.

(** C1, as the code has it.  In [runqlat.c] and [lockwait.c], for a key [k]
    that passes the handler's filter (a non-zero PID; for the futex probe
    also a wait operation), a begin at [t1] that finds room in the Pairing
    Table followed by the end at [t2 >= t1], with [t2 - t1] not above the
    ceiling (and, for the futex probe, not zero) and with room for [k] in
    the Accumulation Table, leaves a record for [k] whose total is the old
    total plus [t2 - t1] modulo 2^64 and whose count is the old count plus 1
    modulo 2^32; when [k] had no record, the record is created with total
    [t2 - t1] and count 1. *)
Theorem begin_end_adds_one_sample :
  (forall st ctx_pid t1 t2,
      u32 ctx_pid <> 0 ->
      t1 <= t2 -> t2 - t1 <= Runqlat.STALE_NS ->
      has_room (Runqlat.rq_start st) (u32 ctx_pid) ->
      has_room (Runqlat.rqlat_accum st) (u32 ctx_pid) ->
      exists val',
        entries (Runqlat.rqlat_accum
                   (snd (Runqlat.handle_sched_switch_rqlat ctx_pid t2
                           (snd (Runqlat.handle_sched_wakeup ctx_pid t1 st)))))
          !! u32 ctx_pid = Some val' /\
        match entries (Runqlat.rqlat_accum st) !! u32 ctx_pid with
        | Some val =>
            Runqlat.total_ns val' = u64 (Runqlat.total_ns val + (t2 - t1)) /\
            Runqlat.count val' = u32 (Runqlat.count val + 1)
        | None =>
            Runqlat.total_ns val' = t2 - t1 /\ Runqlat.count val' = 1
        end) /\
  (forall st ctx_op pid_tgid t1 t2,
      Z.land ctx_op 0x7F = Lockwait.FUTEX_WAIT \/
      Z.land ctx_op 0x7F = Lockwait.FUTEX_WAIT_BITSET \/
      Z.land ctx_op 0x7F = Lockwait.FUTEX_LOCK_PI ->
      tgid_of pid_tgid <> 0 ->
      t1 < t2 -> t2 - t1 <= Lockwait.STALE_NS ->
      has_room (Lockwait.futex_start st) (tgid_of pid_tgid) ->
      has_room (Lockwait.futex_accum st) (tgid_of pid_tgid) ->
      exists val',
        entries (Lockwait.futex_accum
                   (snd (Lockwait.handle_futex_exit pid_tgid t2
                           (snd (Lockwait.handle_futex_enter ctx_op pid_tgid t1 st)))))
          !! tgid_of pid_tgid = Some val' /\
        match entries (Lockwait.futex_accum st) !! tgid_of pid_tgid with
        | Some val =>
            Lockwait.total_wait_ns val' = u64 (Lockwait.total_wait_ns val + (t2 - t1)) /\
            Lockwait.count val' = u32 (Lockwait.count val + 1)
        | None =>
            Lockwait.total_wait_ns val' = t2 - t1 /\ Lockwait.count val' = 1
        end).
Proof.
  split.
  - exact runqlat_begin_end.
  - intros st op p t1 t2 Hop Hp Hlt Hd Hstart Hacc.
    unfold Lockwait.handle_futex_enter.
    assert (negb (Z.land op 0x7F =? Lockwait.FUTEX_WAIT)
            && negb (Z.land op 0x7F =? Lockwait.FUTEX_WAIT_BITSET)
            && negb (Z.land op 0x7F =? Lockwait.FUTEX_LOCK_PI) = false) as ->.
    { destruct Hop as [-> | [-> | ->]]; reflexivity. }
    destruct (Z.eqb_spec (tgid_of p) 0); [contradiction |].
    rewrite update_any_room by assumption. cbn [snd].
    unfold Lockwait.handle_futex_exit, bpf_map_lookup_elem.
    destruct (Z.eqb_spec (tgid_of p) 0); [contradiction |].
    cbn [Lockwait.futex_start Lockwait.futex_accum]. rewrite lookup_store_eq.
    rewrite (u64_small (t2 - t1)) by (unfold Lockwait.STALE_NS in Hd; lia).
    destruct (Z.eqb_spec (t2 - t1) 0); [lia |].
    destruct (Z.gtb_spec (t2 - t1) Lockwait.STALE_NS); [lia |].
    cbn [orb].
    destruct (entries (Lockwait.futex_accum st) !! tgid_of p) eqn:Hk.
    + cbn [snd Lockwait.futex_accum]. eexists.
      split; [apply lookup_store_eq |]. split; reflexivity.
    + destruct Hacc as [[w Hw] | Hroom]; [congruence |].
      rewrite update_noexist_room by assumption.
      cbn [snd Lockwait.futex_accum]. eexists.
      split; [apply lookup_store_eq |]. split; reflexivity.
Qed.

Lemma begin_end_adds_one_sample_witness :
  has_room (Runqlat.rq_start Runqlat.init) (u32 7) /\
  has_room (Runqlat.rqlat_accum Runqlat.init) (u32 7) /\
  exists val',
    entries (Runqlat.rqlat_accum
               (snd (Runqlat.handle_sched_switch_rqlat 7 1500
                       (snd (Runqlat.handle_sched_wakeup 7 1000 Runqlat.init)))))
      !! u32 7 = Some val' /\
    match entries (Runqlat.rqlat_accum Runqlat.init) !! u32 7 with
    | Some val =>
        Runqlat.total_ns val' = u64 (Runqlat.total_ns val + (1500 - 1000)) /\
        Runqlat.count val' = u32 (Runqlat.count val + 1)
    | None =>
        Runqlat.total_ns val' = 1500 - 1000 /\ Runqlat.count val' = 1
    end.
Proof.
  assert (forall V (m : bpf_map Z V), entries m = ∅ -> max_entries m = 10240%nat ->
            has_room m (u32 7)) as Hroom.
  { intros V m He Hm. right. rewrite He, Hm, map_size_empty. vm_compute. lia. }
  split; [by apply Hroom |]. split; [by apply Hroom |].
  apply (proj1 begin_end_adds_one_sample Runqlat.init 7 1000 1500).
  - vm_compute. discriminate.
  - lia.
  - vm_compute. discriminate.
  - by apply Hroom.
  - by apply Hroom.
Defined.

(** C1 as stated fails in [lockwait.c]: a futex wait of PID 7 that begins
    and ends at the same nanosecond has duration 0, below the 30 s ceiling,
    and no record is created for the key. *)
Lemma lockwait_zero_sample_not_added :
  500 - 500 < Lockwait.STALE_NS /\
  entries (Lockwait.futex_start
             (snd (Lockwait.handle_futex_enter 0 (Z.shiftl 7 32) 500 Lockwait.init)))
    !! 7 = Some 500 /\
  entries (Lockwait.futex_accum
             (snd (Lockwait.handle_futex_exit (Z.shiftl 7 32) 500
                     (snd (Lockwait.handle_futex_enter 0 (Z.shiftl 7 32) 500
                             Lockwait.init))))) !! 7 = None.
Proof. repeat apply conj; vm_compute; reflexivity. Qed.

(** Nor is the record created in [runqlat.c] when the Accumulation Table is
    at capacity: with one slot, taken by PID 5, the sample of PID 7 is
    dropped. *)
Example runqlat_sample_dropped_at_capacity :
  entries
    (Runqlat.rqlat_accum
       (snd (Runqlat.handle_sched_switch_rqlat 7 1500
               (snd (Runqlat.handle_sched_wakeup 7 1000
                       {| Runqlat.rq_start := bpf_map_decl 10240;
                          Runqlat.rqlat_accum :=
                            {| max_entries := 1;
                               entries :=
                                 {[ 5 := {| Runqlat.total_ns := 10; Runqlat.count := 1;
                                            Runqlat.max_ns := 10 |} ]} |} |})))))
    !! 7 = None.
Proof. vm_compute. reflexivity. Qed.

(** ** A begin that follows a begin *)

Lemma wakeup_twice st ctx_pid t1 t2 :
  Runqlat.handle_sched_wakeup ctx_pid t2
    (snd (Runqlat.handle_sched_wakeup ctx_pid t1 st))
  = Runqlat.handle_sched_wakeup ctx_pid t2 st.
Proof.
  unfold Runqlat.handle_sched_wakeup.
  destruct (u32 ctx_pid =? 0); [reflexivity |].
  cbn [snd Runqlat.rq_start Runqlat.rqlat_accum].
  by rewrite update_any_twice.
Qed.

Lemma connect_twice st sk pid_tgid1 pid_tgid2 t1 t2 :
  tgid_of pid_tgid2 <> 0 ->
  Tcpconnlat.handle_tcp_v4_connect sk pid_tgid2 t2
    (snd (Tcpconnlat.handle_tcp_v4_connect sk pid_tgid1 t1 st))
  = Tcpconnlat.handle_tcp_v4_connect sk pid_tgid2 t2 st.
Proof.
  intros Hp. unfold Tcpconnlat.handle_tcp_v4_connect.
  destruct (Z.eqb_spec (tgid_of pid_tgid2) 0); [contradiction |].
  destruct (tgid_of pid_tgid1 =? 0); [reflexivity |].
  cbn [snd Tcpconnlat.conn_inflight Tcpconnlat.connlat_accum].
  by rewrite update_any_twice.
Qed.

(** The sample that [handle_set_state] merges after a connect. *)
Lemma tcpconnlat_begin_end st ctx pid_tgid t1 t2 :
  tgid_of pid_tgid <> 0 ->
  Tcpconnlat.oldstate ctx = Tcpconnlat.TCP_SYN_SENT ->
  Tcpconnlat.newstate ctx = Tcpconnlat.TCP_ESTABLISHED ->
  has_room (Tcpconnlat.conn_inflight st) (u64 (Tcpconnlat.skaddr ctx)) ->
  has_room (Tcpconnlat.connlat_accum st) (tgid_of pid_tgid) ->
  exists val',
    entries (Tcpconnlat.connlat_accum
               (snd (Tcpconnlat.handle_set_state ctx t2
                       (snd (Tcpconnlat.handle_tcp_v4_connect
                               (Tcpconnlat.skaddr ctx) pid_tgid t1 st)))))
      !! tgid_of pid_tgid = Some val' /\
    match entries (Tcpconnlat.connlat_accum st) !! tgid_of pid_tgid with
    | Some val =>
        Tcpconnlat.total_ns val' = u64 (Tcpconnlat.total_ns val + u64 (t2 - t1)) /\
        Tcpconnlat.count val' = u32 (Tcpconnlat.count val + 1)
    | None =>
        Tcpconnlat.total_ns val' = u64 (t2 - t1) /\ Tcpconnlat.count val' = 1
    end.
Proof.
  intros Hp Hold Hnew Hstart Hacc.
  unfold Tcpconnlat.handle_tcp_v4_connect.
  destruct (Z.eqb_spec (tgid_of pid_tgid) 0); [contradiction |].
  rewrite update_any_room by assumption. cbn [snd].
  unfold Tcpconnlat.handle_set_state, bpf_map_lookup_elem.
  rewrite Hold, Hnew, !Z.eqb_refl. cbn [negb orb].
  cbn [Tcpconnlat.conn_inflight Tcpconnlat.connlat_accum].
  rewrite lookup_store_eq. cbn [Tcpconnlat.ts Tcpconnlat.pid].
  destruct (entries (Tcpconnlat.connlat_accum st) !! tgid_of pid_tgid) eqn:Hk.
  - cbn [snd Tcpconnlat.connlat_accum]. eexists.
    split; [apply lookup_store_eq |]. split; reflexivity.
  - destruct Hacc as [[w Hw] | Hlt]; [congruence |].
    rewrite update_noexist_room by assumption.
    cbn [snd Tcpconnlat.connlat_accum]. eexists.
    split; [apply lookup_store_eq |]. split; reflexivity.
Qed.

(** C6. In [runqlat.c] and [tcpconnlat.c] a begin at [t2] for a key whose
    begin at [t1] is still in flight overwrites the pairing entry: the state
    is the one the second begin alone leaves, the entry holds [t2], and the
    end at [t3] merges the duration [t3 - t2]. *)
Theorem last_begin_wins :
  (forall st ctx_pid t1 t2,
      Runqlat.handle_sched_wakeup ctx_pid t2
        (snd (Runqlat.handle_sched_wakeup ctx_pid t1 st))
      = Runqlat.handle_sched_wakeup ctx_pid t2 st) /\
  (forall st ctx_pid t1 t2,
      u32 ctx_pid <> 0 ->
      has_room (Runqlat.rq_start st) (u32 ctx_pid) ->
      entries (Runqlat.rq_start
                 (snd (Runqlat.handle_sched_wakeup ctx_pid t2
                         (snd (Runqlat.handle_sched_wakeup ctx_pid t1 st)))))
        !! u32 ctx_pid = Some t2) /\
  (forall st ctx_pid t1 t2 t3,
      u32 ctx_pid <> 0 ->
      t2 <= t3 -> t3 - t2 <= Runqlat.STALE_NS ->
      has_room (Runqlat.rq_start st) (u32 ctx_pid) ->
      has_room (Runqlat.rqlat_accum st) (u32 ctx_pid) ->
      exists val',
        entries (Runqlat.rqlat_accum
                   (snd (Runqlat.handle_sched_switch_rqlat ctx_pid t3
                           (snd (Runqlat.handle_sched_wakeup ctx_pid t2
                                   (snd (Runqlat.handle_sched_wakeup ctx_pid t1 st)))))))
          !! u32 ctx_pid = Some val' /\
        match entries (Runqlat.rqlat_accum st) !! u32 ctx_pid with
        | Some val =>
            Runqlat.total_ns val' = u64 (Runqlat.total_ns val + (t3 - t2)) /\
            Runqlat.count val' = u32 (Runqlat.count val + 1)
        | None =>
            Runqlat.total_ns val' = t3 - t2 /\ Runqlat.count val' = 1
        end) /\
  (forall st sk pid_tgid1 pid_tgid2 t1 t2,
      tgid_of pid_tgid2 <> 0 ->
      Tcpconnlat.handle_tcp_v4_connect sk pid_tgid2 t2
        (snd (Tcpconnlat.handle_tcp_v4_connect sk pid_tgid1 t1 st))
      = Tcpconnlat.handle_tcp_v4_connect sk pid_tgid2 t2 st) /\
  (forall st sk pid_tgid1 pid_tgid2 t1 t2,
      tgid_of pid_tgid2 <> 0 ->
      has_room (Tcpconnlat.conn_inflight st) (u64 sk) ->
      entries (Tcpconnlat.conn_inflight
                 (snd (Tcpconnlat.handle_tcp_v4_connect sk pid_tgid2 t2
                         (snd (Tcpconnlat.handle_tcp_v4_connect sk pid_tgid1 t1 st)))))
        !! u64 sk
      = Some {| Tcpconnlat.ts := t2; Tcpconnlat.pid := tgid_of pid_tgid2 |}) /\
  (forall st ctx pid_tgid1 pid_tgid2 t1 t2 t3,
      tgid_of pid_tgid2 <> 0 ->
      Tcpconnlat.oldstate ctx = Tcpconnlat.TCP_SYN_SENT ->
      Tcpconnlat.newstate ctx = Tcpconnlat.TCP_ESTABLISHED ->
      has_room (Tcpconnlat.conn_inflight st) (u64 (Tcpconnlat.skaddr ctx)) ->
      has_room (Tcpconnlat.connlat_accum st) (tgid_of pid_tgid2) ->
      exists val',
        entries (Tcpconnlat.connlat_accum
                   (snd (Tcpconnlat.handle_set_state ctx t3
                           (snd (Tcpconnlat.handle_tcp_v4_connect
                                   (Tcpconnlat.skaddr ctx) pid_tgid2 t2
                                   (snd (Tcpconnlat.handle_tcp_v4_connect
                                           (Tcpconnlat.skaddr ctx) pid_tgid1 t1 st)))))))
          !! tgid_of pid_tgid2 = Some val' /\
        match entries (Tcpconnlat.connlat_accum st) !! tgid_of pid_tgid2 with
        | Some val =>
            Tcpconnlat.total_ns val' = u64 (Tcpconnlat.total_ns val + u64 (t3 - t2)) /\
            Tcpconnlat.count val' = u32 (Tcpconnlat.count val + 1)
        | None =>
            Tcpconnlat.total_ns val' = u64 (t3 - t2) /\ Tcpconnlat.count val' = 1
        end).
Proof.
  repeat apply conj.
  - intros. apply wakeup_twice.
  - intros st p t1 t2 Hp Hroom. rewrite wakeup_twice.
    unfold Runqlat.handle_sched_wakeup.
    destruct (Z.eqb_spec (u32 p) 0); [contradiction |].
    rewrite update_any_room by assumption. apply lookup_store_eq.
  - intros st p t1 t2 t3 Hp Hle Hd Hstart Hacc. rewrite wakeup_twice.
    by apply runqlat_begin_end.
  - intros. by apply connect_twice.
  - intros st sk p1 p2 t1 t2 Hp Hroom. rewrite connect_twice by assumption.
    unfold Tcpconnlat.handle_tcp_v4_connect.
    destruct (Z.eqb_spec (tgid_of p2) 0); [contradiction |].
    rewrite update_any_room by assumption. apply lookup_store_eq.
  - intros st ctx p1 p2 t1 t2 t3 Hp Hold Hnew Hstart Hacc.
    rewrite connect_twice by assumption.
    by apply tcpconnlat_begin_end.
Qed.

Lemma last_begin_wins_witness :
  has_room (Runqlat.rq_start Runqlat.init) (u32 7) /\
  entries (Runqlat.rq_start
             (snd (Runqlat.handle_sched_wakeup 7 2000
                     (snd (Runqlat.handle_sched_wakeup 7 1000 Runqlat.init)))))
    !! u32 7 = Some 2000.
Proof.
  assert (has_room (Runqlat.rq_start Runqlat.init) (u32 7)) as Hroom.
  { right. vm_compute. lia. }
  split; [exact Hroom |].
  apply (proj1 (proj2 last_begin_wins) Runqlat.init 7 1000 2000).
  - vm_compute. discriminate.
  - exact Hroom.
Defined.

(** ** The clamped 32-bit maximum *)

Lemma racy_max_saturates d32 old :
  d32 = U32_MAX -> old <= U32_MAX ->
  (if d32 >? old then d32 else old) = U32_MAX.
Proof. intros -> Hold. destruct (Z.gtb_spec U32_MAX old); lia. Qed.

(** C7. A duration of 0xFFFFFFFF ns or more that is merged into a [max_ns]
    field stores exactly 0xFFFFFFFF, on the creation path and on the merge
    path (where the field, a [__u32], held at most 0xFFFFFFFF), in every
    handler with a clamped maximum: [runqlat.c], [syscalldissect.c],
    [tcpconnlat.c] and [sockio.c]. *)
Theorem max_ns_saturates :
  (forall d, U32_MAX <= d -> delta32 d = U32_MAX) /\
  (forall st next_tgid now tsp,
      u32 next_tgid <> 0 ->
      entries (Runqlat.rq_start st) !! u32 next_tgid = Some tsp ->
      U32_MAX <= u64 (now - tsp) <= Runqlat.STALE_NS ->
      has_room (Runqlat.rqlat_accum st) (u32 next_tgid) ->
      (forall val, entries (Runqlat.rqlat_accum st) !! u32 next_tgid = Some val ->
                   Runqlat.max_ns val <= U32_MAX) ->
      exists val',
        entries (Runqlat.rqlat_accum
                   (snd (Runqlat.handle_sched_switch_rqlat next_tgid now st)))
          !! u32 next_tgid = Some val' /\
        Runqlat.max_ns val' = U32_MAX) /\
  (forall st ctx_id pid_tgid now tsp,
      let key := {| Syscalldissect.key_pid := tgid_of pid_tgid;
                    Syscalldissect.syscall_nr := u32 ctx_id |} in
      tgid_of pid_tgid <> 0 ->
      entries (Syscalldissect.sc_start st) !! tgid_of pid_tgid = Some tsp ->
      U32_MAX <= u64 (now - tsp) <= Syscalldissect.STALE_NS ->
      has_room (Syscalldissect.sc_accum st) key ->
      (forall val, entries (Syscalldissect.sc_accum st) !! key = Some val ->
                   Syscalldissect.max_ns val <= U32_MAX) ->
      exists val',
        entries (Syscalldissect.sc_accum
                   (snd (Syscalldissect.handle_sys_exit ctx_id pid_tgid now st)))
          !! key = Some val' /\
        Syscalldissect.max_ns val' = U32_MAX) /\
  (forall st ctx now start,
      Tcpconnlat.oldstate ctx = Tcpconnlat.TCP_SYN_SENT ->
      Tcpconnlat.newstate ctx = Tcpconnlat.TCP_ESTABLISHED ->
      entries (Tcpconnlat.conn_inflight st) !! u64 (Tcpconnlat.skaddr ctx) = Some start ->
      U32_MAX <= u64 (now - Tcpconnlat.ts start) ->
      has_room (Tcpconnlat.connlat_accum st) (Tcpconnlat.pid start) ->
      (forall val, entries (Tcpconnlat.connlat_accum st) !! Tcpconnlat.pid start = Some val ->
                   Tcpconnlat.max_ns val <= U32_MAX) ->
      exists val',
        entries (Tcpconnlat.connlat_accum (snd (Tcpconnlat.handle_set_state ctx now st)))
          !! Tcpconnlat.pid start = Some val' /\
        Tcpconnlat.max_ns val' = U32_MAX) /\
  (forall st pid_tgid now rs,
      let key := {| Sockio.key_pid := tgid_of pid_tgid;
                    Sockio.key_daddr := Sockio.daddr rs;
                    Sockio.key_dport := Sockio.dport rs; Sockio.key_pad := 0 |} in
      tgid_of pid_tgid <> 0 ->
      entries (Sockio.recv_inflight st) !! tgid_of pid_tgid = Some rs ->
      U32_MAX <= u64 (now - Sockio.ts rs) <= Sockio.STALE_NS ->
      has_room (Sockio.sockio_accum st) key ->
      (forall val, entries (Sockio.sockio_accum st) !! key = Some val ->
                   Sockio.max_recv_ns val <= U32_MAX) ->
      exists val',
        entries (Sockio.sockio_accum
                   (snd (Sockio.handle_tcp_recvmsg_exit pid_tgid now st)))
          !! key = Some val' /\
        Sockio.max_recv_ns val' = U32_MAX).
Proof.
  repeat apply conj.
  - exact delta32_saturates.
  - intros st p now tsp Hp Hin [Hlo Hhi] Hroom Hmax.
    unfold Runqlat.handle_sched_switch_rqlat, bpf_map_lookup_elem.
    rewrite Hin.
    destruct (Z.eqb_spec (u32 p) 0); [contradiction |].
    destruct (Z.gtb_spec (u64 (now - tsp)) Runqlat.STALE_NS); [lia |].
    destruct (entries (Runqlat.rqlat_accum st) !! u32 p) as [val |] eqn:Hk.
    + cbn [snd Runqlat.rqlat_accum]. eexists.
      split; [apply lookup_store_eq |]. cbn [Runqlat.max_ns].
      apply racy_max_saturates; [by apply delta32_saturates | by apply Hmax].
    + destruct Hroom as [[w Hw] | Hlt]; [congruence |].
      rewrite update_noexist_room by assumption.
      cbn [snd Runqlat.rqlat_accum]. eexists.
      split; [apply lookup_store_eq |]. by apply delta32_saturates.
  - intros st id p now tsp key Hp Hin [Hlo Hhi] Hroom Hmax.
    unfold Syscalldissect.handle_sys_exit, bpf_map_lookup_elem.
    rewrite Hin. fold key.
    destruct (Z.eqb_spec (tgid_of p) 0); [contradiction |].
    destruct (Z.gtb_spec (u64 (now - tsp)) Syscalldissect.STALE_NS); [lia |].
    destruct (entries (Syscalldissect.sc_accum st) !! key) as [val |] eqn:Hk.
    + cbn [snd Syscalldissect.sc_accum]. eexists.
      split; [apply lookup_store_eq |]. cbn [Syscalldissect.max_ns].
      apply racy_max_saturates; [by apply delta32_saturates | by apply Hmax].
    + destruct Hroom as [[w Hw] | Hlt]; [congruence |].
      rewrite update_noexist_room by assumption.
      cbn [snd Syscalldissect.sc_accum]. eexists.
      split; [apply lookup_store_eq |]. by apply delta32_saturates.
  - intros st ctx now start Hold Hnew Hin Hlo Hroom Hmax.
    unfold Tcpconnlat.handle_set_state, bpf_map_lookup_elem.
    rewrite Hold, Hnew, !Z.eqb_refl, Hin. cbn [negb orb].
    destruct (entries (Tcpconnlat.connlat_accum st) !! Tcpconnlat.pid start)
      as [val |] eqn:Hk.
    + cbn [snd Tcpconnlat.connlat_accum]. eexists.
      split; [apply lookup_store_eq |]. cbn [Tcpconnlat.max_ns].
      apply racy_max_saturates; [by apply delta32_saturates | by apply Hmax].
    + destruct Hroom as [[w Hw] | Hlt]; [congruence |].
      rewrite update_noexist_room by assumption.
      cbn [snd Tcpconnlat.connlat_accum]. eexists.
      split; [apply lookup_store_eq |]. by apply delta32_saturates.
  - intros st p now rs key Hp Hin [Hlo Hhi] Hroom Hmax.
    unfold Sockio.handle_tcp_recvmsg_exit, bpf_map_lookup_elem.
    rewrite Hin. fold key.
    destruct (Z.eqb_spec (tgid_of p) 0); [contradiction |].
    destruct (Z.gtb_spec (u64 (now - Sockio.ts rs)) Sockio.STALE_NS); [lia |].
    destruct (entries (Sockio.sockio_accum st) !! key) as [val |] eqn:Hk.
    + cbn [snd Sockio.sockio_accum]. eexists.
      split; [apply lookup_store_eq |]. cbn [Sockio.max_recv_ns].
      apply racy_max_saturates; [by apply delta32_saturates | by apply Hmax].
    + destruct Hroom as [[w Hw] | Hlt]; [congruence |].
      rewrite update_noexist_room by assumption.
      cbn [snd Sockio.sockio_accum]. eexists.
      split; [apply lookup_store_eq |]. by apply delta32_saturates.
Qed.

Lemma max_ns_saturates_witness :
  entries (Runqlat.rq_start (snd (Runqlat.handle_sched_wakeup 7 0 Runqlat.init)))
    !! u32 7 = Some 0 /\
  U32_MAX <= u64 (5000000000 - 0) <= Runqlat.STALE_NS /\
  exists val',
    entries (Runqlat.rqlat_accum
               (snd (Runqlat.handle_sched_switch_rqlat 7 5000000000
                       (snd (Runqlat.handle_sched_wakeup 7 0 Runqlat.init)))))
      !! u32 7 = Some val' /\
    Runqlat.max_ns val' = U32_MAX.
Proof.
  split; [reflexivity |].
  split; [vm_compute; split; discriminate |].
  apply (proj1 (proj2 max_ns_saturates)
           (snd (Runqlat.handle_sched_wakeup 7 0 Runqlat.init)) 7 5000000000 0).
  - vm_compute. discriminate.
  - reflexivity.
  - vm_compute. split; discriminate.
  - right. vm_compute. lia.
  - intros val Hval. vm_compute in Hval. discriminate.
Defined.

(** ** Keys *)

Lemma byte_to_N_inj b1 b2 : Byte.to_N b1 = Byte.to_N b2 -> b1 = b2.
Proof.
  intros Heq. pose proof (Byte.of_to_N b1) as H1.
  rewrite Heq, Byte.of_to_N in H1. congruence.
Qed.

Lemma le_bytes_inj : forall l1 l2,
  length l1 = length l2 -> Modload.le_bytes l1 = Modload.le_bytes l2 -> l1 = l2.
Proof.
  induction l1 as [| b1 l1 IH]; intros [| b2 l2] Hlen Heq;
    simpl in Hlen; try discriminate; [reflexivity |].
  cbn [Modload.le_bytes] in Heq.
  pose proof (Byte.to_N_bounded b1). pose proof (Byte.to_N_bounded b2).
  assert (Z.of_N (Byte.to_N b1) = Z.of_N (Byte.to_N b2)
          /\ Modload.le_bytes l1 = Modload.le_bytes l2) as [Hb Hr] by lia.
  f_equal.
  - apply byte_to_N_inj. lia.
  - apply IH; [lia | exact Hr].
Qed.

Lemma length_read_name mod_name : length (Modload.read_name mod_name) = 56%nat.
Proof.
  unfold Modload.read_name.
  rewrite length_app, repeat_length.
  pose proof (firstn_le_length 55 mod_name). lia.
Qed.

Lemma all_from_spec f : forall n i x,
  all_from n i f = true -> i <= x < i + Z.of_nat n -> f x = true.
Proof.
  induction n as [| n IH]; intros i x Hall Hx; [lia |].
  cbn [all_from] in Hall. apply andb_prop in Hall as [Hi Hrest].
  destruct (Z.eq_dec x i) as [-> | Hne]; [exact Hi |].
  apply (IH (i + 1)); [exact Hrest | lia].
Qed.

Lemma bswap16_involutive x : 0 <= x < 2 ^ 16 -> bswap16 (bswap16 x) = x.
Proof.
  intros Hx. apply Z.eqb_eq.
  assert (all_from (Z.to_nat 65536) 0 (fun y => bswap16 (bswap16 y) =? y) = true)
    as Hall by (vm_compute; reflexivity).
  apply (all_from_spec _ _ 0 x Hall).
  rewrite Z2Nat.id by lia. lia.
Qed.

Lemma bswap16_bounded x : 0 <= x < 2 ^ 16 -> 0 <= bswap16 x < 2 ^ 16.
Proof.
  intros Hx.
  assert (all_from (Z.to_nat 65536) 0
            (fun y => (0 <=? bswap16 y) && (bswap16 y <? 65536)) = true)
    as Hall by (vm_compute; reflexivity).
  pose proof (all_from_spec _ _ 0 x Hall) as Hb. cbv beta in Hb.
  rewrite Z2Nat.id in Hb by lia.
  apply andb_prop in Hb as [Hlo Hhi]; [| lia].
  apply Z.leb_le in Hlo. apply Z.ltb_lt in Hhi.
  change (2 ^ 16) with 65536. lia.
Qed.

Lemma bswap16_inj d1 d2 :
  bswap16 (u16 d1) = bswap16 (u16 d2) -> u16 d1 = u16 d2.
Proof.
  intros Heq.
  rewrite <- (bswap16_involutive (u16 d1)), <- (bswap16_involutive (u16 d2)).
  - by rewrite Heq.
  - unfold u16. apply Z.mod_pos_bound. lia.
  - unfold u16. apply Z.mod_pos_bound. lia.
Qed.

(** *** The byte image of a key *)

Lemma byte_of_value z : Z.of_N (Byte.to_N (Layout.byte_of z)) = z mod 256.
Proof.
  unfold Layout.byte_of.
  pose proof (Z.mod_pos_bound z 256 ltac:(lia)) as Hb.
  destruct (Byte.of_N (Z.to_N (z mod 256))) as [b |] eqn:Hof.
  - change (default x00 (Some b)) with b. apply Byte.to_of_N in Hof. rewrite Hof. lia.
  - apply Byte.of_N_None_iff in Hof. lia.
Qed.

Lemma length_le_word : forall n z, length (Layout.le_word n z) = n.
Proof. induction n as [| n IH]; intros z; cbn; [reflexivity | by rewrite IH]. Qed.

(** Reading the bytes of a member back gives its value at the member's
    width. *)
Lemma le_bytes_le_word : forall n z,
  Modload.le_bytes (Layout.le_word n z) = z mod 2 ^ (8 * Z.of_nat n).
Proof.
  induction n as [| n IH]; intros z.
  - cbn. by rewrite Z.mod_1_r.
  - cbn [Layout.le_word Modload.le_bytes]. rewrite byte_of_value, IH.
    replace (8 * Z.of_nat (S n)) with (8 + 8 * Z.of_nat n) by lia.
    rewrite Z.pow_add_r by lia. change (2 ^ 8) with 256.
    rewrite Z.rem_mul_r by lia. reflexivity.
Qed.

Lemma le_word_eq n a b :
  Layout.le_word n a = Layout.le_word n b <->
  a mod 2 ^ (8 * Z.of_nat n) = b mod 2 ^ (8 * Z.of_nat n).
Proof.
  rewrite <- !le_bytes_le_word. split.
  - by intros ->.
  - apply le_bytes_inj. by rewrite !length_le_word.
Qed.

Lemma le_word_eq_u32 a b : Layout.le_word 4 a = Layout.le_word 4 b <-> u32 a = u32 b.
Proof. apply le_word_eq. Qed.

Lemma le_word_eq_u16 a b : Layout.le_word 2 a = Layout.le_word 2 b <-> u16 a = u16 b.
Proof. apply le_word_eq. Qed.

Lemma le_word_eq_u64 a b : Layout.le_word 8 a = Layout.le_word 8 b <-> u64 a = u64 b.
Proof. apply le_word_eq. Qed.

Lemma u32_u32 a : u32 (u32 a) = u32 a.
Proof. unfold u32. apply Z.mod_mod. lia. Qed.

Lemma u16_u16 a : u16 (u16 a) = u16 a.
Proof. unfold u16. apply Z.mod_mod. lia. Qed.

Lemma u32_tgid_of p : u32 (tgid_of p) = tgid_of p.
Proof. unfold tgid_of. apply u32_u32. Qed.

Lemma u16_bswap16 d : u16 (bswap16 (u16 d)) = bswap16 (u16 d).
Proof.
  unfold u16 at 1. apply Z.mod_small. apply bswap16_bounded.
  unfold u16. apply Z.mod_pos_bound. lia.
Qed.

(** Members of equal width split a byte image where they meet. *)
Lemma le_word_app n a b (l l' : list byte) :
  Layout.le_word n a ++ l = Layout.le_word n b ++ l' <->
  Layout.le_word n a = Layout.le_word n b /\ l = l'.
Proof.
  split.
  - apply app_inj_1. by rewrite !length_le_word.
  - by intros [-> ->].
Qed.

(** C8, as the code has it.  A composite key is its members packed at fixed
    offsets, least significant byte first.  The keys of [ptracedetect.c],
    [sockstate.c], [syscalldissect.c], [sockio.c] and [tcprtt.c] have
    the same bytes exactly when the events have the same fields, cut to the
    widths of the members (the tracer and the target; the two states; the
    process and the syscall number; the process, the address and the port;
    the address and the port): their construction is injective and
    deterministic, the byte swap of the port being one-to-one on 16-bit
    values.  The key of [iolatency.c] holds, with the device and the
    sector, the four bytes between them: two keys of equal bytes have the
    same device and sector.  The key of [modload.c] is the first 8 bytes of
    the name buffer, so two modules get the same key exactly when their
    names agree on these bytes. *)
Theorem key_construction :
  (forall name1 name2,
      Modload.key_of (Modload.read_name name1) = Modload.key_of (Modload.read_name name2)
      <-> firstn 8 (Modload.read_name name1) = firstn 8 (Modload.read_name name2)) /\
  (forall pid_tgid1 ctx_pid1 pid_tgid2 ctx_pid2,
      Layout.ptrace_key (Ptracedetect.key_of pid_tgid1 ctx_pid1)
      = Layout.ptrace_key (Ptracedetect.key_of pid_tgid2 ctx_pid2)
      <-> tgid_of pid_tgid1 = tgid_of pid_tgid2 /\ u32 ctx_pid1 = u32 ctx_pid2) /\
  (forall old1 new1 old2 new2,
      Layout.state_key (Sockstate.key_of old1 new1)
      = Layout.state_key (Sockstate.key_of old2 new2)
      <-> u16 old1 = u16 old2 /\ u16 new1 = u16 new2) /\
  (forall pid_tgid1 ctx_id1 pid_tgid2 ctx_id2,
      Layout.sc_key {| Syscalldissect.key_pid := tgid_of pid_tgid1;
                       Syscalldissect.syscall_nr := u32 ctx_id1 |}
      = Layout.sc_key {| Syscalldissect.key_pid := tgid_of pid_tgid2;
                         Syscalldissect.syscall_nr := u32 ctx_id2 |}
      <-> tgid_of pid_tgid1 = tgid_of pid_tgid2 /\ u32 ctx_id1 = u32 ctx_id2) /\
  (forall pid_tgid1 daddr1 dport1 pid_tgid2 daddr2 dport2,
      Layout.sockio_key {| Sockio.key_pid := tgid_of pid_tgid1;
                           Sockio.key_daddr := u32 daddr1;
                           Sockio.key_dport := bswap16 (u16 dport1);
                           Sockio.key_pad := 0 |}
      = Layout.sockio_key {| Sockio.key_pid := tgid_of pid_tgid2;
                             Sockio.key_daddr := u32 daddr2;
                             Sockio.key_dport := bswap16 (u16 dport2);
                             Sockio.key_pad := 0 |}
      <-> tgid_of pid_tgid1 = tgid_of pid_tgid2 /\ u32 daddr1 = u32 daddr2 /\
          u16 dport1 = u16 dport2) /\
  (forall daddr1 dport1 daddr2 dport2,
      Layout.rtt_key {| Tcprtt.key_daddr := u32 daddr1;
                        Tcprtt.key_dport := bswap16 (u16 dport1);
                        Tcprtt.key_pad := 0 |}
      = Layout.rtt_key {| Tcprtt.key_daddr := u32 daddr2;
                          Tcprtt.key_dport := bswap16 (u16 dport2);
                          Tcprtt.key_pad := 0 |}
      <-> u32 daddr1 = u32 daddr2 /\ u16 dport1 = u16 dport2) /\
  (forall dev1 pad1 sector1 dev2 pad2 sector2,
      Layout.rq_key {| Iolatency.key_dev := dev1; Iolatency.key_pad := pad1;
                       Iolatency.key_sector := sector1 |}
      = Layout.rq_key {| Iolatency.key_dev := dev2; Iolatency.key_pad := pad2;
                         Iolatency.key_sector := sector2 |}
      <-> u32 dev1 = u32 dev2 /\ u32 pad1 = u32 pad2 /\ u64 sector1 = u64 sector2) /\
  (forall dport1 dport2,
      bswap16 (u16 dport1) = bswap16 (u16 dport2) <-> u16 dport1 = u16 dport2).
Proof.
  repeat apply conj.
  - intros n1 n2. unfold Modload.key_of. split.
    + apply le_bytes_inj. rewrite !length_firstn, !length_read_name. reflexivity.
    + by intros ->.
  - intros p1 c1 p2 c2.
    unfold Layout.ptrace_key, Ptracedetect.key_of.
    cbn [Ptracedetect.tracer_pid Ptracedetect.target_pid].
    rewrite le_word_app, !le_word_eq_u32, !u32_tgid_of, !u32_u32. reflexivity.
  - intros o1 n1 o2 n2.
    unfold Layout.state_key, Sockstate.key_of.
    cbn [Sockstate.oldstate Sockstate.newstate].
    rewrite le_word_app, !le_word_eq_u16, !u16_u16. reflexivity.
  - intros p1 i1 p2 i2.
    unfold Layout.sc_key.
    cbn [Syscalldissect.key_pid Syscalldissect.syscall_nr].
    rewrite le_word_app, !le_word_eq_u32, !u32_tgid_of, !u32_u32. reflexivity.
  - intros p1 a1 d1 p2 a2 d2.
    unfold Layout.sockio_key.
    cbn [Sockio.key_pid Sockio.key_daddr Sockio.key_dport Sockio.key_pad].
    rewrite !le_word_app, !le_word_eq_u32, !le_word_eq_u16,
      !u32_tgid_of, !u32_u32, !u16_bswap16.
    split.
    + intros (Hp & Ha & Hd & _). auto using bswap16_inj.
    + intros (-> & -> & ->). auto.
  - intros a1 d1 a2 d2.
    unfold Layout.rtt_key.
    cbn [Tcprtt.key_daddr Tcprtt.key_dport Tcprtt.key_pad].
    rewrite !le_word_app, !le_word_eq_u32, !le_word_eq_u16, !u32_u32, !u16_bswap16.
    split.
    + intros (Ha & Hd & _). auto using bswap16_inj.
    + intros (-> & ->). auto.
  - intros d1 q1 s1 d2 q2 s2.
    unfold Layout.rq_key.
    cbn [Iolatency.key_dev Iolatency.key_pad Iolatency.key_sector].
    rewrite !le_word_app, !le_word_eq_u32, le_word_eq_u64. reflexivity.
  - intros d1 d2. split; [apply bswap16_inj | by intros ->].
Qed.

(** C8 as stated fails in [modload.c]: the modules nf_conntrack and
    nf_conntrack_ftp are distinct and get the same key, and the load of the
    second is counted in the record of the first. *)
Lemma modload_key_collision :
  list_byte_of_string "nf_conntrack" <> list_byte_of_string "nf_conntrack_ftp" /\
  Modload.key_of (Modload.read_name (list_byte_of_string "nf_conntrack"))
  = Modload.key_of (Modload.read_name (list_byte_of_string "nf_conntrack_ftp")) /\
  size (entries (Modload.mod_accum
     (snd (Modload.handle_do_init_module (list_byte_of_string "nf_conntrack_ftp") 200
        (snd (Modload.handle_do_init_module (list_byte_of_string "nf_conntrack") 100
                Modload.init)))))) = 1%nat /\
  Modload.count <$>
    entries (Modload.mod_accum
     (snd (Modload.handle_do_init_module (list_byte_of_string "nf_conntrack_ftp") 200
        (snd (Modload.handle_do_init_module (list_byte_of_string "nf_conntrack") 100
                Modload.init)))))
    !! Modload.key_of (Modload.read_name (list_byte_of_string "nf_conntrack"))
  = Some 2.
Proof.
  repeat apply conj.
  - vm_compute. discriminate.
  - vm_compute. reflexivity.
  - vm_compute. reflexivity.
  - vm_compute. reflexivity.
Qed.

(** ** Counts *)

Section CountsKept.
Context {K V : Type} `{Countable K} (w : Z) (cnt : V -> Z).
Implicit Types (m : bpf_map K V) (k : K) (v : V).

Lemma counts_kept_refl m : counts_kept w cnt m m.
Proof. intros k v Hk. exists v. split; [exact Hk | by left]. Qed.

Lemma counts_kept_store m k v v' :
  entries m !! k = Some v -> count_step w (cnt v) (cnt v') ->
  counts_kept w cnt m (store_elem m k v').
Proof.
  intros Hk Hstep k0 v0 Hk0. destruct (decide (k = k0)) as [<- | Hne].
  - exists v'. rewrite lookup_store_eq. split; [done |]. congruence.
  - exists v0. rewrite lookup_store_ne by done. split; [done | by left].
Qed.

Lemma counts_kept_noexist m k v :
  counts_kept w cnt m (snd (bpf_map_update_elem m k v BPF_NOEXIST)).
Proof.
  intros k0 v0 Hk0. exists v0. split; [| by left].
  destruct (decide (k = k0)) as [<- | Hne].
  - by rewrite (update_noexist_present _ _ _ _ Hk0).
  - by rewrite lookup_update_ne.
Qed.
End CountsKept.

Lemma count_step_monotone w c c' :
  count_step w c c' -> 0 <= c < 2 ^ w - 1 -> c <= c'.
Proof.
  intros [-> | ->] Hc; [lia |]. rewrite Z.mod_small; lia.
Qed.

(** Follow the branches of a handler down to the table it leaves. *)
Ltac follow_handler :=
  intros; unfold bpf_map_lookup_elem;
  repeat case_match;
  cbn [fst snd
       Runqlat.rqlat_accum Lockwait.futex_accum Iolatency.iolat_hist
       Tcpconnlat.connlat_accum Pgfault.pgfault_accum Syscalldissect.sc_accum
       Directreclaim.reclaim_accum Offcpu.offcpu_accum Sockio.sockio_accum
       Execsnoop.exec_accum Sockstate.state_accum Modload.mod_accum
       Ptracedetect.ptrace_accum Cgthrottle.throttle_accum Kfreeskb.drop_accum
       Tcpreset.reset_accum Tcpretrans.retrans_accum Tcprtt.rtt_accum
       Wbstall.wb_accum Swapevict.swap_accum];
  first
    [ apply counts_kept_refl
    | apply counts_kept_noexist
    | eapply counts_kept_store;
      [ eassumption | first [by left | by right] ] ].

(** C9, as the code has it.  Every handler invocation keeps every record of
    its Accumulation Table and leaves its count as it was or adds 1 to it
    modulo 2^32 or 2^64, the width of the field; so a count below the
    maximum of its field never decreases, and a count at the maximum wraps
    to 0. *)
Theorem counts_step_by_one :
  (forall w c c', count_step w c c' -> 0 <= c < 2 ^ w - 1 -> c <= c') /\
  (forall st next_tgid now,
      counts_kept 32 Runqlat.count (Runqlat.rqlat_accum st)
        (Runqlat.rqlat_accum (snd (Runqlat.handle_sched_switch_rqlat next_tgid now st)))) /\
  (forall st pid_tgid now,
      counts_kept 32 Lockwait.count (Lockwait.futex_accum st)
        (Lockwait.futex_accum (snd (Lockwait.handle_futex_exit pid_tgid now st)))) /\
  (forall st dev sector pad now,
      counts_kept 32 Iolatency.count (Iolatency.iolat_hist st)
        (Iolatency.iolat_hist (snd (Iolatency.handle_block_rq_complete dev sector pad now st)))) /\
  (forall st ctx now,
      counts_kept 32 Tcpconnlat.count (Tcpconnlat.connlat_accum st)
        (Tcpconnlat.connlat_accum (snd (Tcpconnlat.handle_set_state ctx now st)))) /\
  (forall st ret pid_tgid now,
      counts_kept 32 Pgfault.count (Pgfault.pgfault_accum st)
        (Pgfault.pgfault_accum (snd (Pgfault.handle_fault_exit ret pid_tgid now st)))) /\
  (forall st ctx_id pid_tgid now,
      counts_kept 32 Syscalldissect.count (Syscalldissect.sc_accum st)
        (Syscalldissect.sc_accum (snd (Syscalldissect.handle_sys_exit ctx_id pid_tgid now st)))) /\
  (forall st pid_tgid now,
      counts_kept 32 Directreclaim.count (Directreclaim.reclaim_accum st)
        (Directreclaim.reclaim_accum (snd (Directreclaim.handle_reclaim_end pid_tgid now st)))) /\
  (forall st prev_tgid prev_state next_tgid now,
      counts_kept 32 Offcpu.count (Offcpu.offcpu_accum st)
        (Offcpu.offcpu_accum
           (snd (Offcpu.handle_sched_switch prev_tgid prev_state next_tgid now st)))) /\
  (forall st pid_tgid now,
      counts_kept 32 Sockio.recv_count (Sockio.sockio_accum st)
        (Sockio.sockio_accum (snd (Sockio.handle_tcp_recvmsg_exit pid_tgid now st)))) /\
  (forall st daddr dport size pid_tgid,
      counts_kept 32 Sockio.recv_count (Sockio.sockio_accum st)
        (Sockio.sockio_accum (snd (Sockio.handle_tcp_sendmsg daddr dport size pid_tgid st)))) /\
  (forall st daddr dport copied pid_tgid,
      counts_kept 32 Sockio.recv_count (Sockio.sockio_accum st)
        (Sockio.sockio_accum
           (snd (Sockio.handle_tcp_cleanup_rbuf daddr dport copied pid_tgid st)))) /\
  (forall st ev,
      counts_kept 64 Execsnoop.count (Execsnoop.exec_accum st)
        (Execsnoop.exec_accum (snd (Execsnoop.handle_sched_process_exec ev st)))) /\
  (forall st old new,
      counts_kept 64 Sockstate.count (Sockstate.state_accum st)
        (Sockstate.state_accum (snd (Sockstate.handle_sock_set_state old new st)))) /\
  (forall st mod_name now,
      counts_kept 64 Modload.count (Modload.mod_accum st)
        (Modload.mod_accum (snd (Modload.handle_do_init_module mod_name now st)))) /\
  (forall st request pid pid_tgid now comm,
      counts_kept 64 Ptracedetect.count (Ptracedetect.ptrace_accum st)
        (Ptracedetect.ptrace_accum
           (snd (Ptracedetect.handle_sys_enter_ptrace request pid pid_tgid now comm st)))) /\
  (forall st cgid,
      counts_kept 64 Cgthrottle.count (Cgthrottle.throttle_accum st)
        (Cgthrottle.throttle_accum (snd (Cgthrottle.handle_throttle_cfs_rq cgid st)))) /\
  (forall st reason,
      counts_kept 64 Kfreeskb.count (Kfreeskb.drop_accum st)
        (Kfreeskb.drop_accum (snd (Kfreeskb.handle_kfree_skb reason st)))) /\
  (forall st daddr dport pid_tgid,
      counts_kept 64 Tcpreset.count (Tcpreset.reset_accum st)
        (Tcpreset.reset_accum (snd (Tcpreset.handle_tcp_send_reset daddr dport pid_tgid st)))) /\
  (forall st sport dport daddr pid_tgid,
      counts_kept 32 Tcpretrans.count (Tcpretrans.retrans_accum st)
        (Tcpretrans.retrans_accum
           (snd (Tcpretrans.handle_tcp_retransmit sport dport daddr pid_tgid st)))) /\
  (forall st srtt daddr dport pid_tgid,
      counts_kept 32 Tcprtt.count (Tcprtt.rtt_accum st)
        (Tcprtt.rtt_accum
           (snd (Tcprtt.handle_tcp_rcv_established srtt daddr dport pid_tgid st)))) /\
  (forall st nr_pages pid_tgid,
      counts_kept 64 Wbstall.count (Wbstall.wb_accum st)
        (Wbstall.wb_accum (snd (Wbstall.handle_writeback_wait nr_pages pid_tgid st)))) /\
  (forall st pid_tgid,
      counts_kept 64 Swapevict.read_pages (Swapevict.swap_accum st)
        (Swapevict.swap_accum (snd (Swapevict.handle_swap_readpage pid_tgid st))) /\
      counts_kept 64 Swapevict.write_pages (Swapevict.swap_accum st)
        (Swapevict.swap_accum (snd (Swapevict.handle_swap_readpage pid_tgid st)))) /\
  (forall st pid_tgid,
      counts_kept 64 Swapevict.read_pages (Swapevict.swap_accum st)
        (Swapevict.swap_accum (snd (Swapevict.handle_swap_writepage pid_tgid st))) /\
      counts_kept 64 Swapevict.write_pages (Swapevict.swap_accum st)
        (Swapevict.swap_accum (snd (Swapevict.handle_swap_writepage pid_tgid st)))).
Proof.
  repeat apply conj.
  - exact count_step_monotone.
  - unfold Runqlat.handle_sched_switch_rqlat. follow_handler.
  - unfold Lockwait.handle_futex_exit. follow_handler.
  - unfold Iolatency.handle_block_rq_complete. follow_handler.
  - unfold Tcpconnlat.handle_set_state. follow_handler.
  - unfold Pgfault.handle_fault_exit. follow_handler.
  - unfold Syscalldissect.handle_sys_exit. follow_handler.
  - unfold Directreclaim.handle_reclaim_end. follow_handler.
  - unfold Offcpu.handle_sched_switch, Offcpu.switch_in, Offcpu.switch_out.
    follow_handler.
  - unfold Sockio.handle_tcp_recvmsg_exit. follow_handler.
  - unfold Sockio.handle_tcp_sendmsg, Sockio.add_tx. follow_handler.
  - unfold Sockio.handle_tcp_cleanup_rbuf, Sockio.add_rx. follow_handler.
  - unfold Execsnoop.handle_sched_process_exec. follow_handler.
  - unfold Sockstate.handle_sock_set_state. follow_handler.
  - unfold Modload.handle_do_init_module. follow_handler.
  - unfold Ptracedetect.handle_sys_enter_ptrace. follow_handler.
  - unfold Cgthrottle.handle_throttle_cfs_rq. follow_handler.
  - unfold Kfreeskb.handle_kfree_skb. follow_handler.
  - unfold Tcpreset.handle_tcp_send_reset. follow_handler.
  - unfold Tcpretrans.handle_tcp_retransmit. follow_handler.
  - unfold Tcprtt.handle_tcp_rcv_established. follow_handler.
  - unfold Wbstall.handle_writeback_wait. follow_handler.
  - intros st p. split; unfold Swapevict.handle_swap_readpage; follow_handler.
  - intros st p. split; unfold Swapevict.handle_swap_writepage; follow_handler.
Qed.

Lemma counts_step_by_one_witness :
  count_step 32 5 (fetch_add32 5 1) /\ 5 <= fetch_add32 5 1.
Proof.
  split; [by right |].
  apply (proj1 counts_step_by_one 32 5 (fetch_add32 5 1)).
  - by right.
  - split; [lia | reflexivity].
Defined.

(** C9 as stated fails on a 32-bit count: a record of [syscalldissect.c]
    that has counted 0xFFFFFFFF calls has count 0 after the next one. *)
Lemma syscall_count_wraps :
  Syscalldissect.count <$>
    entries (Syscalldissect.sc_accum
       {| Syscalldissect.sc_start := {| max_entries := 10240; entries := {[ 7 := 4294967295000 ]} |};
          Syscalldissect.sc_accum :=
            {| max_entries := 32768;
               entries :=
                 {[ {| Syscalldissect.key_pid := 7; Syscalldissect.syscall_nr := 1 |} :=
                      {| Syscalldissect.total_ns := 4294967295000;
                         Syscalldissect.count := 0xFFFFFFFF;
                         Syscalldissect.max_ns := 1000 |} ]} |} |})
    !! {| Syscalldissect.key_pid := 7; Syscalldissect.syscall_nr := 1 |}
  = Some 0xFFFFFFFF /\
  Syscalldissect.count <$>
    entries (Syscalldissect.sc_accum
      (snd (Syscalldissect.handle_sys_exit 1 (Z.shiftl 7 32) 4294967296000
       {| Syscalldissect.sc_start := {| max_entries := 10240; entries := {[ 7 := 4294967295000 ]} |};
          Syscalldissect.sc_accum :=
            {| max_entries := 32768;
               entries :=
                 {[ {| Syscalldissect.key_pid := 7; Syscalldissect.syscall_nr := 1 |} :=
                      {| Syscalldissect.total_ns := 4294967295000;
                         Syscalldissect.count := 0xFFFFFFFF;
                         Syscalldissect.max_ns := 1000 |} ]} |} |})))
    !! {| Syscalldissect.key_pid := 7; Syscalldissect.syscall_nr := 1 |}
  = Some 0.
Proof. split; vm_compute; reflexivity. Qed.

(** * Further properties of the handlers *)

(** ** The histogram of [iolatency.c] *)

(** X1. The buckets of [log2_slot] are the powers of two: bucket 0 holds
    the durations below 2 us, bucket [i] (1 <= i <= 14) those from [2^i] up
    to [2^(i+1) - 1] us, and bucket 15 everything from 32768 us on. *)
Theorem log2_slot_bucket_bounds :
  (forall us, Iolatency.log2_slot us = 0 <-> us < 2) /\
  (forall us i, 1 <= i <= 14 ->
      (Iolatency.log2_slot us = i <-> 2 ^ i <= us < 2 ^ (i + 1))) /\
  (forall us, Iolatency.log2_slot us = 15 <-> 32768 <= us).
Proof.
  repeat apply conj.
  - intros us. rewrite log2_slot_closed. split.
    + intros H0. destruct (Z_lt_le_dec us 2) as [Hlt | Hge]; [exact Hlt |].
      assert (1 <= Z.log2 us) by (change 1 with (Z.log2 2); by apply Z.log2_le_mono).
      lia.
    + intros Hlt. destruct (Z_le_gt_dec us 0) as [Hle | Hgt].
      * rewrite Z.log2_nonpos by exact Hle. reflexivity.
      * assert (us = 1) as -> by lia. reflexivity.
  - intros us i Hi. rewrite log2_slot_closed. split.
    + intros Hmin. assert (Z.log2 us = i) as Hlog by lia.
      assert (0 < us).
      { destruct (Z_le_gt_dec us 0) as [Hle | Hgt]; [| lia].
        rewrite Z.log2_nonpos in Hlog by exact Hle. lia. }
      rewrite <- Hlog. replace (Z.log2 us + 1) with (Z.succ (Z.log2 us)) by lia.
      by apply Z.log2_spec.
    + intros Hb. rewrite (Z.log2_unique us i); lia.
  - intros us. rewrite log2_slot_closed. split.
    + intros Hmin. assert (15 <= Z.log2 us) as Hlog by lia.
      assert (0 < us).
      { destruct (Z_le_gt_dec us 0) as [Hle | Hgt]; [| lia].
        rewrite Z.log2_nonpos in Hlog by exact Hle. lia. }
      apply Z.log2_le_pow2 in Hlog; [| assumption]. exact Hlog.
    + intros Hge. assert (15 <= Z.log2 us).
      { apply Z.log2_le_pow2; [lia | exact Hge]. }
      lia.
Qed.

Lemma log2_slot_bucket_bounds_witness :
  1 <= 10 <= 14 /\ (Iolatency.log2_slot 1500 = 10 <-> 2 ^ 10 <= 1500 < 2 ^ (10 + 1)).
Proof.
  split; [lia |].
  apply (proj1 (proj2 log2_slot_bucket_bounds) 1500 10). lia.
Defined.

Lemma slots_total_insert : forall (sl : list Z) (i : nat) (x : Z),
  (i < length sl)%nat ->
  slots_total (<[i := x]> sl) = slots_total sl - nth i sl 0 + x.
Proof.
  unfold slots_total.
  induction sl as [| a sl IH]; intros i x Hi; simpl in Hi; [lia |].
  destruct i as [| i]; simpl.
  - lia.
  - rewrite IH by lia. lia.
Qed.

Lemma slots_total_replicate n : slots_total (replicate n 0) = 0.
Proof. induction n as [| n IH]; [reflexivity |]. simpl. exact IH. Qed.

Lemma nth_replicate_zero n : forall i, nth i (replicate n 0) 0 = 0.
Proof. induction n as [| n IH]; intros [| i]; simpl; auto. Qed.

Lemma bump_mod a b x m :
  0 < m -> a mod m = b mod m ->
  (a - x + (x + 1) mod m) mod m = ((b + 1) mod m) mod m.
Proof.
  intros Hm Hab. rewrite Z.add_mod_idemp_r by lia. rewrite Z.mod_mod by lia.
  replace (a - x + (x + 1)) with (a + 1) by lia.
  rewrite <- (Z.add_mod_idemp_l a), Hab, Z.add_mod_idemp_l by lia.
  reflexivity.
Qed.

Lemma bucket_index_lt us :
  (Z.to_nat (Z.land (Iolatency.log2_slot us) (Iolatency.HIST_SLOTS - 1)) < 16)%nat.
Proof.
  change (Iolatency.HIST_SLOTS - 1) with (Z.ones 4).
  rewrite Z.land_ones by lia.
  pose proof (Z.mod_pos_bound (Iolatency.log2_slot us) (2 ^ 4)). lia.
Qed.

(** X2. [handle_block_rq_complete] keeps the histogram records well formed:
    if every record of the table has 16 buckets whose counts add up to its
    count (as 32-bit values), so has every record of the table it leaves. *)
Theorem iolat_hist_stays_consistent :
  forall st dev sector pad now,
    (forall k val, entries (Iolatency.iolat_hist st) !! k = Some val -> hist_ok val) ->
    forall k val,
      entries (Iolatency.iolat_hist
                 (snd (Iolatency.handle_block_rq_complete dev sector pad now st))) !! k
      = Some val ->
      hist_ok val.
Proof.
  intros st dev sector pad now Hinv k val.
  unfold Iolatency.handle_block_rq_complete, bpf_map_lookup_elem.
  destruct (entries (Iolatency.inflight st) !! _) as [start |]; [| apply Hinv].
  destruct (_ || _); [apply Hinv |].
  set (p := Iolatency.pid start).
  set (delta := u64 (now - Iolatency.start_ns start)).
  pose proof (bucket_index_lt (delta / 1000)) as Hidx.
  set (i := Z.to_nat _) in Hidx.
  destruct (entries (Iolatency.iolat_hist st) !! p) as [old |] eqn:Hp;
    cbn [snd Iolatency.iolat_hist].
  - destruct (decide (p = k)) as [<- | Hne].
    + rewrite lookup_store_eq. intros [= <-].
      destruct (Hinv _ _ Hp) as [Hlen Hsum].
      unfold hist_ok, Iolatency.slots_incr. cbn [Iolatency.slots Iolatency.count].
      fold i. split; [by rewrite length_insert |].
      rewrite slots_total_insert by lia.
      unfold fetch_add32, u32 in *. apply bump_mod; [lia | exact Hsum].
    + rewrite lookup_store_ne by done. apply Hinv.
  - destruct (decide (p = k)) as [<- | Hne].
    + unfold bpf_map_update_elem. rewrite Hp. case_decide; cbn [snd].
      * rewrite lookup_store_eq. intros [= <-].
        unfold hist_ok. cbn [Iolatency.slots Iolatency.count]. fold i.
        change [0; 0; 0; 0; 0; 0; 0; 0; 0; 0; 0; 0; 0; 0; 0; 0]
          with (replicate 16 0).
        split; [by rewrite length_insert, length_replicate |].
        rewrite slots_total_insert by (rewrite length_replicate; exact Hidx).
        rewrite slots_total_replicate.
        by rewrite nth_replicate_zero.
      * rewrite Hp. discriminate.
    + rewrite lookup_update_ne by done. apply Hinv.
Qed.

Lemma iolat_hist_stays_consistent_witness :
  entries (Iolatency.iolat_hist
             (snd (Iolatency.handle_block_rq_complete 8 4096 0 2500000
                     (snd (Iolatency.handle_block_rq_issue 8 4096 0 (Z.shiftl 7 32) 1000
                             Iolatency.init))))) !! 7
  = Some {| Iolatency.total_ns := 2499000; Iolatency.max_ns := 2499000;
            Iolatency.count := 1;
            Iolatency.slots := [0; 0; 0; 0; 0; 0; 0; 0; 0; 0; 0; 1; 0; 0; 0; 0];
            Iolatency.dev := 8 |} /\
  hist_ok {| Iolatency.total_ns := 2499000; Iolatency.max_ns := 2499000;
             Iolatency.count := 1;
             Iolatency.slots := [0; 0; 0; 0; 0; 0; 0; 0; 0; 0; 0; 1; 0; 0; 0; 0];
             Iolatency.dev := 8 |}.
Proof.
  split; [vm_compute; reflexivity |].
  apply (iolat_hist_stays_consistent
           (snd (Iolatency.handle_block_rq_issue 8 4096 0 (Z.shiftl 7 32) 1000
                   Iolatency.init)) 8 4096 0 2500000) with (k := 7).
  - intros k val Hk. vm_compute in Hk. discriminate.
  - vm_compute. reflexivity.
Defined.

(** ** The pairing entry is consumed once *)

(** Take a handler apart into the state it leaves in each of its branches. *)
Ltac branches :=
  unfold bpf_map_lookup_elem; repeat case_match;
  cbn [fst snd
       Runqlat.rq_start Runqlat.rqlat_accum
       Lockwait.futex_start Lockwait.futex_accum
       Iolatency.inflight Iolatency.iolat_hist
       Tcpconnlat.conn_inflight Tcpconnlat.connlat_accum
       Pgfault.pgfault_start Pgfault.pgfault_accum
       Syscalldissect.sc_start Syscalldissect.sc_accum
       Directreclaim.reclaim_start Directreclaim.reclaim_accum
       Sockio.recv_inflight Sockio.sockio_accum].

(** An end handler either leaves the state as it was, because the event is
    filtered or no begin is in flight, or leaves no pairing entry for its
    key. *)
Ltac end_shape :=
  branches;
  first [ left; split; [reflexivity | first [by left | by right]]
        | right; split; [reflexivity | apply lookup_delete_elem_eq] ].

Lemma runqlat_end_shape next_tgid t st :
  (snd (Runqlat.handle_sched_switch_rqlat next_tgid t st) = st /\
   ((u32 next_tgid =? 0) = true \/ entries (Runqlat.rq_start st) !! u32 next_tgid = None)) \/
  ((u32 next_tgid =? 0) = false /\
   entries (Runqlat.rq_start (snd (Runqlat.handle_sched_switch_rqlat next_tgid t st))) !! u32 next_tgid = None).
Proof. unfold Runqlat.handle_sched_switch_rqlat. end_shape. Qed.

Lemma lockwait_end_shape pid_tgid t st :
  (snd (Lockwait.handle_futex_exit pid_tgid t st) = st /\
   ((tgid_of pid_tgid =? 0) = true \/ entries (Lockwait.futex_start st) !! tgid_of pid_tgid = None)) \/
  ((tgid_of pid_tgid =? 0) = false /\
   entries (Lockwait.futex_start (snd (Lockwait.handle_futex_exit pid_tgid t st))) !! tgid_of pid_tgid = None).
Proof. unfold Lockwait.handle_futex_exit. end_shape. Qed.

Lemma pgfault_end_shape ret pid_tgid t st :
  (snd (Pgfault.handle_fault_exit ret pid_tgid t st) = st /\
   ((tgid_of pid_tgid =? 0) = true \/ entries (Pgfault.pgfault_start st) !! tgid_of pid_tgid = None)) \/
  ((tgid_of pid_tgid =? 0) = false /\
   entries (Pgfault.pgfault_start (snd (Pgfault.handle_fault_exit ret pid_tgid t st))) !! tgid_of pid_tgid = None).
Proof. unfold Pgfault.handle_fault_exit. end_shape. Qed.

Lemma syscall_end_shape id pid_tgid t st :
  (snd (Syscalldissect.handle_sys_exit id pid_tgid t st) = st /\
   ((tgid_of pid_tgid =? 0) = true \/ entries (Syscalldissect.sc_start st) !! tgid_of pid_tgid = None)) \/
  ((tgid_of pid_tgid =? 0) = false /\
   entries (Syscalldissect.sc_start (snd (Syscalldissect.handle_sys_exit id pid_tgid t st))) !! tgid_of pid_tgid = None).
Proof. unfold Syscalldissect.handle_sys_exit. end_shape. Qed.

Lemma reclaim_end_shape pid_tgid t st :
  (snd (Directreclaim.handle_reclaim_end pid_tgid t st) = st /\
   ((tgid_of pid_tgid =? 0) = true \/ entries (Directreclaim.reclaim_start st) !! tgid_of pid_tgid = None)) \/
  ((tgid_of pid_tgid =? 0) = false /\
   entries (Directreclaim.reclaim_start (snd (Directreclaim.handle_reclaim_end pid_tgid t st))) !! tgid_of pid_tgid = None).
Proof. unfold Directreclaim.handle_reclaim_end. end_shape. Qed.

Lemma recvmsg_end_shape pid_tgid t st :
  (snd (Sockio.handle_tcp_recvmsg_exit pid_tgid t st) = st /\
   ((tgid_of pid_tgid =? 0) = true \/ entries (Sockio.recv_inflight st) !! tgid_of pid_tgid = None)) \/
  ((tgid_of pid_tgid =? 0) = false /\
   entries (Sockio.recv_inflight (snd (Sockio.handle_tcp_recvmsg_exit pid_tgid t st))) !! tgid_of pid_tgid = None).
Proof. unfold Sockio.handle_tcp_recvmsg_exit. end_shape. Qed.

Lemma block_rq_end_shape dev sector pad t st :
  (snd (Iolatency.handle_block_rq_complete dev sector pad t st) = st /\
   (false = true \/ entries (Iolatency.inflight st) !! {| Iolatency.key_dev := dev; Iolatency.key_pad := pad; Iolatency.key_sector := sector |} = None)) \/
  (false = false /\
   entries (Iolatency.inflight (snd (Iolatency.handle_block_rq_complete dev sector pad t st))) !! {| Iolatency.key_dev := dev; Iolatency.key_pad := pad; Iolatency.key_sector := sector |} = None).
Proof. unfold Iolatency.handle_block_rq_complete. end_shape. Qed.

Lemma set_state_end_shape ctx t st :
  (snd (Tcpconnlat.handle_set_state ctx t st) = st /\
   ((negb (Tcpconnlat.oldstate ctx =? Tcpconnlat.TCP_SYN_SENT)
      || negb (Tcpconnlat.newstate ctx =? Tcpconnlat.TCP_ESTABLISHED)) = true \/ entries (Tcpconnlat.conn_inflight st) !! u64 (Tcpconnlat.skaddr ctx) = None)) \/
  ((negb (Tcpconnlat.oldstate ctx =? Tcpconnlat.TCP_SYN_SENT)
      || negb (Tcpconnlat.newstate ctx =? Tcpconnlat.TCP_ESTABLISHED)) = false /\
   entries (Tcpconnlat.conn_inflight (snd (Tcpconnlat.handle_set_state ctx t st))) !! u64 (Tcpconnlat.skaddr ctx) = None).
Proof. unfold Tcpconnlat.handle_set_state. end_shape. Qed.

(** X3. The end of a pair consumes the pairing entry whether the sample is
    merged, discarded or dropped: a second end event for the same key right
    after the first returns 0 and changes nothing, in every begin/end
    handler with a pairing table of its own. *)
Theorem second_end_is_noop :
  (forall st next_tgid t t',
      Runqlat.handle_sched_switch_rqlat next_tgid t'
        (snd (Runqlat.handle_sched_switch_rqlat next_tgid t st))
      = (0, snd (Runqlat.handle_sched_switch_rqlat next_tgid t st))) /\
  (forall st pid_tgid t t',
      Lockwait.handle_futex_exit pid_tgid t'
        (snd (Lockwait.handle_futex_exit pid_tgid t st))
      = (0, snd (Lockwait.handle_futex_exit pid_tgid t st))) /\
  (forall st ret pid_tgid t ret' t',
      Pgfault.handle_fault_exit ret' pid_tgid t'
        (snd (Pgfault.handle_fault_exit ret pid_tgid t st))
      = (0, snd (Pgfault.handle_fault_exit ret pid_tgid t st))) /\
  (forall st id pid_tgid t id' t',
      Syscalldissect.handle_sys_exit id' pid_tgid t'
        (snd (Syscalldissect.handle_sys_exit id pid_tgid t st))
      = (0, snd (Syscalldissect.handle_sys_exit id pid_tgid t st))) /\
  (forall st pid_tgid t t',
      Directreclaim.handle_reclaim_end pid_tgid t'
        (snd (Directreclaim.handle_reclaim_end pid_tgid t st))
      = (0, snd (Directreclaim.handle_reclaim_end pid_tgid t st))) /\
  (forall st pid_tgid t t',
      Sockio.handle_tcp_recvmsg_exit pid_tgid t'
        (snd (Sockio.handle_tcp_recvmsg_exit pid_tgid t st))
      = (0, snd (Sockio.handle_tcp_recvmsg_exit pid_tgid t st))) /\
  (forall st dev sector pad t t',
      Iolatency.handle_block_rq_complete dev sector pad t'
        (snd (Iolatency.handle_block_rq_complete dev sector pad t st))
      = (0, snd (Iolatency.handle_block_rq_complete dev sector pad t st))) /\
  (forall st ctx t t',
      Tcpconnlat.handle_set_state ctx t'
        (snd (Tcpconnlat.handle_set_state ctx t st))
      = (0, snd (Tcpconnlat.handle_set_state ctx t st))).
Proof.
  repeat apply conj.
  - intros st next_tgid t t'.
    destruct (runqlat_end_shape next_tgid t st) as [[Hid Hwhy] | [Hf Hgone]].
    + rewrite Hid. unfold Runqlat.handle_sched_switch_rqlat, bpf_map_lookup_elem.
      destruct Hwhy as [Hf | Hnone]; [by rewrite Hf | rewrite Hnone].
      by destruct (u32 next_tgid =? 0).
    + remember (snd (Runqlat.handle_sched_switch_rqlat next_tgid t st)) as s'.
      unfold Runqlat.handle_sched_switch_rqlat, bpf_map_lookup_elem.
      by rewrite Hf, Hgone.
  - intros st pid_tgid t t'.
    destruct (lockwait_end_shape pid_tgid t st) as [[Hid Hwhy] | [Hf Hgone]].
    + rewrite Hid. unfold Lockwait.handle_futex_exit, bpf_map_lookup_elem.
      destruct Hwhy as [Hf | Hnone]; [by rewrite Hf | rewrite Hnone].
      by destruct (tgid_of pid_tgid =? 0).
    + remember (snd (Lockwait.handle_futex_exit pid_tgid t st)) as s'.
      unfold Lockwait.handle_futex_exit, bpf_map_lookup_elem.
      by rewrite Hf, Hgone.
  - intros st ret pid_tgid t ret' t'.
    destruct (pgfault_end_shape ret pid_tgid t st) as [[Hid Hwhy] | [Hf Hgone]].
    + rewrite Hid. unfold Pgfault.handle_fault_exit, bpf_map_lookup_elem.
      destruct Hwhy as [Hf | Hnone]; [by rewrite Hf | rewrite Hnone].
      by destruct (tgid_of pid_tgid =? 0).
    + remember (snd (Pgfault.handle_fault_exit ret pid_tgid t st)) as s'.
      unfold Pgfault.handle_fault_exit, bpf_map_lookup_elem.
      by rewrite Hf, Hgone.
  - intros st id pid_tgid t id' t'.
    destruct (syscall_end_shape id pid_tgid t st) as [[Hid Hwhy] | [Hf Hgone]].
    + rewrite Hid. unfold Syscalldissect.handle_sys_exit, bpf_map_lookup_elem.
      destruct Hwhy as [Hf | Hnone]; [by rewrite Hf | rewrite Hnone].
      by destruct (tgid_of pid_tgid =? 0).
    + remember (snd (Syscalldissect.handle_sys_exit id pid_tgid t st)) as s'.
      unfold Syscalldissect.handle_sys_exit, bpf_map_lookup_elem.
      by rewrite Hf, Hgone.
  - intros st pid_tgid t t'.
    destruct (reclaim_end_shape pid_tgid t st) as [[Hid Hwhy] | [Hf Hgone]].
    + rewrite Hid. unfold Directreclaim.handle_reclaim_end, bpf_map_lookup_elem.
      destruct Hwhy as [Hf | Hnone]; [by rewrite Hf | rewrite Hnone].
      by destruct (tgid_of pid_tgid =? 0).
    + remember (snd (Directreclaim.handle_reclaim_end pid_tgid t st)) as s'.
      unfold Directreclaim.handle_reclaim_end, bpf_map_lookup_elem.
      by rewrite Hf, Hgone.
  - intros st pid_tgid t t'.
    destruct (recvmsg_end_shape pid_tgid t st) as [[Hid Hwhy] | [Hf Hgone]].
    + rewrite Hid. unfold Sockio.handle_tcp_recvmsg_exit, bpf_map_lookup_elem.
      destruct Hwhy as [Hf | Hnone]; [by rewrite Hf | rewrite Hnone].
      by destruct (tgid_of pid_tgid =? 0).
    + remember (snd (Sockio.handle_tcp_recvmsg_exit pid_tgid t st)) as s'.
      unfold Sockio.handle_tcp_recvmsg_exit, bpf_map_lookup_elem.
      by rewrite Hf, Hgone.
  - intros st dev sector pad t t'.
    destruct (block_rq_end_shape dev sector pad t st) as [[Hid Hwhy] | [_ Hgone]].
    + rewrite Hid. unfold Iolatency.handle_block_rq_complete, bpf_map_lookup_elem.
      destruct Hwhy as [Hf | Hnone]; [discriminate | by rewrite Hnone].
    + remember (snd (Iolatency.handle_block_rq_complete dev sector pad t st)) as s'.
      unfold Iolatency.handle_block_rq_complete, bpf_map_lookup_elem.
      by rewrite Hgone.
  - intros st ctx t t'.
    destruct (set_state_end_shape ctx t st) as [[Hid Hwhy] | [Hf Hgone]].
    + rewrite Hid. unfold Tcpconnlat.handle_set_state, bpf_map_lookup_elem.
      destruct Hwhy as [Hf | Hnone]; [by rewrite Hf | rewrite Hnone].
      by destruct (negb (Tcpconnlat.oldstate ctx =? Tcpconnlat.TCP_SYN_SENT) || negb (Tcpconnlat.newstate ctx =? Tcpconnlat.TCP_ESTABLISHED)).
    + remember (snd (Tcpconnlat.handle_set_state ctx t st)) as s'.
      unfold Tcpconnlat.handle_set_state, bpf_map_lookup_elem.
      by rewrite Hf, Hgone.
Qed.

(** ** Tables never outgrow their capacity *)

Section CapacityKept.
Context {K V : Type} `{Countable K}.
Implicit Types (m : bpf_map K V) (k : K) (v : V).

Lemma capacity_kept_refl m : capacity_kept m m.
Proof. by split. Qed.

Lemma capacity_kept_trans m1 m2 m3 :
  capacity_kept m1 m2 -> capacity_kept m2 m3 -> capacity_kept m1 m3.
Proof.
  intros [Hm12 Hs12] [Hm23 Hs23]. split; [congruence |].
  intros Hle. apply Hs23. rewrite Hm12 in Hs12. rewrite Hm12. by apply Hs12.
Qed.

Lemma capacity_kept_store m k v w :
  entries m !! k = Some w -> capacity_kept m (store_elem m k v).
Proof.
  intros Hk. split; [reflexivity |]. cbn [store_elem entries max_entries].
  rewrite map_size_insert_Some; [done | by eexists].
Qed.

Lemma capacity_kept_update m k v fl :
  capacity_kept m (snd (bpf_map_update_elem m k v fl)).
Proof.
  unfold bpf_map_update_elem.
  destruct (entries m !! k) as [w |] eqn:Hk.
  - destruct fl; cbn [snd];
      first [apply capacity_kept_refl | by eapply capacity_kept_store].
  - destruct fl; try apply capacity_kept_refl;
      (case_decide; cbn [snd]; [| apply capacity_kept_refl]);
      (split; [reflexivity |]); cbn [store_elem entries max_entries];
      rewrite map_size_insert_None by done; lia.
Qed.

Lemma capacity_kept_delete m k :
  capacity_kept m (snd (bpf_map_delete_elem m k)).
Proof.
  unfold bpf_map_delete_elem.
  destruct (entries m !! k) as [w |] eqn:Hk; cbn [snd];
    [| apply capacity_kept_refl].
  split; [reflexivity |]. cbn [entries max_entries].
  rewrite map_size_delete_Some by (by eexists). lia.
Qed.
End CapacityKept.

(** Follow the branches of a handler down to each table it leaves. *)
Ltac follow_tables :=
  intros; unfold bpf_map_lookup_elem;
  repeat case_match;
  cbn [fst snd
       Runqlat.rq_start Runqlat.rqlat_accum Lockwait.futex_start
       Lockwait.futex_accum Iolatency.inflight Iolatency.iolat_hist
       Tcpconnlat.conn_inflight Tcpconnlat.connlat_accum
       Pgfault.pgfault_start Pgfault.pgfault_accum
       Syscalldissect.sc_start Syscalldissect.sc_accum
       Directreclaim.reclaim_start Directreclaim.reclaim_accum
       Sockio.recv_inflight Sockio.sockio_accum Execsnoop.exec_accum
       Sockstate.state_accum Modload.mod_accum
       Ptracedetect.ptrace_accum Cgthrottle.throttle_accum
       Kfreeskb.drop_accum Tcpreset.reset_accum
       Tcpretrans.retrans_accum Tcprtt.rtt_accum Wbstall.wb_accum
       Swapevict.swap_accum Netthroughput.net_accum Oomkill.oom_accum
       Offcpu.offcpu_start Offcpu.offcpu_accum];
  first
    [ apply capacity_kept_refl
    | apply capacity_kept_update
    | apply capacity_kept_delete
    | eapply capacity_kept_store; eassumption ].

(** X4. No handler resizes a table or fills it beyond its capacity: every
    handler invocation leaves [max_entries] of each of its maps as declared,
    and a map that held at most [max_entries] keys still does. *)
Theorem tables_stay_within_capacity :
  (forall st p t,
      capacity_kept (Runqlat.rq_start st) (Runqlat.rq_start (snd (Runqlat.handle_sched_wakeup p t st))) /\
      capacity_kept (Runqlat.rqlat_accum st) (Runqlat.rqlat_accum (snd (Runqlat.handle_sched_wakeup p t st)))) /\
  (forall st p t,
      capacity_kept (Runqlat.rq_start st) (Runqlat.rq_start (snd (Runqlat.handle_sched_switch_rqlat p t st))) /\
      capacity_kept (Runqlat.rqlat_accum st) (Runqlat.rqlat_accum (snd (Runqlat.handle_sched_switch_rqlat p t st)))) /\
  (forall st op p t,
      capacity_kept (Lockwait.futex_start st) (Lockwait.futex_start (snd (Lockwait.handle_futex_enter op p t st))) /\
      capacity_kept (Lockwait.futex_accum st) (Lockwait.futex_accum (snd (Lockwait.handle_futex_enter op p t st)))) /\
  (forall st p t,
      capacity_kept (Lockwait.futex_start st) (Lockwait.futex_start (snd (Lockwait.handle_futex_exit p t st))) /\
      capacity_kept (Lockwait.futex_accum st) (Lockwait.futex_accum (snd (Lockwait.handle_futex_exit p t st)))) /\
  (forall st dev sector pad p t,
      capacity_kept (Iolatency.inflight st) (Iolatency.inflight (snd (Iolatency.handle_block_rq_issue dev sector pad p t st))) /\
      capacity_kept (Iolatency.iolat_hist st) (Iolatency.iolat_hist (snd (Iolatency.handle_block_rq_issue dev sector pad p t st)))) /\
  (forall st dev sector pad t,
      capacity_kept (Iolatency.inflight st) (Iolatency.inflight (snd (Iolatency.handle_block_rq_complete dev sector pad t st))) /\
      capacity_kept (Iolatency.iolat_hist st) (Iolatency.iolat_hist (snd (Iolatency.handle_block_rq_complete dev sector pad t st)))) /\
  (forall st sk p t,
      capacity_kept (Tcpconnlat.conn_inflight st) (Tcpconnlat.conn_inflight (snd (Tcpconnlat.handle_tcp_v4_connect sk p t st))) /\
      capacity_kept (Tcpconnlat.connlat_accum st) (Tcpconnlat.connlat_accum (snd (Tcpconnlat.handle_tcp_v4_connect sk p t st)))) /\
  (forall st ctx t,
      capacity_kept (Tcpconnlat.conn_inflight st) (Tcpconnlat.conn_inflight (snd (Tcpconnlat.handle_set_state ctx t st))) /\
      capacity_kept (Tcpconnlat.connlat_accum st) (Tcpconnlat.connlat_accum (snd (Tcpconnlat.handle_set_state ctx t st)))) /\
  (forall st p t,
      capacity_kept (Pgfault.pgfault_start st) (Pgfault.pgfault_start (snd (Pgfault.handle_fault_enter p t st))) /\
      capacity_kept (Pgfault.pgfault_accum st) (Pgfault.pgfault_accum (snd (Pgfault.handle_fault_enter p t st)))) /\
  (forall st ret p t,
      capacity_kept (Pgfault.pgfault_start st) (Pgfault.pgfault_start (snd (Pgfault.handle_fault_exit ret p t st))) /\
      capacity_kept (Pgfault.pgfault_accum st) (Pgfault.pgfault_accum (snd (Pgfault.handle_fault_exit ret p t st)))) /\
  (forall st p t,
      capacity_kept (Syscalldissect.sc_start st) (Syscalldissect.sc_start (snd (Syscalldissect.handle_sys_enter p t st))) /\
      capacity_kept (Syscalldissect.sc_accum st) (Syscalldissect.sc_accum (snd (Syscalldissect.handle_sys_enter p t st)))) /\
  (forall st id p t,
      capacity_kept (Syscalldissect.sc_start st) (Syscalldissect.sc_start (snd (Syscalldissect.handle_sys_exit id p t st))) /\
      capacity_kept (Syscalldissect.sc_accum st) (Syscalldissect.sc_accum (snd (Syscalldissect.handle_sys_exit id p t st)))) /\
  (forall st p t,
      capacity_kept (Directreclaim.reclaim_start st) (Directreclaim.reclaim_start (snd (Directreclaim.handle_reclaim_begin p t st))) /\
      capacity_kept (Directreclaim.reclaim_accum st) (Directreclaim.reclaim_accum (snd (Directreclaim.handle_reclaim_begin p t st)))) /\
  (forall st p t,
      capacity_kept (Directreclaim.reclaim_start st) (Directreclaim.reclaim_start (snd (Directreclaim.handle_reclaim_end p t st))) /\
      capacity_kept (Directreclaim.reclaim_accum st) (Directreclaim.reclaim_accum (snd (Directreclaim.handle_reclaim_end p t st)))) /\
  (forall st daddr dport size p,
      capacity_kept (Sockio.recv_inflight st) (Sockio.recv_inflight (snd (Sockio.handle_tcp_sendmsg daddr dport size p st))) /\
      capacity_kept (Sockio.sockio_accum st) (Sockio.sockio_accum (snd (Sockio.handle_tcp_sendmsg daddr dport size p st)))) /\
  (forall st daddr dport copied p,
      capacity_kept (Sockio.recv_inflight st) (Sockio.recv_inflight (snd (Sockio.handle_tcp_cleanup_rbuf daddr dport copied p st))) /\
      capacity_kept (Sockio.sockio_accum st) (Sockio.sockio_accum (snd (Sockio.handle_tcp_cleanup_rbuf daddr dport copied p st)))) /\
  (forall st daddr dport p t,
      capacity_kept (Sockio.recv_inflight st) (Sockio.recv_inflight (snd (Sockio.handle_tcp_recvmsg_enter daddr dport p t st))) /\
      capacity_kept (Sockio.sockio_accum st) (Sockio.sockio_accum (snd (Sockio.handle_tcp_recvmsg_enter daddr dport p t st)))) /\
  (forall st p t,
      capacity_kept (Sockio.recv_inflight st) (Sockio.recv_inflight (snd (Sockio.handle_tcp_recvmsg_exit p t st))) /\
      capacity_kept (Sockio.sockio_accum st) (Sockio.sockio_accum (snd (Sockio.handle_tcp_recvmsg_exit p t st)))) /\
  (forall st ev,
      capacity_kept (Execsnoop.exec_accum st) (Execsnoop.exec_accum (snd (Execsnoop.handle_sched_process_exec ev st)))) /\
  (forall st old new,
      capacity_kept (Sockstate.state_accum st) (Sockstate.state_accum (snd (Sockstate.handle_sock_set_state old new st)))) /\
  (forall st name t,
      capacity_kept (Modload.mod_accum st) (Modload.mod_accum (snd (Modload.handle_do_init_module name t st)))) /\
  (forall st req pid p t comm,
      capacity_kept (Ptracedetect.ptrace_accum st) (Ptracedetect.ptrace_accum (snd (Ptracedetect.handle_sys_enter_ptrace req pid p t comm st)))) /\
  (forall st cgid,
      capacity_kept (Cgthrottle.throttle_accum st) (Cgthrottle.throttle_accum (snd (Cgthrottle.handle_throttle_cfs_rq cgid st)))) /\
  (forall st reason,
      capacity_kept (Kfreeskb.drop_accum st) (Kfreeskb.drop_accum (snd (Kfreeskb.handle_kfree_skb reason st)))) /\
  (forall st daddr dport p,
      capacity_kept (Tcpreset.reset_accum st) (Tcpreset.reset_accum (snd (Tcpreset.handle_tcp_send_reset daddr dport p st)))) /\
  (forall st sport dport daddr p,
      capacity_kept (Tcpretrans.retrans_accum st) (Tcpretrans.retrans_accum (snd (Tcpretrans.handle_tcp_retransmit sport dport daddr p st)))) /\
  (forall st srtt daddr dport p,
      capacity_kept (Tcprtt.rtt_accum st) (Tcprtt.rtt_accum (snd (Tcprtt.handle_tcp_rcv_established srtt daddr dport p st)))) /\
  (forall st pages p,
      capacity_kept (Wbstall.wb_accum st) (Wbstall.wb_accum (snd (Wbstall.handle_writeback_wait pages p st)))) /\
  (forall st p,
      capacity_kept (Swapevict.swap_accum st) (Swapevict.swap_accum (snd (Swapevict.handle_swap_readpage p st)))) /\
  (forall st p,
      capacity_kept (Swapevict.swap_accum st) (Swapevict.swap_accum (snd (Swapevict.handle_swap_writepage p st)))) /\
  (forall st size p,
      capacity_kept (Netthroughput.net_accum st) (Netthroughput.net_accum (snd (Netthroughput.handle_tcp_sendmsg size p st)))) /\
  (forall st copied p,
      capacity_kept (Netthroughput.net_accum st) (Netthroughput.net_accum (snd (Netthroughput.handle_tcp_cleanup_rbuf copied p st)))) /\
  (forall st pid t,
      capacity_kept (Oomkill.oom_accum st) (Oomkill.oom_accum (snd (Oomkill.handle_mark_victim pid t st)))) /\
  (forall st prev_tgid prev_state next_tgid t,
      capacity_kept (Offcpu.offcpu_start st)
        (Offcpu.offcpu_start
           (snd (Offcpu.handle_sched_switch prev_tgid prev_state next_tgid t st))) /\
      capacity_kept (Offcpu.offcpu_accum st)
        (Offcpu.offcpu_accum
           (snd (Offcpu.handle_sched_switch prev_tgid prev_state next_tgid t st)))).
Proof.
  repeat apply conj.
  - intros st p t. split; unfold Runqlat.handle_sched_wakeup; follow_tables.
  - intros st p t. split; unfold Runqlat.handle_sched_switch_rqlat; follow_tables.
  - intros st op p t. split; unfold Lockwait.handle_futex_enter; follow_tables.
  - intros st p t. split; unfold Lockwait.handle_futex_exit; follow_tables.
  - intros st dev sector pad p t. split; unfold Iolatency.handle_block_rq_issue; follow_tables.
  - intros st dev sector pad t. split; unfold Iolatency.handle_block_rq_complete; follow_tables.
  - intros st sk p t. split; unfold Tcpconnlat.handle_tcp_v4_connect; follow_tables.
  - intros st ctx t. split; unfold Tcpconnlat.handle_set_state; follow_tables.
  - intros st p t. split; unfold Pgfault.handle_fault_enter; follow_tables.
  - intros st ret p t. split; unfold Pgfault.handle_fault_exit; follow_tables.
  - intros st p t. split; unfold Syscalldissect.handle_sys_enter; follow_tables.
  - intros st id p t. split; unfold Syscalldissect.handle_sys_exit; follow_tables.
  - intros st p t. split; unfold Directreclaim.handle_reclaim_begin; follow_tables.
  - intros st p t. split; unfold Directreclaim.handle_reclaim_end; follow_tables.
  - intros st daddr dport size p. split; unfold Sockio.handle_tcp_sendmsg, Sockio.add_tx; follow_tables.
  - intros st daddr dport copied p. split; unfold Sockio.handle_tcp_cleanup_rbuf, Sockio.add_rx; follow_tables.
  - intros st daddr dport p t. split; unfold Sockio.handle_tcp_recvmsg_enter; follow_tables.
  - intros st p t. split; unfold Sockio.handle_tcp_recvmsg_exit; follow_tables.
  - unfold Execsnoop.handle_sched_process_exec. follow_tables.
  - unfold Sockstate.handle_sock_set_state. follow_tables.
  - unfold Modload.handle_do_init_module. follow_tables.
  - unfold Ptracedetect.handle_sys_enter_ptrace. follow_tables.
  - unfold Cgthrottle.handle_throttle_cfs_rq. follow_tables.
  - unfold Kfreeskb.handle_kfree_skb. follow_tables.
  - unfold Tcpreset.handle_tcp_send_reset. follow_tables.
  - unfold Tcpretrans.handle_tcp_retransmit. follow_tables.
  - unfold Tcprtt.handle_tcp_rcv_established. follow_tables.
  - unfold Wbstall.handle_writeback_wait. follow_tables.
  - unfold Swapevict.handle_swap_readpage. follow_tables.
  - unfold Swapevict.handle_swap_writepage. follow_tables.
  - unfold Netthroughput.handle_tcp_sendmsg, Netthroughput.add_bytes. follow_tables.
  - unfold Netthroughput.handle_tcp_cleanup_rbuf, Netthroughput.add_bytes. follow_tables.
  - unfold Oomkill.handle_mark_victim. follow_tables.
  - intros st prev ps next t. unfold Offcpu.handle_sched_switch. cbn [snd]. split.
    + apply capacity_kept_trans
        with (m2 := Offcpu.offcpu_start (Offcpu.switch_out prev ps t st)).
      * unfold Offcpu.switch_out. follow_tables.
      * generalize (Offcpu.switch_out prev ps t st). intros s.
        unfold Offcpu.switch_in. follow_tables.
    + apply capacity_kept_trans
        with (m2 := Offcpu.offcpu_accum (Offcpu.switch_out prev ps t st)).
      * unfold Offcpu.switch_out. follow_tables.
      * generalize (Offcpu.switch_out prev ps t st). intros s.
        unfold Offcpu.switch_in. follow_tables.
Qed.

(** ** Byte counters of [netthroughput.c] *)

Lemma u64_add_swap a b c : u64 (u64 (a + b) + c) = u64 (u64 (a + c) + b).
Proof.
  unfold u64. rewrite !Zplus_mod_idemp_l. f_equal. lia.
Qed.

Lemma u64_add_assoc a b c : u64 (u64 (a + u64 b) + c) = u64 (a + (b + c)).
Proof.
  unfold u64. rewrite Zplus_mod_idemp_l.
  rewrite (Z.add_comm a), <- Z.add_assoc, Zplus_mod_idemp_l.
  f_equal. lia.
Qed.

Lemma add_bytes_comm pid tx1 rx1 tx2 rx2 st :
  Netthroughput.add_bytes pid tx2 rx2 (Netthroughput.add_bytes pid tx1 rx1 st)
  = Netthroughput.add_bytes pid tx1 rx1 (Netthroughput.add_bytes pid tx2 rx2 st).
Proof.
  unfold Netthroughput.add_bytes, bpf_map_lookup_elem.
  destruct (entries (Netthroughput.net_accum st) !! pid) as [val |] eqn:Hk.
  - cbn [Netthroughput.net_accum]. rewrite !lookup_store_eq, !store_store.
    cbn [Netthroughput.tx_bytes Netthroughput.rx_bytes]. unfold fetch_add64.
    by rewrite (u64_add_swap _ tx1 tx2), (u64_add_swap _ rx1 rx2).
  - unfold bpf_map_update_elem. rewrite Hk.
    case_decide; cbn [snd Netthroughput.net_accum].
    + rewrite !lookup_store_eq, !store_store.
      cbn [Netthroughput.tx_bytes Netthroughput.rx_bytes]. unfold fetch_add64.
      by rewrite (Z.add_comm tx1 tx2), (Z.add_comm rx1 rx2).
    + rewrite Hk. by rewrite !decide_False.
Qed.

(** X5. For one process the byte accounting of [netthroughput.c] does not
    depend on the order of the events: a [tcp_sendmsg] followed by a
    [tcp_cleanup_rbuf] leaves the table that the two leave in the other
    order, whatever the sizes, the record and the room in the table. *)
Theorem send_and_receive_commute :
  forall st size copied pid_tgid,
    snd (Netthroughput.handle_tcp_cleanup_rbuf copied pid_tgid
           (snd (Netthroughput.handle_tcp_sendmsg size pid_tgid st)))
    = snd (Netthroughput.handle_tcp_sendmsg size pid_tgid
             (snd (Netthroughput.handle_tcp_cleanup_rbuf copied pid_tgid st))).
Proof.
  intros st size copied p.
  unfold Netthroughput.handle_tcp_sendmsg, Netthroughput.handle_tcp_cleanup_rbuf.
  destruct (tgid_of p =? 0); [reflexivity |].
  destruct (copied <=? 0); cbn [orb snd]; [reflexivity |].
  apply add_bytes_comm.
Qed.

Lemma sendmsg_fold_present : forall sizes st pid_tgid val,
  (tgid_of pid_tgid =? 0) = false ->
  entries (Netthroughput.net_accum st) !! tgid_of pid_tgid = Some val ->
  exists val',
    entries (Netthroughput.net_accum
               (fold_left (fun s size => snd (Netthroughput.handle_tcp_sendmsg size pid_tgid s))
                  sizes st)) !! tgid_of pid_tgid = Some val' /\
    u64 (Netthroughput.tx_bytes val')
    = u64 (Netthroughput.tx_bytes val + fold_right Z.add 0 sizes) /\
    u64 (Netthroughput.rx_bytes val') = u64 (Netthroughput.rx_bytes val).
Proof.
  induction sizes as [| size sizes IH]; intros st p val Hp Hk; cbn [fold_left fold_right].
  - exists val. rewrite Z.add_0_r. by repeat split.
  - unfold Netthroughput.handle_tcp_sendmsg at 2. rewrite Hp. cbn [snd].
    unfold Netthroughput.add_bytes, bpf_map_lookup_elem. rewrite Hk.
    edestruct (IH {| Netthroughput.net_accum :=
                       store_elem (Netthroughput.net_accum st) (tgid_of p)
                         {| Netthroughput.tx_bytes :=
                              fetch_add64 (Netthroughput.tx_bytes val) (u64 size);
                            Netthroughput.rx_bytes :=
                              fetch_add64 (Netthroughput.rx_bytes val) 0 |} |}
                  p) as (val' & Hk' & Htx & Hrx); [exact Hp | apply lookup_store_eq |].
    exists val'. split; [exact Hk' |].
    cbn [Netthroughput.tx_bytes Netthroughput.rx_bytes] in Htx, Hrx.
    rewrite Htx, Hrx. unfold fetch_add64.
    split.
    + apply u64_add_assoc.
    + unfold u64. rewrite Z.add_0_r. by rewrite !Z.mod_mod.
Qed.

(** X6. The sends of one process add up: after a non-empty run of
    [tcp_sendmsg] events of a process that finds room in the table, its
    record holds, modulo 2^64, the bytes it had plus the sum of the sizes
    (the sum alone if it had no record), and its received bytes are as
    before. *)
Theorem sends_add_up :
  forall st pid_tgid size sizes,
    tgid_of pid_tgid <> 0 ->
    has_room (Netthroughput.net_accum st) (tgid_of pid_tgid) ->
    exists val',
      entries (Netthroughput.net_accum
                 (fold_left (fun s sz => snd (Netthroughput.handle_tcp_sendmsg sz pid_tgid s))
                    (size :: sizes) st)) !! tgid_of pid_tgid = Some val' /\
      match entries (Netthroughput.net_accum st) !! tgid_of pid_tgid with
      | Some val =>
          u64 (Netthroughput.tx_bytes val')
          = u64 (Netthroughput.tx_bytes val + fold_right Z.add 0 (size :: sizes)) /\
          u64 (Netthroughput.rx_bytes val') = u64 (Netthroughput.rx_bytes val)
      | None =>
          u64 (Netthroughput.tx_bytes val') = u64 (fold_right Z.add 0 (size :: sizes)) /\
          u64 (Netthroughput.rx_bytes val') = 0
      end.
Proof.
  intros st p size sizes Hp Hroom.
  assert ((tgid_of p =? 0) = false) as Hf by (by apply Z.eqb_neq).
  destruct (entries (Netthroughput.net_accum st) !! tgid_of p) as [val |] eqn:Hk.
  - by apply sendmsg_fold_present.
  - destruct Hroom as [[w Hw] | Hlt]; [congruence |].
    cbn [fold_left fold_right].
    unfold Netthroughput.handle_tcp_sendmsg at 2. rewrite Hf. cbn [snd].
    unfold Netthroughput.add_bytes, bpf_map_lookup_elem. rewrite Hk.
    rewrite update_noexist_room by assumption. cbn [snd].
    edestruct (sendmsg_fold_present sizes
                 {| Netthroughput.net_accum :=
                      store_elem (Netthroughput.net_accum st) (tgid_of p)
                        {| Netthroughput.tx_bytes := u64 size;
                           Netthroughput.rx_bytes := 0 |} |} p)
      as (val' & Hk' & Htx & Hrx); [exact Hf | apply lookup_store_eq |].
    exists val'. split; [exact Hk' |].
    cbn [Netthroughput.tx_bytes Netthroughput.rx_bytes] in Htx, Hrx.
    rewrite Htx, Hrx. split; [| reflexivity].
    unfold u64. by rewrite Zplus_mod_idemp_l.
Qed.

Lemma sends_add_up_witness :
  has_room (Netthroughput.net_accum Netthroughput.init) (tgid_of (Z.shiftl 7 32)) /\
  exists val',
    entries (Netthroughput.net_accum
               (fold_left (fun s sz => snd (Netthroughput.handle_tcp_sendmsg sz (Z.shiftl 7 32) s))
                  (100 :: [200; 300]) Netthroughput.init)) !! tgid_of (Z.shiftl 7 32)
    = Some val' /\
    match entries (Netthroughput.net_accum Netthroughput.init) !! tgid_of (Z.shiftl 7 32) with
    | Some val =>
        u64 (Netthroughput.tx_bytes val')
        = u64 (Netthroughput.tx_bytes val + fold_right Z.add 0 (100 :: [200; 300])) /\
        u64 (Netthroughput.rx_bytes val') = u64 (Netthroughput.rx_bytes val)
    | None =>
        u64 (Netthroughput.tx_bytes val') = u64 (fold_right Z.add 0 (100 :: [200; 300])) /\
        u64 (Netthroughput.rx_bytes val') = 0
    end.
Proof.
  assert (has_room (Netthroughput.net_accum Netthroughput.init) (tgid_of (Z.shiftl 7 32)))
    as Hroom by (right; vm_compute; lia).
  split; [exact Hroom |].
  apply (sends_add_up Netthroughput.init (Z.shiftl 7 32) 100 [200; 300]).
  - vm_compute. discriminate.
  - exact Hroom.
Defined.

(** ** The victim record of [oomkill.c] *)

(** X7. [handle_mark_victim] overwrites: when the table has room for the
    victim, its record holds the time of this kill and zero sizes; a kill
    of a PID hides an earlier kill of the same PID; and the records of the
    other PIDs are as before. *)
Theorem oom_last_kill_wins :
  (forall st ctx_pid t,
      has_room (Oomkill.oom_accum st) (u32 ctx_pid) ->
      entries (Oomkill.oom_accum (snd (Oomkill.handle_mark_victim ctx_pid t st)))
        !! u32 ctx_pid
      = Some {| Oomkill.ts := t; Oomkill.total_vm := 0; Oomkill.anon_rss := 0 |}) /\
  (forall st ctx_pid t1 t2,
      Oomkill.handle_mark_victim ctx_pid t2
        (snd (Oomkill.handle_mark_victim ctx_pid t1 st))
      = Oomkill.handle_mark_victim ctx_pid t2 st) /\
  (forall st ctx_pid t,
      same_elsewhere (u32 ctx_pid) (Oomkill.oom_accum st)
        (Oomkill.oom_accum (snd (Oomkill.handle_mark_victim ctx_pid t st)))).
Proof.
  repeat apply conj.
  - intros st p t Hroom. unfold Oomkill.handle_mark_victim.
    cbn [snd Oomkill.oom_accum]. rewrite update_any_room by assumption.
    apply lookup_store_eq.
  - intros st p t1 t2. unfold Oomkill.handle_mark_victim.
    cbn [snd Oomkill.oom_accum]. by rewrite update_any_twice.
  - intros st p t k Hne. unfold Oomkill.handle_mark_victim.
    cbn [snd Oomkill.oom_accum]. by apply lookup_update_ne.
Qed.

Lemma oom_last_kill_wins_witness :
  has_room (Oomkill.oom_accum Oomkill.init) (u32 4242) /\
  entries (Oomkill.oom_accum (snd (Oomkill.handle_mark_victim 4242 9000 Oomkill.init)))
    !! u32 4242
  = Some {| Oomkill.ts := 9000; Oomkill.total_vm := 0; Oomkill.anon_rss := 0 |}.
Proof.
  assert (has_room (Oomkill.oom_accum Oomkill.init) (u32 4242)) as Hroom
    by (right; vm_compute; lia).
  split; [exact Hroom |].
  apply (proj1 oom_last_kill_wins Oomkill.init 4242 9000 Hroom).
Defined.

(** ** Bytes and wait times of [sockio.c] *)

Section FieldsKept.
Context {K V A : Type} `{Countable K} (f : V -> A).
Implicit Types (m : bpf_map K V) (k : K) (v : V).

Lemma fields_kept_refl m : fields_kept f m m.
Proof. intros k v Hk. by exists v. Qed.

Lemma fields_kept_store m k v v' :
  entries m !! k = Some v -> f v' = f v -> fields_kept f m (store_elem m k v').
Proof.
  intros Hk Hf k0 v0 Hk0. destruct (decide (k = k0)) as [<- | Hne].
  - exists v'. rewrite lookup_store_eq. split; [done |]. congruence.
  - exists v0. by rewrite lookup_store_ne.
Qed.

Lemma fields_kept_noexist m k v :
  fields_kept f m (snd (bpf_map_update_elem m k v BPF_NOEXIST)).
Proof.
  intros k0 v0 Hk0. exists v0. split; [| done].
  destruct (decide (k = k0)) as [<- | Hne].
  - by rewrite (update_noexist_present _ _ _ _ Hk0).
  - by rewrite lookup_update_ne.
Qed.
End FieldsKept.

Ltac follow_fields :=
  intros; unfold bpf_map_lookup_elem;
  repeat case_match;
  cbn [fst snd Sockio.sockio_accum];
  first
    [ apply fields_kept_refl
    | apply fields_kept_noexist
    | eapply fields_kept_store; [eassumption | reflexivity] ].

(** X8. The byte counters and the receive-wait statistics that [sockio.c]
    keeps in one record do not disturb each other: [tcp_sendmsg] changes
    nothing but [tx_bytes], [tcp_cleanup_rbuf] nothing but [rx_bytes], and
    the return of [tcp_recvmsg] neither of the two, in any record. *)
Theorem sockio_fields_are_independent :
  (forall st daddr dport size pid_tgid,
      fields_kept
        (fun v => (Sockio.rx_bytes v, Sockio.recv_wait_ns v, Sockio.recv_count v,
                   Sockio.max_recv_ns v))
        (Sockio.sockio_accum st)
        (Sockio.sockio_accum (snd (Sockio.handle_tcp_sendmsg daddr dport size pid_tgid st)))) /\
  (forall st daddr dport copied pid_tgid,
      fields_kept
        (fun v => (Sockio.tx_bytes v, Sockio.recv_wait_ns v, Sockio.recv_count v,
                   Sockio.max_recv_ns v))
        (Sockio.sockio_accum st)
        (Sockio.sockio_accum
           (snd (Sockio.handle_tcp_cleanup_rbuf daddr dport copied pid_tgid st)))) /\
  (forall st pid_tgid now,
      fields_kept (fun v => (Sockio.tx_bytes v, Sockio.rx_bytes v))
        (Sockio.sockio_accum st)
        (Sockio.sockio_accum (snd (Sockio.handle_tcp_recvmsg_exit pid_tgid now st)))).
Proof.
  repeat apply conj.
  - unfold Sockio.handle_tcp_sendmsg, Sockio.add_tx. follow_fields.
  - unfold Sockio.handle_tcp_cleanup_rbuf, Sockio.add_rx. follow_fields.
  - unfold Sockio.handle_tcp_recvmsg_exit. follow_fields.
Qed.

(** ** Major faults of [pgfault.c] *)

(** X9. Major faults are counted among the faults: if in every record the
    major count is between 0 and the count, and no count has reached
    0xFFFFFFFF, the same bounds hold in every record that
    [handle_fault_exit] leaves. *)
Theorem major_faults_within_count :
  forall st ret pid_tgid now,
    (forall k val, entries (Pgfault.pgfault_accum st) !! k = Some val ->
        0 <= Pgfault.major_count val <= Pgfault.count val /\
        Pgfault.count val < U32_MAX) ->
    forall k val,
      entries (Pgfault.pgfault_accum (snd (Pgfault.handle_fault_exit ret pid_tgid now st)))
        !! k = Some val ->
      0 <= Pgfault.major_count val <= Pgfault.count val.
Proof.
  intros st ret p now Hinv k val.
  assert (forall k v, entries (Pgfault.pgfault_accum st) !! k = Some v ->
            0 <= Pgfault.major_count v <= Pgfault.count v) as Hweak.
  { intros k0 v0 Hk0. by apply Hinv in Hk0 as [? _]. }
  unfold Pgfault.handle_fault_exit, bpf_map_lookup_elem.
  destruct (_ =? 0); [apply Hweak |].
  destruct (entries (Pgfault.pgfault_start st) !! _); [| apply Hweak].
  destruct (_ >? Pgfault.STALE_NS); [apply Hweak |].
  set (pid := tgid_of p).
  destruct (entries (Pgfault.pgfault_accum st) !! pid) as [old |] eqn:Hp;
    cbn [snd Pgfault.pgfault_accum].
  - destruct (decide (pid = k)) as [<- | Hne].
    + rewrite lookup_store_eq. intros [= <-].
      cbn [Pgfault.major_count Pgfault.count].
      destruct (Hinv _ _ Hp) as [Hm Hc]. unfold U32_MAX in Hc.
      unfold fetch_add32. rewrite (u32_small (Pgfault.count old + 1)) by lia.
      destruct ((if _ =? 0 then 0 else 1) =? 0); [lia |].
      rewrite u32_small by lia. lia.
    + rewrite lookup_store_ne by done. apply Hweak.
  - destruct (decide (pid = k)) as [<- | Hne].
    + unfold bpf_map_update_elem. rewrite Hp. case_decide; cbn [snd].
      * rewrite lookup_store_eq. intros [= <-].
        cbn [Pgfault.major_count Pgfault.count].
        destruct ((if _ =? 0 then 0 else 1) =? 0); lia.
      * rewrite Hp. discriminate.
    + rewrite lookup_update_ne by done. apply Hweak.
Qed.

Lemma major_faults_within_count_witness :
  entries (Pgfault.pgfault_accum
             (snd (Pgfault.handle_fault_exit 4 (Z.shiftl 7 32) 2000
                     (snd (Pgfault.handle_fault_enter (Z.shiftl 7 32) 1000 Pgfault.init)))))
    !! 7
  = Some {| Pgfault.total_ns := 1000; Pgfault.count := 1; Pgfault.major_count := 1 |} /\
  0 <= Pgfault.major_count
         {| Pgfault.total_ns := 1000; Pgfault.count := 1; Pgfault.major_count := 1 |}
    <= Pgfault.count
         {| Pgfault.total_ns := 1000; Pgfault.count := 1; Pgfault.major_count := 1 |}.
Proof.
  split; [vm_compute; reflexivity |].
  apply (major_faults_within_count
           (snd (Pgfault.handle_fault_enter (Z.shiftl 7 32) 1000 Pgfault.init))
           4 (Z.shiftl 7 32) 2000) with (k := 7).
  - intros k val Hk. vm_compute in Hk. discriminate.
  - vm_compute. reflexivity.
Defined.

(** ** Smoothed round-trip times of [tcprtt.c] *)

(** X10. A recorded RTT sample lies between the minimum and the maximum of
    its endpoint: after [handle_tcp_rcv_established] has merged or created
    the record, [min_us <= srtt <= max_us], and the minimum is positive
    (the old one, a [__u32], being at least 0); a zero [srtt] is ignored. *)
Theorem rtt_sample_within_min_max :
  (forall st srtt_us daddr dport pid_tgid,
      let srtt := Z.shiftr (u32 srtt_us) 3 in
      let key := {| Tcprtt.key_daddr := u32 daddr;
                    Tcprtt.key_dport := bswap16 (u16 dport); Tcprtt.key_pad := 0 |} in
      srtt <> 0 ->
      has_room (Tcprtt.rtt_accum st) key ->
      (forall val, entries (Tcprtt.rtt_accum st) !! key = Some val ->
                   0 <= Tcprtt.min_us val) ->
      exists val',
        entries (Tcprtt.rtt_accum
                   (snd (Tcprtt.handle_tcp_rcv_established srtt_us daddr dport pid_tgid st)))
          !! key = Some val' /\
        0 < Tcprtt.min_us val' <= srtt /\ srtt <= Tcprtt.max_us val') /\
  (forall st srtt_us daddr dport pid_tgid,
      Z.shiftr (u32 srtt_us) 3 = 0 ->
      Tcprtt.handle_tcp_rcv_established srtt_us daddr dport pid_tgid st = (0, st)).
Proof.
  split.
  - intros st x daddr dport p srtt key Hnz Hroom Hmin.
    assert (0 < srtt) as Hpos.
    { assert (0 <= srtt); [| lia]. apply Z.shiftr_nonneg. apply u32_range. }
    unfold Tcprtt.handle_tcp_rcv_established, bpf_map_lookup_elem.
    fold srtt. fold key.
    destruct (Z.eqb_spec srtt 0); [contradiction |].
    destruct (entries (Tcprtt.rtt_accum st) !! key) as [old |] eqn:Hk.
    + cbn [snd Tcprtt.rtt_accum]. eexists. split; [apply lookup_store_eq |].
      cbn [Tcprtt.min_us Tcprtt.max_us]. specialize (Hmin old eq_refl).
      destruct (Z.ltb_spec srtt (Tcprtt.min_us old));
        destruct (Z.eqb_spec (Tcprtt.min_us old) 0);
        destruct (Z.gtb_spec srtt (Tcprtt.max_us old)); cbn [orb]; lia.
    + destruct Hroom as [[w Hw] | Hlt]; [congruence |].
      rewrite update_noexist_room by assumption.
      cbn [snd Tcprtt.rtt_accum]. eexists. split; [apply lookup_store_eq |].
      cbn [Tcprtt.min_us Tcprtt.max_us]. lia.
  - intros st x daddr dport p Hz. unfold Tcprtt.handle_tcp_rcv_established.
    by rewrite Hz.
Qed.

Lemma rtt_sample_within_min_max_witness :
  Z.shiftr (u32 800) 3 <> 0 /\
  exists val',
    entries (Tcprtt.rtt_accum
               (snd (Tcprtt.handle_tcp_rcv_established 800 16777343 20480 (Z.shiftl 7 32)
                       Tcprtt.init)))
      !! {| Tcprtt.key_daddr := u32 16777343; Tcprtt.key_dport := bswap16 (u16 20480);
            Tcprtt.key_pad := 0 |} = Some val' /\
    0 < Tcprtt.min_us val' <= Z.shiftr (u32 800) 3 /\
    Z.shiftr (u32 800) 3 <= Tcprtt.max_us val'.
Proof.
  split; [vm_compute; discriminate |].
  apply (proj1 rtt_sample_within_min_max Tcprtt.init 800 16777343 20480 (Z.shiftl 7 32)).
  - vm_compute. discriminate.
  - right. vm_compute. lia.
  - intros val Hval. vm_compute in Hval. discriminate.
Defined.

(** ** PID 0 is never recorded *)

Lemma no_key_store {K V : Type} `{Countable K} (m : bpf_map K V) k0 k v :
  k <> k0 -> no_key k0 m -> no_key k0 (store_elem m k v).
Proof. intros Hne Hno. unfold no_key. by rewrite lookup_store_ne. Qed.

Lemma no_key_update {K V : Type} `{Countable K} (m : bpf_map K V) k0 k v fl :
  k <> k0 -> no_key k0 m -> no_key k0 (snd (bpf_map_update_elem m k v fl)).
Proof. intros Hne Hno. unfold no_key. by rewrite lookup_update_ne. Qed.

Lemma no_key_delete {K V : Type} `{Countable K} (m : bpf_map K V) k0 k :
  no_key k0 m -> no_key k0 (snd (bpf_map_delete_elem m k)).
Proof.
  intros Hno. unfold no_key, bpf_map_delete_elem.
  destruct (entries m !! k); cbn [snd entries]; [| exact Hno].
  destruct (decide (k = k0)) as [-> | Hne];
    [apply lookup_delete_eq | by rewrite lookup_delete_ne].
Qed.

Ltac follow_zero :=
  unfold bpf_map_lookup_elem;
  repeat case_match;
  cbn [fst snd
       Runqlat.rq_start Runqlat.rqlat_accum Lockwait.futex_start
       Lockwait.futex_accum Iolatency.iolat_hist Pgfault.pgfault_start
       Pgfault.pgfault_accum Directreclaim.reclaim_start
       Directreclaim.reclaim_accum Execsnoop.exec_accum Kfreeskb.drop_accum
       Wbstall.wb_accum Swapevict.swap_accum Netthroughput.net_accum];
  try assumption;
  repeat match goal with
    | H : (_ =? 0) = false |- _ => apply Z.eqb_neq in H
    | H : _ || _ = false |- _ => apply orb_false_elim in H as [? ?]
    end;
  first [ by apply no_key_store
        | by apply no_key_update
        | by apply no_key_delete ].

(** X11. The handlers that filter PID 0 (and, in [kfreeskb.c], drop reason
    0) never create an entry under key 0: a pairing table or an
    accumulation table without an entry for 0 has none after any
    invocation. *)
Theorem key_zero_is_never_recorded :
  (forall st p t,
      no_key 0 (Runqlat.rq_start st) ->
      no_key 0 (Runqlat.rq_start (snd (Runqlat.handle_sched_wakeup p t st)))) /\
  (forall st p t,
      no_key 0 (Runqlat.rqlat_accum st) ->
      no_key 0 (Runqlat.rqlat_accum (snd (Runqlat.handle_sched_switch_rqlat p t st)))) /\
  (forall st op p t,
      no_key 0 (Lockwait.futex_start st) ->
      no_key 0 (Lockwait.futex_start (snd (Lockwait.handle_futex_enter op p t st)))) /\
  (forall st p t,
      no_key 0 (Lockwait.futex_accum st) ->
      no_key 0 (Lockwait.futex_accum (snd (Lockwait.handle_futex_exit p t st)))) /\
  (forall st p t,
      no_key 0 (Pgfault.pgfault_start st) ->
      no_key 0 (Pgfault.pgfault_start (snd (Pgfault.handle_fault_enter p t st)))) /\
  (forall st ret p t,
      no_key 0 (Pgfault.pgfault_accum st) ->
      no_key 0 (Pgfault.pgfault_accum (snd (Pgfault.handle_fault_exit ret p t st)))) /\
  (forall st p t,
      no_key 0 (Directreclaim.reclaim_start st) ->
      no_key 0 (Directreclaim.reclaim_start
                  (snd (Directreclaim.handle_reclaim_begin p t st)))) /\
  (forall st p t,
      no_key 0 (Directreclaim.reclaim_accum st) ->
      no_key 0 (Directreclaim.reclaim_accum
                  (snd (Directreclaim.handle_reclaim_end p t st)))) /\
  (forall st dev sector pad t,
      no_key 0 (Iolatency.iolat_hist st) ->
      no_key 0 (Iolatency.iolat_hist
                  (snd (Iolatency.handle_block_rq_complete dev sector pad t st)))) /\
  (forall st ev,
      no_key 0 (Execsnoop.exec_accum st) ->
      no_key 0 (Execsnoop.exec_accum (snd (Execsnoop.handle_sched_process_exec ev st)))) /\
  (forall st reason,
      no_key 0 (Kfreeskb.drop_accum st) ->
      no_key 0 (Kfreeskb.drop_accum (snd (Kfreeskb.handle_kfree_skb reason st)))) /\
  (forall st pages p,
      no_key 0 (Wbstall.wb_accum st) ->
      no_key 0 (Wbstall.wb_accum (snd (Wbstall.handle_writeback_wait pages p st)))) /\
  (forall st p,
      no_key 0 (Swapevict.swap_accum st) ->
      no_key 0 (Swapevict.swap_accum (snd (Swapevict.handle_swap_readpage p st))) /\
      no_key 0 (Swapevict.swap_accum (snd (Swapevict.handle_swap_writepage p st)))) /\
  (forall st size copied p,
      no_key 0 (Netthroughput.net_accum st) ->
      no_key 0 (Netthroughput.net_accum
                  (snd (Netthroughput.handle_tcp_sendmsg size p st))) /\
      no_key 0 (Netthroughput.net_accum
                  (snd (Netthroughput.handle_tcp_cleanup_rbuf copied p st)))).
Proof.
  repeat apply conj.
  - intros st p t Hno. unfold Runqlat.handle_sched_wakeup. follow_zero.
  - intros st p t Hno. unfold Runqlat.handle_sched_switch_rqlat. follow_zero.
  - intros st op p t Hno. unfold Lockwait.handle_futex_enter. follow_zero.
  - intros st p t Hno. unfold Lockwait.handle_futex_exit. follow_zero.
  - intros st p t Hno. unfold Pgfault.handle_fault_enter. follow_zero.
  - intros st ret p t Hno. unfold Pgfault.handle_fault_exit. follow_zero.
  - intros st p t Hno. unfold Directreclaim.handle_reclaim_begin. follow_zero.
  - intros st p t Hno. unfold Directreclaim.handle_reclaim_end. follow_zero.
  - intros st dev sector pad t Hno. unfold Iolatency.handle_block_rq_complete. follow_zero.
  - intros st ev Hno. unfold Execsnoop.handle_sched_process_exec. follow_zero.
  - intros st reason Hno. unfold Kfreeskb.handle_kfree_skb. follow_zero.
  - intros st pages p Hno. unfold Wbstall.handle_writeback_wait. follow_zero.
  - intros st p Hno. split.
    + unfold Swapevict.handle_swap_readpage. follow_zero.
    + unfold Swapevict.handle_swap_writepage. follow_zero.
  - intros st size copied p Hno. split.
    + unfold Netthroughput.handle_tcp_sendmsg, Netthroughput.add_bytes. follow_zero.
    + unfold Netthroughput.handle_tcp_cleanup_rbuf, Netthroughput.add_bytes. follow_zero.
Qed.

Lemma key_zero_is_never_recorded_witness :
  no_key 0 (Runqlat.rq_start Runqlat.init) /\
  no_key 0 (Runqlat.rq_start (snd (Runqlat.handle_sched_wakeup 0 100 Runqlat.init))).
Proof.
  split; [reflexivity |].
  apply (proj1 key_zero_is_never_recorded Runqlat.init 0 100). reflexivity.
Defined.

(** ** Which futex operations are traced *)

Lemma land_7f_low op hi : 0 <= op < 128 -> Z.land (op + 128 * hi) 0x7F = op.
Proof.
  intros Hop. change 0x7F with (Z.ones 7). rewrite Z.land_ones by lia.
  change (2 ^ 7) with 128. rewrite (Z.mul_comm 128 hi), Z_mod_plus_full.
  apply Z.mod_small. lia.
Qed.

(** X12. [handle_futex_enter] looks at the low 7 bits of the operation
    only: flag bits such as FUTEX_PRIVATE_FLAG (128) and
    FUTEX_CLOCK_REALTIME (256) make no difference, and an operation other
    than FUTEX_WAIT, FUTEX_LOCK_PI and FUTEX_WAIT_BITSET starts no
    measurement. *)
Theorem futex_flags_are_masked :
  (forall st op hi pid_tgid now,
      0 <= op < 128 ->
      Lockwait.handle_futex_enter (op + 128 * hi) pid_tgid now st
      = Lockwait.handle_futex_enter op pid_tgid now st) /\
  (forall st op hi pid_tgid now,
      0 <= op < 128 ->
      op <> Lockwait.FUTEX_WAIT -> op <> Lockwait.FUTEX_LOCK_PI ->
      op <> Lockwait.FUTEX_WAIT_BITSET ->
      Lockwait.handle_futex_enter (op + 128 * hi) pid_tgid now st = (0, st)).
Proof.
  split.
  - intros st op hi p now Hop. unfold Lockwait.handle_futex_enter.
    pose proof (land_7f_low op 0 Hop) as Hlow.
    rewrite Z.mul_0_r, Z.add_0_r in Hlow.
    by rewrite land_7f_low, Hlow by exact Hop.
  - intros st op hi p now Hop H0 H6 H9. unfold Lockwait.handle_futex_enter.
    rewrite land_7f_low by exact Hop.
    destruct (Z.eqb_spec op Lockwait.FUTEX_WAIT); [contradiction |].
    destruct (Z.eqb_spec op Lockwait.FUTEX_WAIT_BITSET); [contradiction |].
    destruct (Z.eqb_spec op Lockwait.FUTEX_LOCK_PI); [contradiction |].
    reflexivity.
Qed.

Lemma futex_flags_are_masked_witness :
  0 <= 9 < 128 /\
  Lockwait.handle_futex_enter (9 + 128 * 3) (Z.shiftl 7 32) 100 Lockwait.init
  = Lockwait.handle_futex_enter 9 (Z.shiftl 7 32) 100 Lockwait.init.
Proof.
  split; [lia |].
  apply (proj1 futex_flags_are_masked Lockwait.init 9 3 (Z.shiftl 7 32) 100). lia.
Defined.

(** ** Module names of [modload.c] *)

(** X13. The name in a record of [modload.c] is written once: the first
    load under a key stores the name buffer, and a later load under the
    same key adds 1 to the count and replaces the timestamp but keeps the
    stored name, also when it is the load of another module whose name has
    the same first 8 bytes. *)
Theorem module_name_is_written_once :
  (forall st mod_name now,
      entries (Modload.mod_accum st) !! Modload.key_of (Modload.read_name mod_name) = None ->
      (size (entries (Modload.mod_accum st)) < max_entries (Modload.mod_accum st))%nat ->
      entries (Modload.mod_accum (snd (Modload.handle_do_init_module mod_name now st)))
        !! Modload.key_of (Modload.read_name mod_name)
      = Some {| Modload.count := 1; Modload.ts := now;
                Modload.name := Modload.read_name mod_name |}) /\
  (forall st mod_name now val,
      entries (Modload.mod_accum st) !! Modload.key_of (Modload.read_name mod_name)
      = Some val ->
      entries (Modload.mod_accum (snd (Modload.handle_do_init_module mod_name now st)))
        !! Modload.key_of (Modload.read_name mod_name)
      = Some {| Modload.count := u64 (Modload.count val + 1); Modload.ts := now;
                Modload.name := Modload.name val |}).
Proof.
  split.
  - intros st n now Hk Hlt. unfold Modload.handle_do_init_module, bpf_map_lookup_elem.
    rewrite Hk. rewrite update_noexist_room by assumption.
    cbn [snd Modload.mod_accum]. rewrite lookup_store_eq.
    rewrite firstn_all2; [reflexivity |]. rewrite length_read_name. lia.
  - intros st n now val Hk. unfold Modload.handle_do_init_module, bpf_map_lookup_elem.
    rewrite Hk. cbn [snd Modload.mod_accum]. apply lookup_store_eq.
Qed.

Lemma module_name_is_written_once_witness :
  entries (Modload.mod_accum
             (snd (Modload.handle_do_init_module (list_byte_of_string "nf_conntrack") 100
                     Modload.init)))
    !! Modload.key_of (Modload.read_name (list_byte_of_string "nf_conntrack_ftp"))
  = Some {| Modload.count := 1; Modload.ts := 100;
            Modload.name := Modload.read_name (list_byte_of_string "nf_conntrack") |} /\
  entries (Modload.mod_accum
             (snd (Modload.handle_do_init_module (list_byte_of_string "nf_conntrack_ftp") 200
                     (snd (Modload.handle_do_init_module (list_byte_of_string "nf_conntrack")
                             100 Modload.init)))))
    !! Modload.key_of (Modload.read_name (list_byte_of_string "nf_conntrack_ftp"))
  = Some {| Modload.count := u64 (1 + 1); Modload.ts := 200;
            Modload.name := Modload.read_name (list_byte_of_string "nf_conntrack") |}.
Proof.
  split; [vm_compute; reflexivity |].
  apply (proj2 module_name_is_written_once
           (snd (Modload.handle_do_init_module (list_byte_of_string "nf_conntrack") 100
                   Modload.init))
           (list_byte_of_string "nf_conntrack_ftp") 200
           {| Modload.count := 1; Modload.ts := 100;
              Modload.name := Modload.read_name (list_byte_of_string "nf_conntrack") |}).
  vm_compute. reflexivity.
Defined.

Lemma padded_names_inj : forall (n1 n2 : list byte) (a b : nat),
  ~ In x00 n1 -> ~ In x00 n2 ->
  n1 ++ repeat x00 a = n2 ++ repeat x00 b -> n1 = n2.
Proof.
  induction n1 as [| c1 n1 IH]; intros [| c2 n2] a b H1 H2 Heq.
  - reflexivity.
  - exfalso. destruct a as [| a]; simpl in Heq; [discriminate |].
    injection Heq as Hc _. apply H2. left. by symmetry.
  - exfalso. destruct b as [| b]; simpl in Heq; [discriminate |].
    injection Heq as Hc _. apply H1. by left.
  - simpl in Heq. injection Heq as -> Hrest. f_equal.
    apply (IH n2 a b); [| | exact Hrest].
    + intros Hin. apply H1. by right.
    + intros Hin. apply H2. by right.
Qed.

Lemma firstn_repeat_min (c : byte) : forall a b,
  firstn a (repeat c b) = repeat c (Nat.min a b).
Proof.
  induction a as [| a IH]; intros [| b]; simpl; try reflexivity.
  by rewrite IH.
Qed.

Lemma firstn8_read_name (n : list byte) :
  (length n <= 8)%nat ->
  firstn 8 (Modload.read_name n) = n ++ repeat x00 (8 - length n).
Proof.
  intros Hlen. unfold Modload.read_name.
  rewrite (firstn_all2 (n := 55)) by lia.
  rewrite firstn_app, (firstn_all2 (n := 8)) by lia.
  f_equal. rewrite firstn_repeat_min. f_equal. lia.
Qed.

(** X14. Modules whose names have at most 8 bytes never share a key: for
    two such names (without a NUL byte, as C strings have none) equal keys
    mean equal names. *)
Theorem short_module_names_do_not_collide :
  forall name1 name2,
    (length name1 <= 8)%nat -> (length name2 <= 8)%nat ->
    ~ In x00 name1 -> ~ In x00 name2 ->
    Modload.key_of (Modload.read_name name1) = Modload.key_of (Modload.read_name name2) ->
    name1 = name2.
Proof.
  intros n1 n2 Hl1 Hl2 Hz1 Hz2 Hkey. unfold Modload.key_of in Hkey.
  apply le_bytes_inj in Hkey;
    [| by rewrite !length_firstn, !length_read_name].
  rewrite !firstn8_read_name in Hkey by assumption.
  by apply padded_names_inj in Hkey.
Qed.

Lemma short_module_names_do_not_collide_witness :
  Modload.key_of (Modload.read_name (list_byte_of_string "ext4"))
  = Modload.key_of (Modload.read_name (list_byte_of_string "ext4")) /\
  list_byte_of_string "ext4" = list_byte_of_string "ext4".
Proof.
  split; [reflexivity |].
  apply (short_module_names_do_not_collide
           (list_byte_of_string "ext4") (list_byte_of_string "ext4")).
  - vm_compute. lia.
  - vm_compute. lia.
  - vm_compute. intros H. repeat (destruct H as [H | H]; [discriminate |]). exact H.
  - vm_compute. intros H. repeat (destruct H as [H | H]; [discriminate |]). exact H.
  - reflexivity.
Defined.

(** ** Counting handlers *)

Lemma sockstate_iter_present : forall n st old new val,
  entries (Sockstate.state_accum st) !! Sockstate.key_of old new = Some val ->
  exists val',
    entries (Sockstate.state_accum
               (Nat.iter n (fun s => snd (Sockstate.handle_sock_set_state old new s)) st))
      !! Sockstate.key_of old new = Some val' /\
    u64 (Sockstate.count val') = u64 (Sockstate.count val + Z.of_nat n) /\
    (n <> 0%nat -> Sockstate.count val' = u64 (Sockstate.count val')).
Proof.
  induction n as [| n IH]; intros st old new val Hk.
  - exists val. change (Nat.iter 0 ?f st) with st. rewrite Z.add_0_r. by repeat split.
  - destruct (IH st old new val Hk) as (v & Hv & Hc & _).
    rewrite Nat.iter_succ.
    unfold Sockstate.handle_sock_set_state at 1, bpf_map_lookup_elem.
    cbv zeta. rewrite Hv. cbn [snd Sockstate.state_accum]. eexists.
    split; [apply lookup_store_eq |]. cbn [Sockstate.count]. unfold fetch_add64.
    split.
    + unfold u64 in *. rewrite Z.mod_mod by lia.
      rewrite <- Zplus_mod_idemp_l, Hc, Zplus_mod_idemp_l. f_equal. lia.
    + intros _. unfold u64. by rewrite Z.mod_mod.
Qed.

(** X15. Events add up in a counting handler: [n] transitions of one kind
    seen by [handle_sock_set_state], the first of which finds the key absent
    and room in the table, leave a record whose count is [n] modulo 2^64. *)
Theorem transitions_are_counted :
  forall n st old new,
    entries (Sockstate.state_accum st) !! Sockstate.key_of old new = None ->
    (size (entries (Sockstate.state_accum st))
     < max_entries (Sockstate.state_accum st))%nat ->
    entries (Sockstate.state_accum
               (Nat.iter (S n) (fun s => snd (Sockstate.handle_sock_set_state old new s)) st))
      !! Sockstate.key_of old new
    = Some {| Sockstate.count := u64 (Z.of_nat (S n)) |}.
Proof.
  intros n st old new Hk Hlt.
  rewrite Nat.iter_succ_r.
  unfold Sockstate.handle_sock_set_state at 2, bpf_map_lookup_elem.
  cbv zeta. rewrite Hk.
  rewrite update_noexist_room by assumption. cbn [snd].
  edestruct (sockstate_iter_present n
               {| Sockstate.state_accum :=
                    store_elem (Sockstate.state_accum st) (Sockstate.key_of old new)
                      {| Sockstate.count := 1 |} |} old new)
    as (v & Hv & Hc & Hr); [apply lookup_store_eq |].
  rewrite Hv. f_equal. destruct v as [c]. f_equal.
  cbn [Sockstate.count] in Hc, Hr.
  destruct n as [| n].
  - change (Nat.iter 0 ?f ?x) with x in Hv. cbn [Sockstate.state_accum] in Hv.
    rewrite lookup_store_eq in Hv. injection Hv as <-. reflexivity.
  - rewrite Hr by lia. rewrite Hc. f_equal. lia.
Qed.

Lemma transitions_are_counted_witness :
  entries (Sockstate.state_accum Sockstate.init) !! Sockstate.key_of 2 1 = None /\
  entries (Sockstate.state_accum
             (Nat.iter 3 (fun s => snd (Sockstate.handle_sock_set_state 2 1 s))
                Sockstate.init))
    !! Sockstate.key_of 2 1
  = Some {| Sockstate.count := u64 (Z.of_nat 3) |}.
Proof.
  split; [reflexivity |].
  apply (transitions_are_counted 2 Sockstate.init 2 1).
  - reflexivity.
  - vm_compute. lia.
Defined.

(** ** A block request from issue to completion *)

Lemma bucket_index_id us :
  Z.land (Iolatency.log2_slot us) (Iolatency.HIST_SLOTS - 1) = Iolatency.log2_slot us.
Proof.
  change (Iolatency.HIST_SLOTS - 1) with (Z.ones 4).
  rewrite Z.land_ones by lia. apply Z.mod_small.
  rewrite log2_slot_closed. pose proof (Z.log2_nonneg us).
  change (2 ^ 4) with 16. lia.
Qed.

(** X16. The latency of a block request goes to the process that issued
    it when the completion looks up the very key the issue stored, the four
    bytes between [dev] and [sector] included: an issue by a non-zero PID at
    [t1] and a completion at [t2 > t1], in whatever context, then add to the
    record of the issuer the duration [t2 - t1], one count and one hit in
    bucket [log2_slot ((t2 - t1) / 1000)], and raise its maximum to the
    duration if that is larger; no ceiling applies, and a new record also
    takes the device.  A completion of the same device and sector whose key
    holds other bytes there finds no entry of that issue: unless another
    request is in flight under its key, it changes nothing, and the request
    stays in flight. *)
Theorem block_latency_goes_to_issuer :
  (forall st dev sector pad pid_tgid t1 t2,
    let key := {| Iolatency.key_dev := dev; Iolatency.key_pad := pad; Iolatency.key_sector := sector |} in
    let slot := Iolatency.log2_slot ((t2 - t1) / 1000) in
    tgid_of pid_tgid <> 0 ->
    t1 < t2 -> t2 - t1 < 2 ^ 64 ->
    has_room (Iolatency.inflight st) key ->
    has_room (Iolatency.iolat_hist st) (tgid_of pid_tgid) ->
    exists val',
      entries (Iolatency.iolat_hist
                 (snd (Iolatency.handle_block_rq_complete dev sector pad t2
                         (snd (Iolatency.handle_block_rq_issue dev sector pad pid_tgid t1 st)))))
        !! tgid_of pid_tgid = Some val' /\
      match entries (Iolatency.iolat_hist st) !! tgid_of pid_tgid with
      | Some val =>
          Iolatency.total_ns val' = u64 (Iolatency.total_ns val + (t2 - t1)) /\
          Iolatency.count val' = u32 (Iolatency.count val + 1) /\
          Iolatency.max_ns val' = Z.max (Iolatency.max_ns val) (t2 - t1) /\
          Iolatency.slots val' = Iolatency.slots_incr (Iolatency.slots val) slot /\
          Iolatency.dev val' = Iolatency.dev val
      | None =>
          val' = {| Iolatency.total_ns := t2 - t1; Iolatency.max_ns := t2 - t1;
                    Iolatency.count := 1;
                    Iolatency.slots := <[Z.to_nat slot := 1]> (replicate 16 0);
                    Iolatency.dev := dev |}
      end) /\
  (forall st dev sector pad pad' pid_tgid t1 t2,
    let issued := snd (Iolatency.handle_block_rq_issue dev sector pad pid_tgid t1 st) in
    pad <> pad' ->
    entries (Iolatency.inflight st)
      !! {| Iolatency.key_dev := dev; Iolatency.key_pad := pad';
            Iolatency.key_sector := sector |} = None ->
    Iolatency.handle_block_rq_complete dev sector pad' t2 issued = (0, issued) /\
    (has_room (Iolatency.inflight st)
       {| Iolatency.key_dev := dev; Iolatency.key_pad := pad;
          Iolatency.key_sector := sector |} ->
     entries (Iolatency.inflight
                (snd (Iolatency.handle_block_rq_complete dev sector pad' t2 issued)))
       !! {| Iolatency.key_dev := dev; Iolatency.key_pad := pad;
             Iolatency.key_sector := sector |}
     = Some {| Iolatency.pid := tgid_of pid_tgid; Iolatency.start_ns := t1 |})).
Proof.
  split.
  - intros st dev sector pad p t1 t2 key slot Hp Hlt Hbound Hin Hacc.
    unfold Iolatency.handle_block_rq_issue. fold key.
    rewrite update_any_room by assumption. cbn [snd].
    unfold Iolatency.handle_block_rq_complete, bpf_map_lookup_elem. fold key.
    cbn [Iolatency.inflight Iolatency.iolat_hist]. rewrite lookup_store_eq.
    cbn [Iolatency.start_ns Iolatency.pid].
    rewrite (u64_small (t2 - t1)) by lia. fold slot.
    destruct (Z.eqb_spec (t2 - t1) 0); [lia |].
    destruct (Z.eqb_spec (tgid_of p) 0); [contradiction |]. cbn [orb].
    unfold slot at 1 2. rewrite bucket_index_id. fold slot.
    destruct (entries (Iolatency.iolat_hist st) !! tgid_of p) as [val |] eqn:Hk.
    + cbn [snd Iolatency.iolat_hist]. eexists. split; [apply lookup_store_eq |].
      cbn [Iolatency.total_ns Iolatency.count Iolatency.max_ns Iolatency.slots
           Iolatency.dev].
      repeat split.
      destruct (Z.gtb_spec (t2 - t1) (Iolatency.max_ns val)); lia.
    + destruct Hacc as [[w Hw] | Hroom]; [congruence |].
      rewrite update_noexist_room by assumption.
      cbn [snd Iolatency.iolat_hist]. eexists. split; [apply lookup_store_eq |].
      reflexivity.
  - intros st dev sector pad pad' p t1 t2 issued Hpad Hnone.
    assert ({| Iolatency.key_dev := dev; Iolatency.key_pad := pad;
               Iolatency.key_sector := sector |}
            <> {| Iolatency.key_dev := dev; Iolatency.key_pad := pad';
                  Iolatency.key_sector := sector |}) as Hne
      by (intros Heq; apply Hpad; exact (f_equal Iolatency.key_pad Heq)).
    assert (Iolatency.handle_block_rq_complete dev sector pad' t2 issued = (0, issued))
      as Hsame.
    { unfold Iolatency.handle_block_rq_complete, bpf_map_lookup_elem.
      unfold issued at 1. unfold Iolatency.handle_block_rq_issue.
      cbn [snd Iolatency.inflight].
      rewrite lookup_update_ne by exact Hne. by rewrite Hnone. }
    split; [exact Hsame |].
    intros Hroom. rewrite Hsame. cbn [snd].
    unfold issued, Iolatency.handle_block_rq_issue.
    rewrite update_any_room by assumption.
    cbn [snd Iolatency.inflight]. apply lookup_store_eq.
Qed.

Lemma block_latency_goes_to_issuer_witness :
  has_room (Iolatency.inflight Iolatency.init)
    {| Iolatency.key_dev := 8; Iolatency.key_pad := 0; Iolatency.key_sector := 4096 |} /\
  (exists val',
    entries (Iolatency.iolat_hist
               (snd (Iolatency.handle_block_rq_complete 8 4096 0 2500000
                       (snd (Iolatency.handle_block_rq_issue 8 4096 0 (Z.shiftl 7 32) 1000
                               Iolatency.init)))))
      !! tgid_of (Z.shiftl 7 32) = Some val' /\
    match entries (Iolatency.iolat_hist Iolatency.init) !! tgid_of (Z.shiftl 7 32) with
    | Some val =>
        Iolatency.total_ns val' = u64 (Iolatency.total_ns val + (2500000 - 1000)) /\
        Iolatency.count val' = u32 (Iolatency.count val + 1) /\
        Iolatency.max_ns val' = Z.max (Iolatency.max_ns val) (2500000 - 1000) /\
        Iolatency.slots val'
        = Iolatency.slots_incr (Iolatency.slots val)
            (Iolatency.log2_slot ((2500000 - 1000) / 1000)) /\
        Iolatency.dev val' = Iolatency.dev val
    | None =>
        val' = {| Iolatency.total_ns := 2500000 - 1000; Iolatency.max_ns := 2500000 - 1000;
                  Iolatency.count := 1;
                  Iolatency.slots :=
                    <[Z.to_nat (Iolatency.log2_slot ((2500000 - 1000) / 1000)) := 1]>
                      (replicate 16 0);
                  Iolatency.dev := 8 |}
    end) /\
  Iolatency.handle_block_rq_complete 8 4096 1 2500000
    (snd (Iolatency.handle_block_rq_issue 8 4096 0 (Z.shiftl 7 32) 1000 Iolatency.init))
  = (0, snd (Iolatency.handle_block_rq_issue 8 4096 0 (Z.shiftl 7 32) 1000 Iolatency.init)).
Proof.
  assert (has_room (Iolatency.inflight Iolatency.init)
            {| Iolatency.key_dev := 8; Iolatency.key_pad := 0; Iolatency.key_sector := 4096 |}) as Hroom
    by (right; vm_compute; lia).
  split; [exact Hroom |]. split.
  - apply (proj1 block_latency_goes_to_issuer
             Iolatency.init 8 4096 0 (Z.shiftl 7 32) 1000 2500000).
    + vm_compute. discriminate.
    + lia.
    + vm_compute. reflexivity.
    + exact Hroom.
    + right. vm_compute. lia.
  - apply (proj2 block_latency_goes_to_issuer
             Iolatency.init 8 4096 0 1 (Z.shiftl 7 32) 1000 2500000).
    + discriminate.
    + vm_compute. reflexivity.
Defined.

(** ** Off-CPU time of [offcpu.c] *)

Lemma switch_out_other st prev_tgid prev_state now k :
  u32 prev_tgid <> k ->
  entries (Offcpu.offcpu_start (Offcpu.switch_out prev_tgid prev_state now st)) !! k
  = entries (Offcpu.offcpu_start st) !! k /\
  Offcpu.offcpu_accum (Offcpu.switch_out prev_tgid prev_state now st)
  = Offcpu.offcpu_accum st.
Proof.
  intros Hne. unfold Offcpu.switch_out.
  repeat case_match; try (split; reflexivity).
  cbn [Offcpu.offcpu_start Offcpu.offcpu_accum].
  by rewrite lookup_update_ne.
Qed.

(** X17. When a task other than [prev] is switched in with a switch-out
    time [tsp > 0] on record, [handle_sched_switch] consumes the entry,
    whatever the time off CPU and whether or not the table has room; if the
    time off CPU is below 30 s and the table has room, it adds it and one
    count to the record of the task, and from 30 s on it adds nothing.  A
    recorded switch-out time of 0 is taken for no record at all: the entry
    stays and nothing is added. *)
Theorem off_cpu_time_is_added :
  (forall st prev_tgid prev_state next_tgid now tsp,
      1 < u32 next_tgid ->
      u32 prev_tgid <> u32 next_tgid ->
      entries (Offcpu.offcpu_start st) !! u32 next_tgid = Some tsp ->
      0 < tsp ->
      entries (Offcpu.offcpu_start
                 (snd (Offcpu.handle_sched_switch prev_tgid prev_state next_tgid now st)))
        !! u32 next_tgid = None) /\
  (forall st prev_tgid prev_state next_tgid now tsp,
      1 < u32 next_tgid ->
      u32 prev_tgid <> u32 next_tgid ->
      entries (Offcpu.offcpu_start st) !! u32 next_tgid = Some tsp ->
      0 < tsp ->
      u64 (now - tsp) < Offcpu.STALE_NS ->
      has_room (Offcpu.offcpu_accum st) (u32 next_tgid) ->
      exists val',
        entries (Offcpu.offcpu_accum
                   (snd (Offcpu.handle_sched_switch prev_tgid prev_state next_tgid now st)))
          !! u32 next_tgid = Some val' /\
        match entries (Offcpu.offcpu_accum st) !! u32 next_tgid with
        | Some val =>
            Offcpu.total_ns val' = u64 (Offcpu.total_ns val + u64 (now - tsp)) /\
            Offcpu.count val' = u32 (Offcpu.count val + 1)
        | None =>
            Offcpu.total_ns val' = u64 (now - tsp) /\ Offcpu.count val' = 1
        end) /\
  (forall st prev_tgid prev_state next_tgid now tsp,
      u32 prev_tgid <> u32 next_tgid ->
      entries (Offcpu.offcpu_start st) !! u32 next_tgid = Some tsp ->
      Offcpu.STALE_NS <= u64 (now - tsp) ->
      Offcpu.offcpu_accum
        (snd (Offcpu.handle_sched_switch prev_tgid prev_state next_tgid now st))
      = Offcpu.offcpu_accum st) /\
  (forall st prev_tgid prev_state next_tgid now tsp,
      u32 prev_tgid <> u32 next_tgid ->
      entries (Offcpu.offcpu_start st) !! u32 next_tgid = Some tsp ->
      tsp <= 0 ->
      entries (Offcpu.offcpu_start
                 (snd (Offcpu.handle_sched_switch prev_tgid prev_state next_tgid now st)))
        !! u32 next_tgid = Some tsp /\
      Offcpu.offcpu_accum
        (snd (Offcpu.handle_sched_switch prev_tgid prev_state next_tgid now st))
      = Offcpu.offcpu_accum st).
Proof.
  repeat apply conj.
  - intros st prev ps next now tsp Hn Hne Hin Hts.
    destruct (switch_out_other st prev ps now (u32 next) Hne) as [Hs Ha].
    unfold Offcpu.handle_sched_switch, Offcpu.switch_in, bpf_map_lookup_elem.
    cbn [snd]. rewrite Hs, Hin.
    destruct (Z.gtb_spec (u32 next) 1); [| lia].
    destruct (Z.gtb_spec tsp 0); [| lia].
    cbn [Offcpu.offcpu_start]. apply lookup_delete_elem_eq.
  - intros st prev ps next now tsp Hn Hne Hin Hts Hd Hroom.
    destruct (switch_out_other st prev ps now (u32 next) Hne) as [Hs Ha].
    unfold Offcpu.handle_sched_switch, Offcpu.switch_in, bpf_map_lookup_elem.
    cbn [snd]. rewrite Hs, Hin, Ha.
    destruct (Z.gtb_spec (u32 next) 1); [| lia].
    destruct (Z.gtb_spec tsp 0); [| lia].
    destruct (Z.ltb_spec (u64 (now - tsp)) Offcpu.STALE_NS); [| lia].
    cbn [Offcpu.offcpu_start Offcpu.offcpu_accum].
    destruct (entries (Offcpu.offcpu_accum st) !! u32 next) as [val |] eqn:Hk.
    + eexists. split; [apply lookup_store_eq |]. split; reflexivity.
    + destruct Hroom as [[w Hw] | Hlt]; [congruence |].
      rewrite update_noexist_room by assumption. cbn [snd].
      eexists. split; [apply lookup_store_eq |]. split; reflexivity.
  - intros st prev ps next now tsp Hne Hin Hd.
    destruct (switch_out_other st prev ps now (u32 next) Hne) as [Hs Ha].
    unfold Offcpu.handle_sched_switch, Offcpu.switch_in, bpf_map_lookup_elem.
    cbn [snd]. rewrite Hs, Hin, Ha.
    destruct (_ >? 1); [| exact Ha].
    destruct (_ >? 0); [| exact Ha].
    destruct (Z.ltb_spec (u64 (now - tsp)) Offcpu.STALE_NS); [lia |].
    reflexivity.
  - intros st prev ps next now tsp Hne Hin Hts.
    destruct (switch_out_other st prev ps now (u32 next) Hne) as [Hs Ha].
    unfold Offcpu.handle_sched_switch, Offcpu.switch_in, bpf_map_lookup_elem.
    cbn [snd]. rewrite Hs, Hin.
    destruct (_ >? 1); [| by rewrite Hs].
    destruct (Z.gtb_spec tsp 0); [lia |]. by rewrite Hs.
Qed.

Lemma off_cpu_time_is_added_witness :
  entries (Offcpu.offcpu_start
             (snd (Offcpu.handle_sched_switch 7 0 9 1000 Offcpu.init))) !! u32 7
  = Some 1000 /\
  entries (Offcpu.offcpu_start
             (snd (Offcpu.handle_sched_switch 9 1 7 40000000000
                     (snd (Offcpu.handle_sched_switch 7 0 9 1000 Offcpu.init)))))
    !! u32 7 = None /\
  Offcpu.offcpu_accum
    (snd (Offcpu.handle_sched_switch 9 1 7 40000000000
            (snd (Offcpu.handle_sched_switch 7 0 9 1000 Offcpu.init))))
  = Offcpu.offcpu_accum (snd (Offcpu.handle_sched_switch 7 0 9 1000 Offcpu.init)) /\
  exists val',
    entries (Offcpu.offcpu_accum
               (snd (Offcpu.handle_sched_switch 9 1 7 5000
                       (snd (Offcpu.handle_sched_switch 7 0 9 1000 Offcpu.init)))))
      !! u32 7 = Some val' /\
    match entries (Offcpu.offcpu_accum
                     (snd (Offcpu.handle_sched_switch 7 0 9 1000 Offcpu.init))) !! u32 7 with
    | Some val =>
        Offcpu.total_ns val' = u64 (Offcpu.total_ns val + u64 (5000 - 1000)) /\
        Offcpu.count val' = u32 (Offcpu.count val + 1)
    | None =>
        Offcpu.total_ns val' = u64 (5000 - 1000) /\ Offcpu.count val' = 1
    end.
Proof.
  split; [reflexivity |]. repeat apply conj.
  - apply (proj1 off_cpu_time_is_added
             (snd (Offcpu.handle_sched_switch 7 0 9 1000 Offcpu.init))
             9 1 7 40000000000 1000).
    + reflexivity.
    + vm_compute. discriminate.
    + reflexivity.
    + lia.
  - apply (proj1 (proj2 (proj2 off_cpu_time_is_added))
             (snd (Offcpu.handle_sched_switch 7 0 9 1000 Offcpu.init))
             9 1 7 40000000000 1000).
    + vm_compute. discriminate.
    + reflexivity.
    + vm_compute. discriminate.
  - apply (proj1 (proj2 off_cpu_time_is_added)
             (snd (Offcpu.handle_sched_switch 7 0 9 1000 Offcpu.init)) 9 1 7 5000 1000).
    + reflexivity.
    + vm_compute. discriminate.
    + reflexivity.
    + lia.
    + reflexivity.
    + right. vm_compute. lia.
Defined.

(** ** One key per event *)

Section SameElsewhere.
Context {K V : Type} `{Countable K}.
Implicit Types (m : bpf_map K V) (k : K) (v : V).

Lemma same_elsewhere_refl k m : same_elsewhere k m m.
Proof. by intros k' Hne. Qed.

Lemma same_elsewhere_store k m v : same_elsewhere k m (store_elem m k v).
Proof. intros k' Hne. by apply lookup_store_ne. Qed.

Lemma same_elsewhere_update k m v fl :
  same_elsewhere k m (snd (bpf_map_update_elem m k v fl)).
Proof. intros k' Hne. by apply lookup_update_ne. Qed.

Lemma same_elsewhere_delete k m :
  same_elsewhere k m (snd (bpf_map_delete_elem m k)).
Proof. intros k' Hne. by apply lookup_delete_elem_ne. Qed.
End SameElsewhere.

Ltac follow_key :=
  intros; unfold bpf_map_lookup_elem;
  repeat case_match;
  cbn [fst snd
       Runqlat.rq_start Runqlat.rqlat_accum
       Syscalldissect.sc_start Syscalldissect.sc_accum
       Iolatency.inflight Iolatency.iolat_hist
       Tcpconnlat.conn_inflight Tcpconnlat.connlat_accum];
  first
    [ apply same_elsewhere_refl
    | apply same_elsewhere_store
    | apply same_elsewhere_update
    | apply same_elsewhere_delete ].

(** X18. An event touches the entries of its own keys only.  In
    [runqlat.c] the pairing entries and the records of the other PIDs are
    as before; in [syscalldissect.c] the records of the other (PID,
    syscall) pairs, those of the other syscalls of the same process
    included; in [iolatency.c] the other requests in flight; in
    [tcpconnlat.c] the other sockets in flight. *)
Theorem events_touch_their_own_key :
  (forall st p t,
      same_elsewhere (u32 p) (Runqlat.rq_start st)
        (Runqlat.rq_start (snd (Runqlat.handle_sched_wakeup p t st))) /\
      same_elsewhere (u32 p) (Runqlat.rq_start st)
        (Runqlat.rq_start (snd (Runqlat.handle_sched_switch_rqlat p t st))) /\
      same_elsewhere (u32 p) (Runqlat.rqlat_accum st)
        (Runqlat.rqlat_accum (snd (Runqlat.handle_sched_switch_rqlat p t st)))) /\
  (forall st id p t,
      same_elsewhere (tgid_of p) (Syscalldissect.sc_start st)
        (Syscalldissect.sc_start (snd (Syscalldissect.handle_sys_enter p t st))) /\
      same_elsewhere (tgid_of p) (Syscalldissect.sc_start st)
        (Syscalldissect.sc_start (snd (Syscalldissect.handle_sys_exit id p t st))) /\
      same_elsewhere
        {| Syscalldissect.key_pid := tgid_of p; Syscalldissect.syscall_nr := u32 id |}
        (Syscalldissect.sc_accum st)
        (Syscalldissect.sc_accum (snd (Syscalldissect.handle_sys_exit id p t st)))) /\
  (forall st dev sector pad p t,
      same_elsewhere {| Iolatency.key_dev := dev; Iolatency.key_pad := pad; Iolatency.key_sector := sector |}
        (Iolatency.inflight st)
        (Iolatency.inflight (snd (Iolatency.handle_block_rq_issue dev sector pad p t st))) /\
      same_elsewhere {| Iolatency.key_dev := dev; Iolatency.key_pad := pad; Iolatency.key_sector := sector |}
        (Iolatency.inflight st)
        (Iolatency.inflight (snd (Iolatency.handle_block_rq_complete dev sector pad t st)))) /\
  (forall st sk ctx p t,
      same_elsewhere (u64 sk) (Tcpconnlat.conn_inflight st)
        (Tcpconnlat.conn_inflight (snd (Tcpconnlat.handle_tcp_v4_connect sk p t st))) /\
      same_elsewhere (u64 (Tcpconnlat.skaddr ctx)) (Tcpconnlat.conn_inflight st)
        (Tcpconnlat.conn_inflight (snd (Tcpconnlat.handle_set_state ctx t st)))).
Proof.
  repeat apply conj.
  - intros st p t. repeat apply conj.
    + unfold Runqlat.handle_sched_wakeup. follow_key.
    + unfold Runqlat.handle_sched_switch_rqlat. follow_key.
    + unfold Runqlat.handle_sched_switch_rqlat. follow_key.
  - intros st id p t. repeat apply conj.
    + unfold Syscalldissect.handle_sys_enter. follow_key.
    + unfold Syscalldissect.handle_sys_exit. follow_key.
    + unfold Syscalldissect.handle_sys_exit. follow_key.
  - intros st dev sector pad p t. repeat apply conj.
    + unfold Iolatency.handle_block_rq_issue. follow_key.
    + unfold Iolatency.handle_block_rq_complete. follow_key.
  - intros st sk ctx p t. repeat apply conj.
    + unfold Tcpconnlat.handle_tcp_v4_connect. follow_key.
    + unfold Tcpconnlat.handle_set_state. follow_key.
Qed.

(** ** The last execution of [execsnoop.c] *)

Lemma low_word uid gid : 0 <= uid < 2 ^ 32 -> u32 (Z.land (gid * 2 ^ 32 + uid) 0xFFFFFFFF) = uid.
Proof.
  intros Huid. change 0xFFFFFFFF with (Z.ones 32). rewrite Z.land_ones by lia.
  unfold u32. rewrite Z.mod_mod by lia.
  rewrite Z.add_comm, Z_mod_plus_full. apply Z.mod_small. exact Huid.
Qed.

Lemma c_string_terminated (str rest : list byte) :
  Forall (fun b => b <> x00) str ->
  Execsnoop.c_string (str ++ x00 :: rest) = str.
Proof.
  induction 1 as [| b str Hb _ IH]; [reflexivity |].
  cbn [app Execsnoop.c_string].
  destruct (Byte.eqb b x00) eqn:Heq.
  - apply Byte.byte_dec_bl in Heq. contradiction.
  - by rewrite IH.
Qed.

Lemma length_probe_read_str (n : nat) (src buf : list byte) :
  length buf = n -> (0 < n)%nat ->
  length (Execsnoop.probe_read_str n src buf) = n.
Proof.
  intros Hbuf Hn. unfold Execsnoop.probe_read_str.
  rewrite length_app. cbn [length]. rewrite length_skipn, length_firstn. lia.
Qed.

(** X19. The record of a process in [execsnoop.c] describes its last
    execution: after an exec event of a non-zero PID that finds room, the
    record holds the time, the parent and the command of this event and, of
    the combined uid/gid word, the uid (its low 32 bits); the count is 1 for
    a new record and the old count plus 1 modulo 2^64 otherwise.  The file
    name is written over the start of the stored buffer, cut to 127 bytes
    and followed by a NUL: read as a string, the buffer gives the file name
    of this event, and keeps its 128 bytes; behind the NUL a new record
    holds zero bytes and an existing one the bytes it held before, those of
    a longer earlier name among them. *)
Theorem exec_record_is_last_execution :
  forall st ev uid gid,
    tgid_of (Execsnoop.pid_tgid ev) <> 0 ->
    Execsnoop.uid_gid ev = gid * 2 ^ 32 + uid -> 0 <= uid < 2 ^ 32 ->
    has_room (Execsnoop.exec_accum st) (tgid_of (Execsnoop.pid_tgid ev)) ->
    Forall (fun b => b <> x00) (Execsnoop.cur_filename ev) ->
    let old := entries (Execsnoop.exec_accum st) !! tgid_of (Execsnoop.pid_tgid ev) in
    let name := firstn 127 (Execsnoop.cur_filename ev) in
    let stored :=
      match old with
      | Some val => Execsnoop.filename val
      | None => repeat x00 128
      end in
    exists val',
      entries (Execsnoop.exec_accum (snd (Execsnoop.handle_sched_process_exec ev st)))
        !! tgid_of (Execsnoop.pid_tgid ev) = Some val' /\
      Execsnoop.count val'
      = match old with
        | Some val => u64 (Execsnoop.count val + 1)
        | None => 1
        end /\
      Execsnoop.ts val' = Execsnoop.now ev /\
      Execsnoop.ppid val' = u32 (Execsnoop.parent_tgid ev) /\
      Execsnoop.uid val' = uid /\
      Execsnoop.comm val' = Execsnoop.cur_comm ev /\
      Execsnoop.filename val' = name ++ x00 :: skipn (length name + 1) stored /\
      Execsnoop.c_string (Execsnoop.filename val') = name /\
      (length stored = 128%nat -> length (Execsnoop.filename val') = 128%nat).
Proof.
  intros st ev uid gid Hp Hug Huid Hroom Hname old name stored.
  assert (Forall (fun b => b <> x00) name) as Hcut
    by (apply Forall_take; exact Hname).
  assert (exists val',
    entries (Execsnoop.exec_accum (snd (Execsnoop.handle_sched_process_exec ev st)))
      !! tgid_of (Execsnoop.pid_tgid ev) = Some val' /\
    val' = {| Execsnoop.count :=
                match old with
                | Some val => u64 (Execsnoop.count val + 1)
                | None => 1
                end;
              Execsnoop.ts := Execsnoop.now ev;
              Execsnoop.ppid := u32 (Execsnoop.parent_tgid ev);
              Execsnoop.uid := uid;
              Execsnoop.comm := Execsnoop.cur_comm ev;
              Execsnoop.filename :=
                Execsnoop.probe_read_str 128 (Execsnoop.cur_filename ev) stored |})
    as (val' & Hlook & ->).
  { unfold Execsnoop.handle_sched_process_exec, bpf_map_lookup_elem.
    destruct (Z.eqb_spec (tgid_of (Execsnoop.pid_tgid ev)) 0); [contradiction |].
    rewrite Hug, low_word by exact Huid.
    unfold stored, old.
    destruct (entries (Execsnoop.exec_accum st) !! _) as [val |] eqn:Hk.
    - cbn [snd Execsnoop.exec_accum]. eexists. split; [apply lookup_store_eq |].
      reflexivity.
    - destruct Hroom as [[w Hw] | Hlt]; [congruence |].
      rewrite update_noexist_room by assumption.
      cbn [snd Execsnoop.exec_accum]. eexists. split; [apply lookup_store_eq |].
      reflexivity. }
  exists (
    {| Execsnoop.count :=
         match old with
         | Some val => u64 (Execsnoop.count val + 1)
         | None => 1
         end;
       Execsnoop.ts := Execsnoop.now ev;
       Execsnoop.ppid := u32 (Execsnoop.parent_tgid ev);
       Execsnoop.uid := uid;
       Execsnoop.comm := Execsnoop.cur_comm ev;
       Execsnoop.filename :=
         Execsnoop.probe_read_str 128 (Execsnoop.cur_filename ev) stored |}).
  split; [exact Hlook |].
  cbn [Execsnoop.count Execsnoop.ts Execsnoop.ppid Execsnoop.uid Execsnoop.comm
       Execsnoop.filename].
  repeat apply conj; try reflexivity.
  - unfold Execsnoop.probe_read_str. change (128 - 1)%nat with 127%nat.
    fold name. apply c_string_terminated. exact Hcut.
  - intros Hlen. apply length_probe_read_str; [exact Hlen | lia].
Qed.

Lemma exec_record_is_last_execution_witness :
  exists val',
    entries (Execsnoop.exec_accum
               (snd (Execsnoop.handle_sched_process_exec
                       {| Execsnoop.pid_tgid := Z.shiftl 7 32;
                          Execsnoop.uid_gid := 100 * 2 ^ 32 + 1000;
                          Execsnoop.parent_tgid := 1; Execsnoop.now := 9000;
                          Execsnoop.cur_comm := list_byte_of_string "sh";
                          Execsnoop.cur_filename := list_byte_of_string "/bin/sh" |}
                       (snd (Execsnoop.handle_sched_process_exec
                               {| Execsnoop.pid_tgid := Z.shiftl 7 32;
                                  Execsnoop.uid_gid := 100 * 2 ^ 32 + 1000;
                                  Execsnoop.parent_tgid := 1; Execsnoop.now := 5000;
                                  Execsnoop.cur_comm := list_byte_of_string "python3";
                                  Execsnoop.cur_filename :=
                                    list_byte_of_string "/usr/bin/python3" |}
                               Execsnoop.init)))))
      !! tgid_of (Z.shiftl 7 32) = Some val' /\
    Execsnoop.count val' = 2 /\
    Execsnoop.ts val' = 9000 /\
    Execsnoop.uid val' = 1000 /\
    Execsnoop.comm val' = list_byte_of_string "sh" /\
    firstn 17 (Execsnoop.filename val')
    = list_byte_of_string "/bin/sh" ++ x00 :: list_byte_of_string "/python3" ++ [x00] /\
    Execsnoop.c_string (Execsnoop.filename val') = list_byte_of_string "/bin/sh" /\
    length (Execsnoop.filename val') = 128%nat.
Proof.
  destruct (exec_record_is_last_execution
              (snd (Execsnoop.handle_sched_process_exec
                      {| Execsnoop.pid_tgid := Z.shiftl 7 32;
                         Execsnoop.uid_gid := 100 * 2 ^ 32 + 1000;
                         Execsnoop.parent_tgid := 1; Execsnoop.now := 5000;
                         Execsnoop.cur_comm := list_byte_of_string "python3";
                         Execsnoop.cur_filename :=
                           list_byte_of_string "/usr/bin/python3" |}
                      Execsnoop.init))
              {| Execsnoop.pid_tgid := Z.shiftl 7 32;
                 Execsnoop.uid_gid := 100 * 2 ^ 32 + 1000;
                 Execsnoop.parent_tgid := 1; Execsnoop.now := 9000;
                 Execsnoop.cur_comm := list_byte_of_string "sh";
                 Execsnoop.cur_filename := list_byte_of_string "/bin/sh" |} 1000 100)
    as (val' & Hlook & Hcount & Hts & _ & Huid & Hcomm & Hfile & Hstr & Hlen).
  - vm_compute. discriminate.
  - reflexivity.
  - lia.
  - left. eexists. vm_compute. reflexivity.
  - cbn. repeat constructor; discriminate.
  - exists val'. split; [exact Hlook |].
    repeat apply conj.
    + rewrite Hcount. vm_compute. reflexivity.
    + exact Hts.
    + exact Huid.
    + exact Hcomm.
    + rewrite Hfile. vm_compute. reflexivity.
    + rewrite Hstr. vm_compute. reflexivity.
    + apply Hlen. vm_compute. reflexivity.
Defined.

(** ** Events in kernel context *)

(** X20. [tcpretrans.c] and [tcpreset.c] have no PID filter: an event seen
    in kernel context, where the PID is 0, is counted under key 0 like any
    other, the record taking the endpoint of the event. *)
Theorem kernel_context_is_recorded :
  (forall st sport dport daddr pid_tgid,
      tgid_of pid_tgid = 0 ->
      has_room (Tcpretrans.retrans_accum st) 0 ->
      entries (Tcpretrans.retrans_accum
                 (snd (Tcpretrans.handle_tcp_retransmit sport dport daddr pid_tgid st))) !! 0
      = Some {| Tcpretrans.count :=
                  match entries (Tcpretrans.retrans_accum st) !! 0 with
                  | Some val => u32 (Tcpretrans.count val + 1)
                  | None => 1
                  end;
                Tcpretrans.last_sport := sport; Tcpretrans.last_dport := dport;
                Tcpretrans.last_daddr := daddr |}) /\
  (forall st daddr dport pid_tgid,
      tgid_of pid_tgid = 0 ->
      has_room (Tcpreset.reset_accum st) 0 ->
      entries (Tcpreset.reset_accum
                 (snd (Tcpreset.handle_tcp_send_reset daddr dport pid_tgid st))) !! 0
      = Some {| Tcpreset.count :=
                  match entries (Tcpreset.reset_accum st) !! 0 with
                  | Some val => u64 (Tcpreset.count val + 1)
                  | None => 1
                  end;
                Tcpreset.last_daddr := u32 daddr; Tcpreset.last_dport := u16 dport |}).
Proof.
  split.
  - intros st sport dport daddr p Hp Hroom.
    unfold Tcpretrans.handle_tcp_retransmit, bpf_map_lookup_elem. rewrite Hp.
    destruct (entries (Tcpretrans.retrans_accum st) !! 0) as [val |] eqn:Hk.
    + cbn [snd Tcpretrans.retrans_accum]. apply lookup_store_eq.
    + destruct Hroom as [[w Hw] | Hlt]; [congruence |].
      rewrite update_noexist_room by assumption.
      cbn [snd Tcpretrans.retrans_accum]. apply lookup_store_eq.
  - intros st daddr dport p Hp Hroom.
    unfold Tcpreset.handle_tcp_send_reset, bpf_map_lookup_elem. rewrite Hp.
    destruct (entries (Tcpreset.reset_accum st) !! 0) as [val |] eqn:Hk.
    + cbn [snd Tcpreset.reset_accum]. apply lookup_store_eq.
    + destruct Hroom as [[w Hw] | Hlt]; [congruence |].
      rewrite update_noexist_room by assumption.
      cbn [snd Tcpreset.reset_accum]. apply lookup_store_eq.
Qed.

Lemma kernel_context_is_recorded_witness :
  tgid_of 0 = 0 /\
  entries (Tcpretrans.retrans_accum
             (snd (Tcpretrans.handle_tcp_retransmit 443 51000 16777343 0 Tcpretrans.init)))
    !! 0
  = Some {| Tcpretrans.count :=
              match entries (Tcpretrans.retrans_accum Tcpretrans.init) !! 0 with
              | Some val => u32 (Tcpretrans.count val + 1)
              | None => 1
              end;
            Tcpretrans.last_sport := 443; Tcpretrans.last_dport := 51000;
            Tcpretrans.last_daddr := 16777343 |}.
Proof.
  split; [reflexivity |].
  apply (proj1 kernel_context_is_recorded Tcpretrans.init 443 51000 16777343 0).
  - reflexivity.
  - right. vm_compute. lia.
Defined.

(** ** Timestamps out of order *)

Lemma u64_negative d : - 2 ^ 64 < d < 0 -> u64 d = 2 ^ 64 + d.
Proof.
  intros Hd. unfold u64.
  replace d with (2 ^ 64 + d + (-1) * 2 ^ 64) at 1 by lia.
  rewrite Z_mod_plus_full. apply Z.mod_small. lia.
Qed.

(** X21. The subtraction of the timestamps is unsigned, so an end whose
    time is before the time of its begin gives a duration near 2^64.  The
    staleness test of [runqlat.c] discards it and leaves the table as it
    was; [handle_block_rq_complete], which has no such test, merges it: a
    new record takes [2^64 - (t1 - t2)] ns as its total and maximum. *)
Theorem end_before_begin :
  (forall st next_tgid t1 t2,
      entries (Runqlat.rq_start st) !! u32 next_tgid = Some t1 ->
      t2 < t1 -> t1 - t2 < 2 ^ 64 - Runqlat.STALE_NS ->
      Runqlat.rqlat_accum (snd (Runqlat.handle_sched_switch_rqlat next_tgid t2 st))
      = Runqlat.rqlat_accum st) /\
  (forall st dev sector pad t1 t2 start,
      entries (Iolatency.inflight st)
        !! {| Iolatency.key_dev := dev; Iolatency.key_pad := pad; Iolatency.key_sector := sector |} = Some start ->
      Iolatency.start_ns start = t1 -> Iolatency.pid start <> 0 ->
      t2 < t1 -> t1 - t2 < 2 ^ 64 ->
      entries (Iolatency.iolat_hist st) !! Iolatency.pid start = None ->
      (size (entries (Iolatency.iolat_hist st)) < max_entries (Iolatency.iolat_hist st))%nat ->
      exists val',
        entries (Iolatency.iolat_hist
                   (snd (Iolatency.handle_block_rq_complete dev sector pad t2 st)))
          !! Iolatency.pid start = Some val' /\
        Iolatency.total_ns val' = 2 ^ 64 - (t1 - t2) /\
        Iolatency.max_ns val' = 2 ^ 64 - (t1 - t2) /\
        Iolatency.count val' = 1).
Proof.
  split.
  - intros st p t1 t2 Hin Hlt Hd.
    unfold Runqlat.handle_sched_switch_rqlat, bpf_map_lookup_elem. rewrite Hin.
    destruct (_ =? 0); [reflexivity |].
    rewrite u64_negative by (unfold Runqlat.STALE_NS in Hd; lia).
    destruct (Z.gtb_spec (2 ^ 64 + (t2 - t1)) Runqlat.STALE_NS); [reflexivity | lia].
  - intros st dev sector pad t1 t2 start Hin Hts Hp Hlt Hd Hk Hroom.
    unfold Iolatency.handle_block_rq_complete, bpf_map_lookup_elem.
    rewrite Hin, Hts, Hk.
    rewrite u64_negative by lia.
    destruct (Z.eqb_spec (2 ^ 64 + (t2 - t1)) 0); [lia |].
    destruct (Z.eqb_spec (Iolatency.pid start) 0); [contradiction |]. cbn [orb].
    rewrite update_noexist_room by assumption.
    cbn [snd Iolatency.iolat_hist]. eexists. split; [apply lookup_store_eq |].
    cbn [Iolatency.total_ns Iolatency.max_ns Iolatency.count].
    repeat split; lia.
Qed.

Lemma end_before_begin_witness :
  entries (Runqlat.rq_start (snd (Runqlat.handle_sched_wakeup 7 5000 Runqlat.init)))
    !! u32 7 = Some 5000 /\
  Runqlat.rqlat_accum
    (snd (Runqlat.handle_sched_switch_rqlat 7 4000
            (snd (Runqlat.handle_sched_wakeup 7 5000 Runqlat.init))))
  = Runqlat.rqlat_accum (snd (Runqlat.handle_sched_wakeup 7 5000 Runqlat.init)).
Proof.
  split; [reflexivity |].
  apply (proj1 end_before_begin
           (snd (Runqlat.handle_sched_wakeup 7 5000 Runqlat.init)) 7 5000 4000).
  - reflexivity.
  - lia.
  - vm_compute. reflexivity.
Defined.

(** ** A begin followed by its end, in the other probes *)

Lemma major_bit ret :
  (if Z.land ret Pgfault.VM_FAULT_MAJOR =? 0 then 0 else 1)
  = if Z.testbit ret 2 then 1 else 0.
Proof.
  assert (Z.land ret (2 ^ 2) = if Z.testbit ret 2 then 2 ^ 2 else 0) as Hland.
  { apply Z.bits_inj'. intros i Hi. rewrite Z.land_spec, Z.pow2_bits_eqb by lia.
    destruct (Z.eqb_spec 2 i) as [<- | Hne].
    - destruct (Z.testbit ret 2); [| by rewrite Z.bits_0].
      by rewrite Z.pow2_bits_eqb.
    - rewrite andb_false_r.
      destruct (Z.testbit ret 2); [| by rewrite Z.bits_0].
      rewrite Z.pow2_bits_eqb by lia. symmetry. by apply Z.eqb_neq. }
  change Pgfault.VM_FAULT_MAJOR with (2 ^ 2). rewrite Hland.
  by destruct (Z.testbit ret 2).
Qed.

(** X22. The begin/end pairs of [pgfault.c], [syscalldissect.c],
    [directreclaim.c] and [sockio.c] add one sample: for a non-zero PID, a
    begin at [t1] that finds room followed by the end at [t2 >= t1] with
    [t2 - t1] not above the ceiling (5 s for page faults, 30 s for the
    others) leaves, when the accumulation table has room for the key, a
    record with the duration added to the total and 1 to the count.  A page
    fault is also counted as major when bit 2 of the return value is set;
    the syscall sample goes to the syscall number seen at the exit; the
    receive wait goes to the endpoint seen at the entry. *)
Theorem other_probes_add_one_sample :
  (forall st ret pid_tgid t1 t2,
      tgid_of pid_tgid <> 0 ->
      t1 <= t2 -> t2 - t1 <= Pgfault.STALE_NS ->
      has_room (Pgfault.pgfault_start st) (tgid_of pid_tgid) ->
      has_room (Pgfault.pgfault_accum st) (tgid_of pid_tgid) ->
      entries (Pgfault.pgfault_accum
                 (snd (Pgfault.handle_fault_exit ret pid_tgid t2
                         (snd (Pgfault.handle_fault_enter pid_tgid t1 st)))))
        !! tgid_of pid_tgid
      = Some
          match entries (Pgfault.pgfault_accum st) !! tgid_of pid_tgid with
          | Some val =>
              {| Pgfault.total_ns := u64 (Pgfault.total_ns val + (t2 - t1));
                 Pgfault.count := u32 (Pgfault.count val + 1);
                 Pgfault.major_count :=
                   if Z.testbit ret 2 then u32 (Pgfault.major_count val + 1)
                   else Pgfault.major_count val |}
          | None =>
              {| Pgfault.total_ns := t2 - t1; Pgfault.count := 1;
                 Pgfault.major_count := if Z.testbit ret 2 then 1 else 0 |}
          end) /\
  (forall st ctx_id pid_tgid t1 t2,
      let key := {| Syscalldissect.key_pid := tgid_of pid_tgid;
                    Syscalldissect.syscall_nr := u32 ctx_id |} in
      tgid_of pid_tgid <> 0 ->
      t1 <= t2 -> t2 - t1 <= Syscalldissect.STALE_NS ->
      has_room (Syscalldissect.sc_start st) (tgid_of pid_tgid) ->
      has_room (Syscalldissect.sc_accum st) key ->
      entries (Syscalldissect.sc_accum
                 (snd (Syscalldissect.handle_sys_exit ctx_id pid_tgid t2
                         (snd (Syscalldissect.handle_sys_enter pid_tgid t1 st)))))
        !! key
      = Some
          match entries (Syscalldissect.sc_accum st) !! key with
          | Some val =>
              {| Syscalldissect.total_ns := u64 (Syscalldissect.total_ns val + (t2 - t1));
                 Syscalldissect.count := u32 (Syscalldissect.count val + 1);
                 Syscalldissect.max_ns :=
                   Z.max (Syscalldissect.max_ns val) (delta32 (t2 - t1)) |}
          | None =>
              {| Syscalldissect.total_ns := t2 - t1; Syscalldissect.count := 1;
                 Syscalldissect.max_ns := delta32 (t2 - t1) |}
          end) /\
  (forall st pid_tgid t1 t2,
      tgid_of pid_tgid <> 0 ->
      t1 <= t2 -> t2 - t1 <= Directreclaim.STALE_NS ->
      has_room (Directreclaim.reclaim_start st) (tgid_of pid_tgid) ->
      has_room (Directreclaim.reclaim_accum st) (tgid_of pid_tgid) ->
      entries (Directreclaim.reclaim_accum
                 (snd (Directreclaim.handle_reclaim_end pid_tgid t2
                         (snd (Directreclaim.handle_reclaim_begin pid_tgid t1 st)))))
        !! tgid_of pid_tgid
      = Some
          match entries (Directreclaim.reclaim_accum st) !! tgid_of pid_tgid with
          | Some val =>
              {| Directreclaim.stall_ns := u64 (Directreclaim.stall_ns val + (t2 - t1));
                 Directreclaim.count := u32 (Directreclaim.count val + 1) |}
          | None => {| Directreclaim.stall_ns := t2 - t1; Directreclaim.count := 1 |}
          end) /\
  (forall st daddr dport pid_tgid t1 t2,
      let key := {| Sockio.key_pid := tgid_of pid_tgid; Sockio.key_daddr := u32 daddr;
                    Sockio.key_dport := bswap16 (u16 dport); Sockio.key_pad := 0 |} in
      tgid_of pid_tgid <> 0 ->
      t1 <= t2 -> t2 - t1 <= Sockio.STALE_NS ->
      has_room (Sockio.recv_inflight st) (tgid_of pid_tgid) ->
      has_room (Sockio.sockio_accum st) key ->
      entries (Sockio.sockio_accum
                 (snd (Sockio.handle_tcp_recvmsg_exit pid_tgid t2
                         (snd (Sockio.handle_tcp_recvmsg_enter daddr dport pid_tgid t1 st)))))
        !! key
      = Some
          match entries (Sockio.sockio_accum st) !! key with
          | Some val =>
              {| Sockio.tx_bytes := Sockio.tx_bytes val;
                 Sockio.rx_bytes := Sockio.rx_bytes val;
                 Sockio.recv_wait_ns := u64 (Sockio.recv_wait_ns val + (t2 - t1));
                 Sockio.recv_count := u32 (Sockio.recv_count val + 1);
                 Sockio.max_recv_ns :=
                   Z.max (Sockio.max_recv_ns val) (delta32 (t2 - t1)) |}
          | None =>
              {| Sockio.tx_bytes := 0; Sockio.rx_bytes := 0;
                 Sockio.recv_wait_ns := t2 - t1; Sockio.recv_count := 1;
                 Sockio.max_recv_ns := delta32 (t2 - t1) |}
          end).
Proof.
  repeat apply conj.
  - intros st ret p t1 t2 Hp Hle Hd Hstart Hacc.
    unfold Pgfault.handle_fault_enter.
    destruct (Z.eqb_spec (tgid_of p) 0); [contradiction |].
    rewrite update_any_room by assumption. cbn [snd].
    unfold Pgfault.handle_fault_exit, bpf_map_lookup_elem.
    destruct (Z.eqb_spec (tgid_of p) 0); [contradiction |].
    cbn [Pgfault.pgfault_start Pgfault.pgfault_accum]. rewrite lookup_store_eq.
    rewrite (u64_small (t2 - t1)) by (unfold Pgfault.STALE_NS in Hd; lia).
    destruct (Z.gtb_spec (t2 - t1) Pgfault.STALE_NS); [lia |].
    rewrite major_bit.
    destruct (entries (Pgfault.pgfault_accum st) !! tgid_of p) as [val |] eqn:Hk.
    + cbn [snd Pgfault.pgfault_accum]. rewrite lookup_store_eq.
      by destruct (Z.testbit ret 2).
    + destruct Hacc as [[w Hw] | Hlt]; [congruence |].
      rewrite update_noexist_room by assumption.
      cbn [snd Pgfault.pgfault_accum]. rewrite lookup_store_eq.
      by destruct (Z.testbit ret 2).
  - intros st id p t1 t2 key Hp Hle Hd Hstart Hacc.
    unfold Syscalldissect.handle_sys_enter.
    destruct (Z.eqb_spec (tgid_of p) 0); [contradiction |].
    rewrite update_any_room by assumption. cbn [snd].
    unfold Syscalldissect.handle_sys_exit, bpf_map_lookup_elem.
    destruct (Z.eqb_spec (tgid_of p) 0); [contradiction |].
    cbn [Syscalldissect.sc_start Syscalldissect.sc_accum]. rewrite lookup_store_eq.
    rewrite (u64_small (t2 - t1)) by (unfold Syscalldissect.STALE_NS in Hd; lia).
    destruct (Z.gtb_spec (t2 - t1) Syscalldissect.STALE_NS); [lia |]. fold key.
    destruct (entries (Syscalldissect.sc_accum st) !! key) as [val |] eqn:Hk.
    + cbn [snd Syscalldissect.sc_accum]. rewrite lookup_store_eq.
      do 2 f_equal.
      destruct (Z.gtb_spec (delta32 (t2 - t1)) (Syscalldissect.max_ns val)); lia.
    + destruct Hacc as [[w Hw] | Hlt]; [congruence |].
      rewrite update_noexist_room by assumption.
      cbn [snd Syscalldissect.sc_accum]. apply lookup_store_eq.
  - intros st p t1 t2 Hp Hle Hd Hstart Hacc.
    unfold Directreclaim.handle_reclaim_begin.
    destruct (Z.eqb_spec (tgid_of p) 0); [contradiction |].
    rewrite update_any_room by assumption. cbn [snd].
    unfold Directreclaim.handle_reclaim_end, bpf_map_lookup_elem.
    destruct (Z.eqb_spec (tgid_of p) 0); [contradiction |].
    cbn [Directreclaim.reclaim_start Directreclaim.reclaim_accum].
    rewrite lookup_store_eq.
    rewrite (u64_small (t2 - t1)) by (unfold Directreclaim.STALE_NS in Hd; lia).
    destruct (Z.gtb_spec (t2 - t1) Directreclaim.STALE_NS); [lia |].
    destruct (entries (Directreclaim.reclaim_accum st) !! tgid_of p) as [val |] eqn:Hk.
    + cbn [snd Directreclaim.reclaim_accum]. apply lookup_store_eq.
    + destruct Hacc as [[w Hw] | Hlt]; [congruence |].
      rewrite update_noexist_room by assumption.
      cbn [snd Directreclaim.reclaim_accum]. apply lookup_store_eq.
  - intros st daddr dport p t1 t2 key Hp Hle Hd Hstart Hacc.
    unfold Sockio.handle_tcp_recvmsg_enter.
    destruct (Z.eqb_spec (tgid_of p) 0); [contradiction |].
    rewrite update_any_room by assumption. cbn [snd].
    unfold Sockio.handle_tcp_recvmsg_exit, bpf_map_lookup_elem.
    destruct (Z.eqb_spec (tgid_of p) 0); [contradiction |].
    cbn [Sockio.recv_inflight Sockio.sockio_accum]. rewrite lookup_store_eq.
    cbn [Sockio.ts Sockio.daddr Sockio.dport]. fold key.
    rewrite (u64_small (t2 - t1)) by (unfold Sockio.STALE_NS in Hd; lia).
    destruct (Z.gtb_spec (t2 - t1) Sockio.STALE_NS); [lia |].
    destruct (entries (Sockio.sockio_accum st) !! key) as [val |] eqn:Hk.
    + cbn [snd Sockio.sockio_accum]. rewrite lookup_store_eq.
      do 2 f_equal.
      destruct (Z.gtb_spec (delta32 (t2 - t1)) (Sockio.max_recv_ns val)); lia.
    + destruct Hacc as [[w Hw] | Hlt]; [congruence |].
      rewrite update_noexist_room by assumption.
      cbn [snd Sockio.sockio_accum]. apply lookup_store_eq.
Qed.

Lemma other_probes_add_one_sample_witness :
  has_room (Pgfault.pgfault_start Pgfault.init) (tgid_of (Z.shiftl 7 32)) /\
  entries (Pgfault.pgfault_accum
             (snd (Pgfault.handle_fault_exit 4 (Z.shiftl 7 32) 2000
                     (snd (Pgfault.handle_fault_enter (Z.shiftl 7 32) 1000 Pgfault.init)))))
    !! tgid_of (Z.shiftl 7 32)
  = Some
      match entries (Pgfault.pgfault_accum Pgfault.init) !! tgid_of (Z.shiftl 7 32) with
      | Some val =>
          {| Pgfault.total_ns := u64 (Pgfault.total_ns val + (2000 - 1000));
             Pgfault.count := u32 (Pgfault.count val + 1);
             Pgfault.major_count :=
               if Z.testbit 4 2 then u32 (Pgfault.major_count val + 1)
               else Pgfault.major_count val |}
      | None =>
          {| Pgfault.total_ns := 2000 - 1000; Pgfault.count := 1;
             Pgfault.major_count := if Z.testbit 4 2 then 1 else 0 |}
      end.
Proof.
  assert (forall V (m : bpf_map Z V), entries m = ∅ -> max_entries m = 10240%nat ->
            has_room m (tgid_of (Z.shiftl 7 32))) as Hroom.
  { intros V m He Hm. right. rewrite He, Hm, map_size_empty. vm_compute. lia. }
  split; [by apply Hroom |].
  apply (proj1 other_probes_add_one_sample Pgfault.init 4 (Z.shiftl 7 32) 1000 2000).
  - vm_compute. discriminate.
  - lia.
  - vm_compute. discriminate.
  - by apply Hroom.
  - by apply Hroom.
Defined.
